(** * ComicAI: panel splitting, prompt enhancement, image acquisition and
      panel compositing

    A shallow embedding of the pure logic of [src/utils.py],
    [src/llm_handler.py], [src/image_generator.py] and
    [src/local_image_generator.py], with the properties the specification
    states about them.

    Conventions of the embedding.
    - A Python [str] is the list of its code points ([list N]); [py "..."]
      turns an ASCII literal into such a list.
    - A Python [int] is a [Z]; [len] returns a [Z].
    - A function that can raise returns a [res]: [Ret v] or [Raise e].
    - The text and image services and the Pillow font metrics are opaque
      collaborators: their answers are parameters of the functions that call
      them. So is what Pillow refuses: the images it cannot resize or
      enhance ([Runtime]) and the sizes it cannot make an image of
      ([Limits]). *)

From Stdlib Require Import ZArith NArith QArith String Ascii List Lia DecimalString
  DecimalZ.
From Equations Require Import Equations.
From stdpp Require Import base option numbers list gmap.

Local Open Scope Z_scope.

(* ===================================================================== *)
(** * Python values and built-ins used by the sources                    *)
(* ===================================================================== *)

Abbreviation pystr := (list N).

Fixpoint py (s : string) : pystr :=
  match s with
  | EmptyString => []
  | String c s' => N_of_ascii c :: py s'
  end.

(** [len(x)] *)
Definition len {A} (l : list A) : Z := Z.of_nat (length l).

(** Truth value of a sequence: empty is falsy. *)
Definition truthy {A} (l : list A) : bool :=
  match l with [] => false | _ :: _ => true end.

Inductive exn : Type :=
| ZeroDivisionError
| IndexError
| KeyError
| ValueError
| TypeError
| OverflowError
| MemoryError
| OSError.

Inductive res (A : Type) : Type :=
| Ret (a : A)
| Raise (e : exn).
Arguments Ret {A} a.
Arguments Raise {A} e.

#[export] Instance res_ret : MRet res := fun A a => Ret a.
#[export] Instance res_bind : MBind res := fun A B f m =>
  match m with Ret a => f a | Raise e => Raise e end.
#[export] Instance res_fmap : FMap res := fun A B f m =>
  match m with Ret a => Ret (f a) | Raise e => Raise e end.

(** [a // b] on integers: floor division, [ZeroDivisionError] on [b = 0]. *)
Definition floordiv (a b : Z) : res Z :=
  if b =? 0 then Raise ZeroDivisionError else Ret (Z.div a b).

(** [range(n)] *)
Definition range (n : Z) : list Z := seqZ 0 n.

(** One bound of a slice [l[start:stop]] over a sequence of length [n]:
    a missing bound takes its default, a negative one counts from the end,
    and both are clamped to [0..n]. *)
Definition slice_bound (n dflt : Z) (i : option Z) : Z :=
  match i with
  | None => dflt
  | Some i => if i <? 0 then Z.max (i + n) 0 else Z.min i n
  end.

(** [l[start:stop]] *)
Definition py_slice {A} (l : list A) (start stop : option Z) : list A :=
  let n := len l in
  let a := slice_bound n 0 start in
  let b := slice_bound n n stop in
  take (Z.to_nat (b - a)) (drop (Z.to_nat a) l).

(** [l[i]] for a non-negative index. *)
Definition getitem {A} (l : list A) (i : nat) : res A :=
  match l !! i with Some x => Ret x | None => Raise IndexError end.

(** [str.isspace] on one code point: the white space of [str.split()] and
    [str.strip()]. *)
Definition isspace (c : N) : bool :=
  (((9 <=? c) && (c <=? 13)) || ((28 <=? c) && (c <=? 32))
   || (c =? 133) || (c =? 160) || (c =? 5760)
   || ((8192 <=? c) && (c <=? 8202))
   || (c =? 8232) || (c =? 8233) || (c =? 8239) || (c =? 8287)
   || (c =? 12288))%N.

(** [s.split()]: the maximal runs of non-space characters, in order.
    [cur] is the run being read, reversed. *)
Fixpoint split_from (cur : pystr) (s : pystr) : list pystr :=
  match s with
  | [] => if truthy cur then [rev cur] else []
  | c :: s' =>
      if isspace c
      then (if truthy cur then rev cur :: split_from [] s' else split_from [] s')
      else split_from (c :: cur) s'
  end.

Definition str_split (s : pystr) : list pystr := split_from [] s.

(** [s.split(sep)] for a one-character separator: never empty. *)
Fixpoint str_split_on (sep : N) (s : pystr) : list pystr :=
  match s with
  | [] => [[]]
  | c :: s' =>
      if (c =? sep)%N then [] :: str_split_on sep s'
      else match str_split_on sep s' with
           | h :: t => (c :: h) :: t
           | [] => [[c]]
           end
  end.

(** [s.split(sep, 1)] for a one-character separator: at most one cut. *)
Fixpoint str_split_once (sep : N) (s : pystr) : list pystr :=
  match s with
  | [] => [[]]
  | c :: s' =>
      if (c =? sep)%N then [[]; s']
      else match str_split_once sep s' with
           | h :: t => (c :: h) :: t
           | [] => [[c]]
           end
  end.

(** The text after the first [sep] of [s]: what [s.split(sep, 1)[1]] is
    when [sep] occurs in [s]. *)
Fixpoint str_after (sep : N) (s : pystr) : pystr :=
  match s with
  | [] => []
  | c :: s' => if (c =? sep)%N then s' else str_after sep s'
  end.

Fixpoint lstrip (s : pystr) : pystr :=
  match s with
  | [] => []
  | c :: s' => if isspace c then lstrip s' else s
  end.

(** [s.strip()] *)
Definition str_strip (s : pystr) : pystr := rev (lstrip (rev (lstrip s))).

(** [sep.join(l)] *)
Fixpoint str_join (sep : pystr) (l : list pystr) : pystr :=
  match l with
  | [] => []
  | [w] => w
  | w :: l' => w ++ sep ++ str_join sep l'
  end.

(** [s.startswith(p)] *)
Fixpoint str_startswith (s p : pystr) : bool :=
  match p, s with
  | [], _ => true
  | _ :: _, [] => false
  | a :: p', b :: s' => (a =? b)%N && str_startswith s' p'
  end.

(** [c in s] for one character. *)
Definition char_in (c : N) (s : pystr) : bool := existsb (N.eqb c) s.

(** [p in s]: [p] occurs in [s] as a contiguous run. *)
Fixpoint str_in (p s : pystr) : bool :=
  str_startswith s p || match s with [] => false | _ :: s' => str_in p s' end.

(** [str(i)] for an integer. *)
Definition str_of_int (i : Z) : pystr := py (NilZero.string_of_int (Z.to_int i)).

(** [d[k]] and [d.get(k, dflt)] on a dictionary with string keys. *)
Definition dict_getitem {V} (d : gmap pystr V) (k : pystr) : res V :=
  match d !! k with Some v => Ret v | None => Raise KeyError end.

Definition dict_get {V} (d : gmap pystr V) (k : pystr) (dflt : V) : V :=
  default dflt (d !! k).

(** A string without white space. *)
Definition solid (s : pystr) : Prop := Forall (fun c => isspace c = false) s.

(** A word of [str.split()]: not empty, no white space. *)
Definition is_word (w : pystr) : Prop := w <> [] /\ solid w.

(** A string that does not start with white space. *)
Definition starts_solid (s : pystr) : Prop :=
  match s with
  | [] => True
  | c :: _ => isspace c = false
  end.

(** A string that neither starts nor ends with white space: what
    [str.strip()] leaves unchanged. *)
Definition trimmed (s : pystr) : Prop := starts_solid s /\ starts_solid (rev s).

(** A character of [str(i)]: a digit or the minus sign. *)
Definition numeral (c : N) : Prop := (48 <= c <= 57)%N \/ c = 45%N.

(** [for x in l: st = body st x], where the body can raise. *)
Fixpoint for_each {S A} (body : S -> A -> res S) (st : S) (l : list A) : res S :=
  match l with
  | [] => Ret st
  | x :: l' => st' ← body st x; for_each body st' l'
  end.

(** [enumerate(l)] *)
Fixpoint enumerate_from {A} (i : Z) (l : list A) : list (Z * A) :=
  match l with
  | [] => []
  | x :: l' => (i, x) :: enumerate_from (i + 1) l'
  end.

Definition enumerate {A} (l : list A) : list (Z * A) := enumerate_from 0 l.

(** [try: body except Exception: handler] *)
Definition try_except {A} (body : res A) (handler : exn -> res A) : res A :=
  match body with
  | Ret a => Ret a
  | Raise e => handler e
  end.

(* ===================================================================== *)
(** * src/utils.py                                                       *)
(* ===================================================================== *)

Module utils.

Definition validate_story_input (story_text : pystr) : bool * pystr :=
  if negb (truthy story_text) || negb (truthy (str_strip story_text)) then
    (false, py "Please enter a story or idea.")
  else if len (str_strip story_text) <? 10 then
    (false, py "Story must be at least 10 characters long.")
  else if 1000 <? len story_text then
    (false, py "Story is too long. Please keep it under 1000 characters.")
  else (true, py "").

(** The words of panel [i], lines 105-107: [words[start_idx:end_idx]]. *)
Definition panel_words (words : list pystr) (words_per_panel num_panels i : Z)
  : list pystr :=
  let start_idx := i * words_per_panel in
  let end_idx :=
    if i <? num_panels - 1 then start_idx + words_per_panel else len words in
  py_slice words (Some start_idx) (Some end_idx).

Definition split_story_into_panels (story_text : pystr) (num_panels : Z)
  : res (list pystr) :=
  let words := str_split story_text in
  words_per_panel ← floordiv (len words) num_panels;
  let panels :=
    foldl (fun panels i =>
             panels ++ [str_join (py " ")
                          (panel_words words words_per_panel num_panels i)])
          [] (range num_panels) in
  mret panels.

Definition style_prompts : gmap pystr pystr :=
  {[ py "comic" := py "comic book style, vibrant colors, clear lines";
     py "realistic" := py "photorealistic, detailed, natural lighting";
     py "cartoon" := py "cartoon style, simple shapes, bright colors";
     py "anime" := py "anime style, expressive characters, detailed backgrounds" ]}.

(** [style] is [None] when the caller leaves it out: the parameter then
    takes its default, ["comic"]. *)
Definition create_image_prompt (panel_description : pystr) (style : option pystr)
  : res pystr :=
  let style := default (py "comic") style in
  dflt ← dict_getitem style_prompts (py "comic");
  let style_desc := dict_get style_prompts style dflt in
  mret (panel_description ++ py ", " ++ style_desc
          ++ py ", high quality, clear composition").

(** An exception as [format_error_message] reads it:
    [type(error).__name__] and [str(error)]. *)
Record exception : Type := {
  type_name : pystr;
  message : pystr
}.

Definition error_messages : gmap pystr pystr :=
  {[ py "ConnectionError" := py "Unable to connect to AI service. Please check your internet connection.";
     py "TimeoutError" := py "Request timed out. Please try again.";
     py "ValueError" := py "Invalid input provided. Please check your story text.";
     py "RuntimeError" := py "An error occurred while processing your request. Please try again." ]}.

Definition format_error_message (error : exception) : pystr :=
  let error_type := type_name error in
  dict_get error_messages error_type
    (py "An unexpected error occurred: " ++ message error).

(** [response] is read through its [status_code] and [text]; the result
    comes with the lines given to [logger.error]. *)
Definition validate_api_response (status_code : Z) (text : pystr)
  : bool * list pystr :=
  if status_code =? 200 then (true, [])
  else if status_code =? 401 then (false, [py "API authentication failed"])
  else if status_code =? 429 then (false, [py "API rate limit exceeded"])
  else if 500 <=? status_code then
    (false, [py "Server error: " ++ str_of_int status_code])
  else
    (false, [py "API error: " ++ str_of_int status_code ++ py " - " ++ text]).

End utils.

(* ===================================================================== *)
(** * src/llm_handler.py                                                 *)
(* ===================================================================== *)

Module LLMHandler.

(** What [requests.post] gives [_call_llm_api]: an exception, or a status
    code with the outcome of reading the JSON field [response] as a string
    (absent field: the empty string; a body that is not JSON, or a field
    that is not a string, counts as a raise: the run then ends in the
    fallback as it does in the source). *)
Definition post_outcome : Type := res (Z * res pystr).

Definition quote : pystr := [34%N].
Definition nl : pystr := [10%N].

Definition _create_panel_prompt (story : pystr) (num_panels : Z) : pystr :=
  let n := str_of_int num_panels in
  let ind := py "        " in
  str_strip
    (nl ++ ind ++ py "You are a comic book artist. Break down the following story into "
        ++ n ++ py " comic panels."
     ++ nl ++ ind ++ py "Each panel should be a clear, visual scene that can be illustrated."
     ++ nl ++ ind
     ++ nl ++ ind ++ py "Story: " ++ story
     ++ nl ++ ind
     ++ nl ++ ind ++ py "Please provide " ++ n
        ++ py " panel descriptions, each on a new line starting with "
        ++ quote ++ py "Panel X:" ++ quote ++ py "."
     ++ nl ++ ind ++ py "Make each description visual and specific enough for an artist to draw."
     ++ nl ++ ind ++ py "Keep each description under 50 words."
     ++ nl ++ ind
     ++ nl ++ ind ++ py "Format your response as:"
     ++ nl ++ ind ++ py "Panel 1: [description]"
     ++ nl ++ ind ++ py "Panel 2: [description]"
     ++ nl ++ ind ++ py "..."
     ++ nl ++ ind ++ py "Panel " ++ n ++ py ": [description]"
     ++ nl ++ ind).

Definition _call_llm_api (post : pystr -> post_outcome) (prompt : pystr)
  : option pystr :=
  match post prompt with
  | Ret (status_code, body) =>
      if status_code =? 200 then
        match body with
        | Ret text => Some text
        | Raise _ => None
        end
      else None
  | Raise _ => None
  end.

(** One turn of the [for line in lines] loop of [_parse_panel_response]. *)
Definition parse_line (panels : list pystr) (line : pystr) : res (list pystr) :=
  let line := str_strip line in
  if str_startswith line (py "Panel") && char_in 58%N line then
    after ← getitem (str_split_once 58%N line) 1;
    let description := str_strip after in
    if truthy description then mret (panels ++ [description]) else mret panels
  else mret panels.

(** What one line adds to [panels]: the stripped text after its first
    colon, when the stripped line starts with [Panel], has a colon, and
    that text is not empty. *)
Definition accepted_description (line : pystr) : option pystr :=
  let line := str_strip line in
  if str_startswith line (py "Panel") && char_in 58%N line then
    let description := str_strip (str_after 58%N line) in
    if truthy description then Some description else None
  else None.

(** [while len(panels) < num_panels: panels.append(f"Scene {len(panels) + 1}")] *)
Equations? pad_panels (num_panels : Z) (panels : list pystr) : list pystr
  by wf (Z.to_nat (num_panels - len panels)) lt :=
pad_panels num_panels panels with Z_lt_dec (len panels) num_panels := {
  | left _ => pad_panels num_panels
                (panels ++ [py "Scene " ++ str_of_int (len panels + 1)]);
  | right _ => panels }.
Proof. unfold len in *. rewrite length_app. simpl. lia. Qed.

Definition _parse_panel_response (response : pystr) (num_panels : Z)
  : res (list pystr) :=
  let lines := str_split_on 10%N (str_strip response) in
  panels ← for_each parse_line [] lines;
  let panels :=
    if len panels <? num_panels then pad_panels num_panels panels else panels in
  mret (py_slice panels None (Some num_panels)).

(** Line 216: the label of panel [i] (0-based). *)
Definition panel_desc (i : Z) (panel_text : pystr) : pystr :=
  py "Scene " ++ str_of_int (i + 1) ++ py ": "
    ++ py_slice panel_text None (Some 30)
    ++ (if 30 <? len panel_text then py "..." else py "").

(** The words of panel [i], lines 210-212. *)
Definition panel_words (words : list pystr) (words_per_panel num_panels i : Z)
  : list pystr :=
  let start_idx := i * words_per_panel in
  let end_idx :=
    if i <? num_panels - 1 then start_idx + words_per_panel else len words in
  py_slice words (Some start_idx) (Some end_idx).

Definition _fallback_panel_generation (story : pystr) (num_panels : Z)
  : res (list pystr) :=
  let words := str_split story in
  words_per_panel ← floordiv (len words) num_panels;
  let panels :=
    foldl (fun panels i =>
             let panel_text :=
               str_join (py " ")
                 (panel_words words words_per_panel num_panels i) in
             panels ++ [panel_desc i panel_text])
          [] (range num_panels) in
  mret panels.

Definition generate_panel_descriptions
    (is_service_available : bool) (post : pystr -> post_outcome)
    (story : pystr) (num_panels : Z) : res (list pystr) :=
  if negb is_service_available then _fallback_panel_generation story num_panels
  else
    let prompt := _create_panel_prompt story num_panels in
    try_except
      (match _call_llm_api post prompt with
       | Some response =>
           if truthy response then _parse_panel_response response num_panels
           else _fallback_panel_generation story num_panels
       | None => _fallback_panel_generation story num_panels
       end)
      (fun _ => _fallback_panel_generation story num_panels).

Definition style_enhancements : gmap pystr pystr :=
  {[ py "comic" := py "comic book style, bold colors, clear outlines";
     py "realistic" := py "photorealistic, detailed, natural lighting";
     py "cartoon" := py "cartoon style, simple shapes, bright colors";
     py "anime" := py "anime style, expressive characters, detailed backgrounds" ]}.

Definition enhance_panel_description (panel_desc style : pystr) : res pystr :=
  dflt ← dict_getitem style_enhancements (py "comic");
  let enhancement := dict_get style_enhancements style dflt in
  mret (panel_desc ++ py ", " ++ enhancement).

End LLMHandler.

(* ===================================================================== *)
(** * Pillow images                                                      *)
(* ===================================================================== *)

Abbreviation bytes := (list N).

Inductive font : Type := DefaultFont.

Inductive resampling : Type := LANCZOS.

(** An image is the record of how it was made: pixels are not modelled,
    sizes and the operations applied are. Drawing on an image and pasting
    into it update it in place; here they return the updated image. *)
Inductive Image : Type :=
| New (mode : pystr) (size : Z * Z) (color : pystr)
| Raster (size : Z * Z) (pixels : bytes)
| Resized (src : Image) (size : Z * Z) (filter : resampling)
| Contrast (src : Image) (factor : Q)
| Text (dst : Image) (xy : Z * Z) (text : pystr) (fill : pystr) (f : option font)
| Rectangle (dst : Image) (box : Z * Z * Z * Z) (outline : pystr) (width : Z)
| Paste (dst : Image) (src : Image) (xy : Z * Z).

(** [image.size] *)
Fixpoint size (img : Image) : Z * Z :=
  match img with
  | New _ sz _ => sz
  | Raster sz _ => sz
  | Resized _ sz _ => sz
  | Contrast src _ => size src
  | Text dst _ _ _ _ => size dst
  | Rectangle dst _ _ _ => size dst
  | Paste dst _ _ => size dst
  end.

(** The images pasted into [img] with their offsets, in the order of the
    [paste] calls. *)
Fixpoint pasted (img : Image) : list (Image * (Z * Z)) :=
  match img with
  | Paste dst src xy => pasted dst ++ [(src, xy)]
  | Text dst _ _ _ _ => pasted dst
  | Rectangle dst _ _ _ => pasted dst
  | New _ _ _ | Raster _ _ | Resized _ _ _ | Contrast _ _ => []
  end.

(** The texts drawn on [img] with their positions and fills, in the order
    of the [draw.text] calls. *)
Fixpoint texts (img : Image) : list (Z * Z * pystr * pystr) :=
  match img with
  | Text dst xy text fill _ => texts dst ++ [(xy, text, fill)]
  | Paste dst _ _ => texts dst
  | Rectangle dst _ _ _ => texts dst
  | New _ _ _ | Raster _ _ | Resized _ _ _ | Contrast _ _ => []
  end.

(** The sizes Pillow cannot make an image of: [too_large size] is the
    exception [Image.new] raises for a size that is not negative, if it
    raises one. Pillow raises an [OverflowError] for a width or height from
    [2^31] on, and a [MemoryError] where the pixels do not fit. *)
Class Limits : Type := {
  too_large : Z * Z -> option exn
}.

(** Pillow with room for an image of any size. The theorems on the layouts
    and on whole runs are about this Pillow; the theorems on what
    [generate_image] returns hold for every [Limits]. *)
#[export] Instance unlimited : Limits := {| too_large := fun _ => None |}.

(** Pillow as it is where memory is no matter: a width or a height that a
    C [int] cannot hold is refused. *)
Definition c_int_limits : Limits :=
  {| too_large := fun sz =>
       if (2 ^ 31 <=? sz.1) || (2 ^ 31 <=? sz.2) then Some OverflowError
       else None |}.

(** [Image.new(mode, size, color)]: Pillow refuses a negative width or
    height with a [ValueError], and a size it cannot make an image of with
    the exception of [too_large]. *)
Definition Image_new {L : Limits} (mode : pystr) (sz : Z * Z) (color : pystr)
  : res Image :=
  if (sz.1 <? 0) || (sz.2 <? 0) then Raise ValueError
  else
    match too_large sz with
    | Some e => Raise e
    | None => Ret (New mode sz color)
    end.

(** [draw.rectangle([x0, y0, x1, y1], outline, width)]: Pillow refuses a box
    with [x1 < x0] or [y1 < y0] with a [ValueError]. *)
Definition draw_rectangle (img : Image) (box : Z * Z * Z * Z)
    (outline : pystr) (width : Z) : res Image :=
  let '(x0, y0, x1, y1) := box in
  if (x1 <? x0) || (y1 <? y0) then Raise ValueError
  else Ret (Rectangle img box outline width).

(** What the sources use of their runtime without defining it. *)
Class Runtime : Type := {
  (** [ImageFont.load_default()] *)
  load_default : res font;
  (** [draw.textbbox((0, 0), text, font=font)] *)
  textbbox : pystr -> option font -> Z * Z * Z * Z;
  (** [str((a, b))] for a pair of strings *)
  str_of_pair : pystr -> pystr -> pystr;
  (** the exception [image.resize(size, filter)] raises on this image, if
      it raises one (an image is read from its bytes only when its pixels
      are first needed, and the bytes may not hold them) *)
  resize_raises : Image -> Z * Z -> resampling -> option exn;
  (** the exception [ImageEnhance.Contrast(image).enhance(factor)] raises
      on this image, if it raises one (Pillow cannot blend a palette
      image) *)
  enhance_raises : Image -> Q -> option exn
}.

(** [image.resize(size, filter)] *)
Definition Image_resize {R : Runtime} (image : Image) (sz : Z * Z)
    (filter : resampling) : res Image :=
  match resize_raises image sz filter with
  | Some e => Raise e
  | None => Ret (Resized image sz filter)
  end.

(** [ImageEnhance.Contrast(image).enhance(factor)] *)
Definition Contrast_enhance {R : Runtime} (image : Image) (factor : Q)
  : res Image :=
  match enhance_raises image factor with
  | Some e => Raise e
  | None => Ret (Contrast image factor)
  end.

(** A prompt as [_enhance_prompt] receives it: a string, or the pair a
    previous call of [ImageGenerator._enhance_prompt] returned. *)
Inductive prompt_value : Type :=
| PStr (s : pystr)
| PPair (a b : pystr).

(** [f"{v}"] *)
Definition format_value {R : Runtime} (v : prompt_value) : pystr :=
  match v with
  | PStr s => s
  | PPair a b => str_of_pair a b
  end.

(* ===================================================================== *)
(** * src/image_generator.py                                             *)
(* ===================================================================== *)

Module ImageGenerator.

(** The fields of [self]. *)
Record t : Type := {
  api_url : option pystr;
  default_headers : gmap pystr pystr
}.

(** The JSON body of the request. *)
Record payload : Type := {
  prompt : pystr;
  negative_prompt : pystr;
  width : Z;
  height : Z;
  num_inference_steps : Z;
  guidance_scale : Q;
  num_images_per_prompt : Z
}.

(** What the service answered, as far as [_call_image_api] reads it: the
    JSON has an [images] field or a [data] field, whose first entry
    decodes from base64 or raises, or it has neither. *)
Inductive image_json : Type :=
| HasImages (first : res bytes)
| HasData (first : res bytes)
| NoImage.

(** What [requests.post] gives [_call_image_api]: an exception, or a
    status code with the outcome of [response.json()]. *)
Definition post_outcome : Type := res (Z * res image_json).

(** The remote service: url, JSON body and headers to an outcome. *)
Definition service : Type := pystr -> payload -> gmap pystr pystr -> post_outcome.

Definition style_enhancements : gmap pystr pystr :=
  {[ py "comic" := py "comic book style, vibrant colors, bold outlines, clear composition";
     py "realistic" := py "photorealistic, detailed, natural lighting, high quality";
     py "cartoon" := py "cartoon style, simple shapes, bright colors, clean lines";
     py "anime" := py "anime style, expressive characters, detailed backgrounds, manga influence";
     py "watercolor" := py "watercolor painting style, soft colors, artistic";
     py "sketch" := py "pencil sketch style, black and white, artistic" ]}.

(** Returns the pair [(enhanced_prompt, negative_prompt)]. *)
Definition _enhance_prompt {R : Runtime} (prompt : prompt_value) (style : pystr)
  : res (pystr * pystr) :=
  dflt ← dict_getitem style_enhancements (py "comic");
  let enhancement := dict_get style_enhancements style dflt in
  let negative_prompt := py "blurry, low quality, distorted, ugly, bad anatomy" in
  let enhanced_prompt := format_value prompt ++ py ", " ++ enhancement in
  mret (enhanced_prompt, negative_prompt).

Definition _call_image_api {R : Runtime} (self : t) (post : service)
    (prompt : prompt_value) (width height : Z) : res (option bytes) :=
  match api_url self with
  | None => mret None
  | Some url =>
      if negb (truthy url) then mret None
      else
        '(enhanced_prompt, negative_prompt) ← _enhance_prompt prompt (py "comic");
        let payload :=
          {| prompt := enhanced_prompt;
             negative_prompt := negative_prompt;
             width := width;
             height := height;
             num_inference_steps := 20;
             guidance_scale := 7.5%Q;
             num_images_per_prompt := 1 |} in
        try_except
          (response ← post url payload (default_headers self);
           let '(status_code, json) := response in
           if status_code =? 200 then
             result ← json;
             match result with
             | HasImages first => image_data ← first; mret (Some image_data)
             | HasData first => image_data ← first; mret (Some image_data)
             | NoImage => mret None
             end
           else mret None)
          (fun _ => mret None)
  end.

Definition _post_process_image {R : Runtime} (image : Image) (style : pystr)
  : res Image :=
  let target_size := (512, 512) in
  image ←
    (if decide (size image <> target_size)
     then Image_resize image target_size LANCZOS else mret image);
  if decide (style = py "comic") then Contrast_enhance image 1.2%Q
  else mret image.

Definition _create_placeholder_image {R : Runtime} {L : Limits}
    (prompt : pystr) (width height : Z) : res Image :=
  image ← Image_new (py "RGB") (width, height) (py "#f0f0f0");
  let font := match load_default with Ret f => Some f | Raise _ => None end in
  let text :=
    py "Image generation failed" ++ [10%N] ++ py "Prompt: "
      ++ py_slice prompt None (Some 50) ++ py "..." in
  let '(l, t, r, b) := textbbox text font in
  let text_width := r - l in
  let text_height := b - t in
  let x := Z.div (width - text_width) 2 in
  let y := Z.div (height - text_height) 2 in
  let image := Text image (x, y) text (py "#666666") font in
  draw_rectangle image (0, 0, width - 1, height - 1) (py "#cccccc") 2.

(** [image_open] is [Image.open(io.BytesIO(image_data))]. The source passes
    the pair that [_enhance_prompt] returns on to [_call_image_api]. *)
Definition generate_image {R : Runtime} {L : Limits} (self : t) (post : service)
    (image_open : bytes -> res Image)
    (prompt style : pystr) (width height : Z) : res (option Image) :=
  try_except
    (enhanced_prompt ← _enhance_prompt (PStr prompt) style;
     image_data ←
       _call_image_api self post
         (PPair enhanced_prompt.1 enhanced_prompt.2) width height;
     match image_data with
     | Some image_data =>
         if truthy image_data then
           image ← image_open image_data;
           Some <$> _post_process_image image style
         else Some <$> _create_placeholder_image prompt width height
     | None => Some <$> _create_placeholder_image prompt width height
     end)
    (fun _ => Some <$> _create_placeholder_image prompt width height).

(** The pause between two requests is not modelled. *)
Definition generate_comic_panels {R : Runtime} {L : Limits} (self : t)
    (post : service)
    (image_open : bytes -> res Image)
    (panel_descriptions : list pystr) (style : pystr) : res (list Image) :=
  for_each
    (fun images '(i, description) =>
       let panel_prompt :=
         py "Comic panel " ++ str_of_int (i + 1) ++ py ": " ++ description in
       image ← generate_image self post image_open panel_prompt style 512 512;
       match image with
       | Some image => mret (images ++ [image])
       | None =>
           placeholder ← _create_placeholder_image description 512 512;
           mret (images ++ [placeholder])
       end)
    [] (enumerate panel_descriptions).

Definition combine_panels_into_comic {R : Runtime} {L : Limits}
    (images : list Image) (layout : pystr) : res Image :=
  if negb (truthy images) then
    _create_placeholder_image (py "No panels to combine") 512 512
  else
    first ← getitem images 0;
    let '(panel_width, panel_height) := size first in
    let spacing := 10 in
    if decide (layout = py "horizontal") then
      let total_width := len images * panel_width + (len images - 1) * spacing in
      let total_height := panel_height in
      combined_image ← Image_new (py "RGB") (total_width, total_height) (py "white");
      mret (foldl (fun combined_image '(i, image) =>
                     let x := i * (panel_width + spacing) in
                     Paste combined_image image (x, 0))
                  combined_image (enumerate images))
    else if decide (layout = py "vertical") then
      let total_width := panel_width in
      let total_height := len images * panel_height + (len images - 1) * spacing in
      combined_image ← Image_new (py "RGB") (total_width, total_height) (py "white");
      mret (foldl (fun combined_image '(i, image) =>
                     let y := i * (panel_height + spacing) in
                     Paste combined_image image (0, y))
                  combined_image (enumerate images))
    else
      let cols := 2 in
      let rows := Z.div (len images + 1) 2 in
      let total_width := cols * panel_width + (cols - 1) * spacing in
      let total_height := rows * panel_height + (rows - 1) * spacing in
      combined_image ← Image_new (py "RGB") (total_width, total_height) (py "white");
      mret (foldl (fun combined_image '(i, image) =>
                     let row := Z.div i cols in
                     let col := Z.modulo i cols in
                     let x := col * (panel_width + spacing) in
                     let y := row * (panel_height + spacing) in
                     Paste combined_image image (x, y))
                  combined_image (enumerate images)).

(** [a or b] on optional strings: [a] when it is truthy, else [b]. *)
Definition str_or (a b : option pystr) : option pystr :=
  match a with
  | Some x => if truthy x then a else b
  | None => b
  end.

(** [getenv] is [os.getenv]. *)
Definition __init__ (getenv : pystr -> option pystr)
    (api_url api_key : option pystr) : t :=
  let api_url := str_or api_url (getenv (py "STABLE_DIFFUSION_API_URL")) in
  let api_key := str_or api_key (getenv (py "HUGGING_FACE_API_KEY")) in
  let default_headers : gmap pystr pystr :=
    {[ py "Content-Type" := py "application/json" ]} in
  let default_headers :=
    match api_key with
    | Some key =>
        if truthy key
        then <[ py "Authorization" := py "Bearer " ++ key ]> default_headers
        else default_headers
    | None => default_headers
    end in
  {| api_url := api_url; default_headers := default_headers |}.

(** [result] starts as a copy of [image]; the text is drawn on the copy. *)
Definition add_text_to_image {R : Runtime} (image : Image)
    (text position : pystr) : Image :=
  let result := image in
  let font := match load_default with Ret f => Some f | Raise _ => None end in
  let '(l, t, r, b) := textbbox text font in
  let text_width := r - l in
  let text_height := b - t in
  let '(img_width, img_height) := size image in
  let '(x, y) :=
    if decide (position = py "top") then
      (Z.div (img_width - text_width) 2, 10)
    else if decide (position = py "bottom") then
      (Z.div (img_width - text_width) 2, img_height - text_height - 10)
    else
      (Z.div (img_width - text_width) 2, Z.div (img_height - text_height) 2) in
  let outline_color := py "black" in
  let text_color := py "white" in
  let result :=
    foldl (fun result dx =>
             foldl (fun result dy =>
                      if negb (dx =? 0) || negb (dy =? 0)
                      then Text result (x + dx, y + dy) text outline_color font
                      else result)
                   result [-1; 0; 1])
          result [-1; 0; 1] in
  Text result (x, y) text text_color font.

End ImageGenerator.

(** What a call can raise: one of the exceptions above, or the
    [NameError] of reading a name that is not bound. *)
Inductive raised : Type :=
| Exn (e : exn)
| NameError (name : pystr).

(* ===================================================================== *)
(** * src/local_image_generator.py                                       *)
(* ===================================================================== *)

Module LocalImageGenerator.

(** The diffusion pipeline as it is called: prompt, width, height,
    inference steps, guidance scale and images per prompt to
    [result.images], or an exception. *)
Definition pipeline_call : Type :=
  pystr -> Z -> Z -> Z -> Q -> Z -> res (list Image).

(** The module flag and the field of [self] that [is_available] reads. *)
Record t : Type := {
  LOCAL_DIFFUSION_AVAILABLE : bool;
  pipeline : option pipeline_call
}.

Definition is_available (self : t) : bool :=
  LOCAL_DIFFUSION_AVAILABLE self && bool_decide (is_Some (pipeline self)).

Definition style_enhancements : gmap pystr pystr :=
  {[ py "comic" := py "comic book style, vibrant colors, bold outlines, clear composition, high quality";
     py "realistic" := py "photorealistic, detailed, natural lighting, high quality, sharp focus";
     py "cartoon" := py "cartoon style, simple shapes, bright colors, clean lines, cute";
     py "anime" := py "anime style, expressive characters, detailed backgrounds, manga influence, high quality";
     py "watercolor" := py "watercolor painting style, soft colors, artistic, beautiful";
     py "sketch" := py "pencil sketch style, black and white, artistic, detailed" ]}.

Definition _enhance_prompt (prompt style : pystr) : res pystr :=
  dflt ← dict_getitem style_enhancements (py "comic");
  let enhancement := dict_get style_enhancements style dflt in
  let enhanced_prompt := prompt ++ py ", " ++ enhancement in
  mret enhanced_prompt.

Definition _post_process_image {R : Runtime} (image : Image) (style : pystr)
  : res Image :=
  let target_size := (512, 512) in
  image ←
    (if decide (size image <> target_size)
     then Image_resize image target_size LANCZOS else mret image);
  if decide (style = py "comic") then Contrast_enhance image 1.2%Q
  else mret image.

Definition _create_placeholder_image {R : Runtime} {L : Limits}
    (prompt : pystr) (width height : Z) : res Image :=
  image ← Image_new (py "RGB") (width, height) (py "#f0f0f0");
  let font := match load_default with Ret f => Some f | Raise _ => None end in
  let text :=
    py "Local generation failed" ++ [10%N] ++ py "Prompt: "
      ++ py_slice prompt None (Some 40) ++ py "..." in
  let '(l, t, r, b) := textbbox text font in
  let text_width := r - l in
  let text_height := b - t in
  let x := Z.div (width - text_width) 2 in
  let y := Z.div (height - text_height) 2 in
  let image := Text image (x, y) text (py "#666666") font in
  draw_rectangle image (0, 0, width - 1, height - 1) (py "#cccccc") 2.

Definition generate_image {R : Runtime} {L : Limits} (self : t)
    (prompt style : pystr) (width height : Z) : res (option Image) :=
  if negb (is_available self) then
    Some <$> _create_placeholder_image prompt width height
  else
    try_except
      (enhanced_prompt ← _enhance_prompt prompt style;
       images ←
         match pipeline self with
         | Some call => call enhanced_prompt width height 20 7.5%Q 1
         | None => Raise TypeError
         end;
       if truthy images && (0 <? len images) then
         image ← getitem images 0;
         Some <$> _post_process_image image style
       else Some <$> _create_placeholder_image prompt width height)
      (fun _ => Some <$> _create_placeholder_image prompt width height).

(** The pause between two generations is not modelled. *)
Definition generate_comic_panels {R : Runtime} {L : Limits} (self : t)
    (panel_descriptions : list pystr) (style : pystr) : res (list Image) :=
  for_each
    (fun images '(i, description) =>
       let panel_prompt :=
         py "Comic panel " ++ str_of_int (i + 1) ++ py ": " ++ description in
       image ← generate_image self panel_prompt style 512 512;
       match image with
       | Some image => mret (images ++ [image])
       | None =>
           placeholder ← _create_placeholder_image description 512 512;
           mret (images ++ [placeholder])
       end)
    [] (enumerate panel_descriptions).

Definition combine_panels_into_comic {R : Runtime} {L : Limits}
    (images : list Image) (layout : pystr) : res Image :=
  if negb (truthy images) then
    _create_placeholder_image (py "No panels to combine") 512 512
  else
    first ← getitem images 0;
    let '(panel_width, panel_height) := size first in
    let spacing := 10 in
    if decide (layout = py "horizontal") then
      let total_width := len images * panel_width + (len images - 1) * spacing in
      let total_height := panel_height in
      combined_image ← Image_new (py "RGB") (total_width, total_height) (py "white");
      mret (foldl (fun combined_image '(i, image) =>
                     let x := i * (panel_width + spacing) in
                     Paste combined_image image (x, 0))
                  combined_image (enumerate images))
    else if decide (layout = py "vertical") then
      let total_width := panel_width in
      let total_height := len images * panel_height + (len images - 1) * spacing in
      combined_image ← Image_new (py "RGB") (total_width, total_height) (py "white");
      mret (foldl (fun combined_image '(i, image) =>
                     let y := i * (panel_height + spacing) in
                     Paste combined_image image (0, y))
                  combined_image (enumerate images))
    else
      let cols := 2 in
      let rows := Z.div (len images + 1) 2 in
      let total_width := cols * panel_width + (cols - 1) * spacing in
      let total_height := rows * panel_height + (rows - 1) * spacing in
      combined_image ← Image_new (py "RGB") (total_width, total_height) (py "white");
      mret (foldl (fun combined_image '(i, image) =>
                     let row := Z.div i cols in
                     let col := Z.modulo i cols in
                     let x := col * (panel_width + spacing) in
                     let y := row * (panel_height + spacing) in
                     Paste combined_image image (x, y))
                  combined_image (enumerate images)).

(** The constructor. The module binds [torch] only when its imports
    succeed, which is when it sets [LOCAL_DIFFUSION_AVAILABLE]; the
    constructor reads [torch] to choose the device before it looks at that
    flag, so without the imports it raises a [NameError]. [from_pretrained]
    is the outcome of loading the model (and moving it to the device), which
    [_load_model] turns into a pipeline or [None]. *)
Definition __init__ (LOCAL_DIFFUSION_AVAILABLE : bool)
    (from_pretrained : res pipeline_call) : raised + t :=
  if negb LOCAL_DIFFUSION_AVAILABLE
  then inl (NameError (py "torch"))
  else
    let pipeline :=
      match from_pretrained with
      | Ret pipeline => Some pipeline
      | Raise _ => None
      end in
    inr {| LOCAL_DIFFUSION_AVAILABLE := true; pipeline := pipeline |}.

End LocalImageGenerator.

(** The image post-processing works on after the resize step, and the one
    it returns, when neither step raises. *)
Definition resized_panel (image : Image) : Image :=
  if decide (size image <> (512, 512))
  then Resized image (512, 512) LANCZOS else image.

Definition boosted_panel (image : Image) (style : pystr) : Image :=
  if decide (style = py "comic")
  then Contrast (resized_panel image) 1.2%Q else resized_panel image.

(** The style tags of the enhancement tables of the two generators. *)
Definition known_styles : list pystr :=
  [py "comic"; py "realistic"; py "cartoon"; py "anime"; py "watercolor";
   py "sketch"].

(** A runtime to evaluate examples with: a font six pixels wide, and the
    text Python gives a pair of strings of plain printable characters
    without quotes or backslashes. An image decoded from a file without
    pixel data cannot be resized, and one whose pixel data starts with the
    byte 80 is taken for a palette image, which cannot be enhanced. *)
Definition example_runtime : Runtime :=
  {| load_default := Ret DefaultFont;
     textbbox := fun text _ => (0, 0, 6 * len text, 11);
     str_of_pair := fun a b => py "('" ++ a ++ py "', '" ++ b ++ py "')";
     resize_raises := fun image _ _ =>
       match image with
       | Raster _ [] => Some OSError
       | _ => None
       end;
     enhance_raises := fun image _ =>
       match image with
       | Raster _ (80%N :: _) | Resized (Raster _ (80%N :: _)) _ _ =>
           Some ValueError
       | _ => None
       end |}.

(* ===================================================================== *)
(** * src/utils.py: the session and the files                            *)
(* ===================================================================== *)

Module utils_io.

(** The dictionary kept under the key [comic_data]; [generation_time] is a
    key the dictionary gets only when a comic has been generated. *)
Record comic_data : Type := {
  story : pystr;
  panels : list pystr;
  images : list Image;
  generated : bool;
  generation_time : option Q
}.

(** [st.session_state], as far as the key [comic_data] goes. *)
Definition session_state : Type := option comic_data.

(** Returns the dictionary (the one the session holds, not a copy) and
    the session. *)
Definition get_session_state (st : session_state) : comic_data * session_state :=
  match st with
  | None =>
      let fresh :=
        {| story := py ""; panels := []; images := []; generated := false;
           generation_time := None |} in
      (fresh, Some fresh)
  | Some data => (data, Some data)
  end.

Definition clear_session_state (st : session_state) : session_state :=
  match st with
  | Some _ => None
  | None => st
  end.

(** A session whose comic, if it has one, has as many images as panels,
    each of 512x512. *)
Definition consistent (st : session_state) : Prop :=
  forall data,
    st = Some data ->
    len (images data) = len (panels data)
    /\ Forall (fun img => size img = (512, 512)) (images data).

(** What [save_comic_to_file] does to the world. *)
Inductive effect : Type :=
| Mkdir_parent (output_path : pystr)
| Save (image_path : pystr) (image : Image)
| LogInfo (line : pystr)
| LogError (line : pystr).

(** The [for] loop of [save_comic_to_file] from item [i] on; [done] are the
    effects so far. [io] says whether a directory or file operation works
    or raises, [str_exn] is [str(e)]. *)
Fixpoint save_panels (io : effect -> res unit) (str_exn : exn -> pystr)
    (output_path : pystr) (items : list (Z * (Image * pystr)))
    (done : list effect) : bool * list effect :=
  match items with
  | [] => (true, done)
  | (i, (image, text)) :: items' =>
      let image_path :=
        output_path ++ py "_panel_" ++ str_of_int (i + 1) ++ py ".png" in
      match io (Save image_path image) with
      | Ret _ =>
          save_panels io str_exn output_path items'
            (done ++ [Save image_path image;
                      LogInfo (py "Saved panel " ++ str_of_int (i + 1)
                                 ++ py " to " ++ image_path)])
      | Raise e =>
          (false, done ++ [LogError (py "Error saving comic: " ++ str_exn e)])
      end
  end.

(** The files among the effects: path and image, in order. *)
Definition saved (effects : list effect) : list (pystr * Image) :=
  omap (fun e => match e with Save path image => Some (path, image) | _ => None end)
    effects.

(** Returns the result and the effects performed, in order. *)
Definition save_comic_to_file (io : effect -> res unit) (str_exn : exn -> pystr)
    (images : list Image) (panel_texts : list pystr) (output_path : pystr)
  : bool * list effect :=
  match io (Mkdir_parent output_path) with
  | Ret _ =>
      save_panels io str_exn output_path (enumerate (zip images panel_texts))
        [Mkdir_parent output_path]
  | Raise e => (false, [LogError (py "Error saving comic: " ++ str_exn e)])
  end.

End utils_io.

(* ===================================================================== *)
(** * src/app.py                                                         *)
(* ===================================================================== *)

Module app.

(** What [generate_comic] shows: the calls on [st], on the progress bar
    and on the status line. *)
Inductive ui_event : Type :=
| st_error (text : pystr)
| st_info (text : pystr)
| st_warning (text : pystr)
| st_success (text : pystr)
| st_progress (value : Z)
| st_empty
| progress (value : Z)
| status_text (text : pystr).

(** What [generate_comic] meets outside the program. *)
Record world : Type := {
  is_service_available : bool;
  llm_post : pystr -> LLMHandler.post_outcome;
  LOCAL_DIFFUSION_AVAILABLE : bool;
  from_pretrained : res LocalImageGenerator.pipeline_call;
  getenv : pystr -> option pystr;
  image_post : ImageGenerator.service;
  image_open : bytes -> res Image;
  (** the two readings of [time.time()] *)
  start_time : Q;
  end_time : Q;
  (** [type(e).__name__] is fixed by [e]; [str(e)] is the runtime's *)
  str_raised : raised -> pystr
}.

Definition type_name_of (e : raised) : pystr :=
  match e with
  | Exn ZeroDivisionError => py "ZeroDivisionError"
  | Exn IndexError => py "IndexError"
  | Exn KeyError => py "KeyError"
  | Exn ValueError => py "ValueError"
  | Exn TypeError => py "TypeError"
  | Exn OverflowError => py "OverflowError"
  | Exn MemoryError => py "MemoryError"
  | Exn OSError => py "OSError"
  | NameError _ => py "NameError"
  end.

(** The placeholders [generate_comic] draws itself when neither generator
    is there. *)
Definition inline_placeholders {R : Runtime} {L : Limits}
    (panel_descriptions : list pystr)
  : res (list Image) :=
  for_each
    (fun images '(i, description) =>
       img ← Image_new (py "RGB") (512, 512) (py "#f0f0f0");
       let font := match load_default with Ret f => Some f | Raise _ => None end in
       let text :=
         py "Panel " ++ str_of_int (i + 1) ++ py ": "
           ++ py_slice description None (Some 30) ++ py "..." in
       let '(l, t, r, b) := textbbox text font in
       let text_width := r - l in
       let text_height := b - t in
       let x := Z.div (512 - text_width) 2 in
       let y := Z.div (512 - text_height) 2 in
       let img := Text img (x, y) text (py "#666666") font in
       img ← draw_rectangle img (0, 0, 511, 511) (py "#cccccc") 2;
       mret (images ++ [img]))
    [] (enumerate panel_descriptions).

(** The [except] branch: the session is left as it is. *)
Definition failed (w : world) (st : utils_io.session_state)
    (shown : list ui_event) (e : raised)
  : utils_io.session_state * list ui_event :=
  let error_msg :=
    utils.format_error_message
      {| utils.type_name := type_name_of e; utils.message := str_raised w e |} in
  (st, shown ++ [st_error ([10060%N] ++ py " Error generating comic: " ++ error_msg);
                 progress 0;
                 status_text ([10060%N] ++ py " Generation failed")]).

(** Returns the session and what was shown, in order. The writes to
    [session_data] go to the dictionary the session holds. *)
Definition generate_comic {R : Runtime} {L : Limits} (w : world)
    (st : utils_io.session_state)
    (story_text art_style : pystr) (num_panels : Z)
    (layout_style llm_model api_url api_key : pystr)
  : utils_io.session_state * list ui_event :=
  let '(session_data, st) := utils_io.get_session_state st in
  let '(is_valid, error_msg) := utils.validate_story_input story_text in
  if negb is_valid then (st, [st_error error_msg])
  else
    let shown := [st_progress 0; st_empty] in
    let shown :=
      shown ++ [status_text ([129302%N] ++ py " Generating panel descriptions...");
                progress 20] in
    match LLMHandler.generate_panel_descriptions (is_service_available w)
            (llm_post w) story_text num_panels with
    | Raise e => failed w st shown (Exn e)
    | Ret panel_descriptions =>
        let shown :=
          shown ++ [status_text ([127912%N] ++ py " Generating images...");
                    progress 40] in
        match LocalImageGenerator.__init__ (LOCAL_DIFFUSION_AVAILABLE w)
                (from_pretrained w) with
        | inl e => failed w st shown e
        | inr local_generator =>
            let '(shown, images) :=
              if LocalImageGenerator.is_available local_generator then
                (shown ++ [st_info ([127912%N] ++ py " Using local Stable Diffusion for image generation (no API needed!)")],
                 LocalImageGenerator.generate_comic_panels local_generator
                   panel_descriptions art_style)
              else if truthy api_url then
                (shown ++ [st_info ([127760%N] ++ py " Using API for image generation")],
                 let image_generator :=
                   ImageGenerator.__init__ (getenv w) (Some api_url) (Some api_key) in
                 ImageGenerator.generate_comic_panels image_generator
                   (image_post w) (image_open w) panel_descriptions art_style)
              else
                (shown ++ [st_warning ([9888%N; 65039%N] ++ py " No image generation available. Using placeholders.")],
                 inline_placeholders panel_descriptions) in
            match images with
            | Raise e => failed w st shown (Exn e)
            | Ret images =>
                let shown :=
                  shown ++ [status_text ([128190%N] ++ py " Saving results...");
                            progress 80] in
                let session_data :=
                  {| utils_io.story := story_text;
                     utils_io.panels := panel_descriptions;
                     utils_io.images := images;
                     utils_io.generated := true;
                     utils_io.generation_time :=
                       Some (end_time w - start_time w)%Q |} in
                (Some session_data,
                 shown ++ [progress 100;
                           status_text ([9989%N] ++ py " Comic generated successfully!");
                           st_success ([127881%N] ++ py " Your comic has been generated! Scroll down to see the results.")])
            end
        end
    end.

End app.

(* ===================================================================== *)
(** * The built-ins on examples                                          *)
(* ===================================================================== *)

Example str_split_example :
  str_split (py "  A  cat	sat
 down ") = [py "A"; py "cat"; py "sat"; py "down"]
  /\ str_split (py "   ") = []
  /\ str_split (py "") = [].
Proof. vm_compute. auto. Qed.

Example str_strip_example :
  str_strip (py "  Panel 1: a cat  ") = py "Panel 1: a cat"
  /\ str_strip (py " 	 ") = py "".
Proof. vm_compute. auto. Qed.

Example str_split_on_example :
  str_split_on 10%N (py "a
b
") = [py "a"; py "b"; py ""]
  /\ str_split_on 10%N (py "") = [py ""]
  /\ str_split_once 58%N (py "Panel 1: at 5:00") = [py "Panel 1"; py " at 5:00"]
  /\ str_split_once 58%N (py "no colon") = [py "no colon"].
Proof. vm_compute. auto. Qed.

Example py_slice_example :
  py_slice [1; 2; 3; 4; 5] (Some 1) (Some 3) = [2; 3]
  /\ py_slice [1; 2; 3; 4; 5] None (Some 30) = [1; 2; 3; 4; 5]
  /\ py_slice [1; 2; 3; 4; 5] None (Some (-2)) = [1; 2; 3]
  /\ py_slice [1; 2; 3; 4; 5] (Some 4) (Some 2) = []
  /\ py_slice [1; 2; 3; 4; 5] (Some (-9)) (Some 9) = [1; 2; 3; 4; 5].
Proof. vm_compute. auto 10. Qed.

Example str_of_int_example :
  str_of_int 12 = py "12" /\ str_of_int 0 = py "0" /\ str_of_int (-3) = py "-3".
Proof. vm_compute. auto. Qed.

Example floordiv_example :
  floordiv 7 2 = Ret 3 /\ floordiv (-7) 2 = Ret (-4) /\ floordiv 7 (-2) = Ret (-4)
  /\ floordiv 7 0 = Raise ZeroDivisionError.
Proof. vm_compute. auto. Qed.

(** The splitters on the story of the test suite, and with no panel asked
    for. *)
Example split_story_example :
  utils.split_story_into_panels
    (py "This is a test story with multiple words to split into panels.") 3
  = Ret [py "This is a test"; py "story with multiple words";
         py "to split into panels."]
  /\ utils.split_story_into_panels (py "a b c") 0 = Raise ZeroDivisionError
  /\ utils.split_story_into_panels (py "a b c") (-2) = Ret [].
Proof. vm_compute. auto. Qed.

(* ===================================================================== *)
(** * Lemmas on the built-ins                                            *)
(* ===================================================================== *)

Section Builtins.
Context {A : Type}.
Implicit Types l : list A.

Lemma len_nonneg l : 0 <= len l.
Proof. unfold len. lia. Qed.

Lemma len_app l k : len (l ++ k) = len l + len k.
Proof. unfold len. rewrite length_app. lia. Qed.

(** A slice with both bounds inside the list is a [take] of a [drop]. *)
Lemma py_slice_within l (a b : Z) :
  0 <= a -> a <= b -> b <= len l ->
  py_slice l (Some a) (Some b) = take (Z.to_nat (b - a)) (drop (Z.to_nat a) l).
Proof.
  intros Ha Hab Hb. unfold py_slice, slice_bound.
  destruct (Z.ltb_spec a 0); [lia|].
  destruct (Z.ltb_spec b 0); [lia|].
  rewrite !Z.min_l by lia. reflexivity.
Qed.

Lemma py_slice_to_end l (a : Z) :
  0 <= a -> a <= len l ->
  py_slice l (Some a) (Some (len l)) = drop (Z.to_nat a) l.
Proof.
  intros Ha Hb. rewrite py_slice_within by lia.
  apply take_ge. rewrite length_drop. unfold len in *. lia.
Qed.

(** [l[:k]] for [0 <= k] keeps the first [k] elements. *)
Lemma py_slice_prefix l (k : Z) :
  0 <= k -> py_slice l None (Some k) = take (Z.to_nat k) l.
Proof.
  intros Hk. unfold py_slice, slice_bound.
  destruct (Z.ltb_spec k 0); [lia|].
  rewrite Z.sub_0_r. change (Z.to_nat 0) with 0%nat. rewrite drop_0.
  pose proof (len_nonneg l).
  destruct (Z.le_ge_cases k (len l)).
  - rewrite Z.min_l by lia. reflexivity.
  - rewrite Z.min_r by lia.
    rewrite (take_ge l (Z.to_nat k)), (take_ge l (Z.to_nat (len l)));
      unfold len in *; try lia. reflexivity.
Qed.

(** A loop that appends one element per turn builds the image of its
    input list. *)
Lemma foldl_snoc {B} (f : B -> A) (acc : list A) (xs : list B) :
  foldl (fun acc x => acc ++ [f x]) acc xs = acc ++ (f <$> xs).
Proof.
  revert acc. induction xs as [|x xs IH]; intros acc; simpl.
  - by rewrite app_nil_r.
  - rewrite IH. by rewrite <- app_assoc.
Qed.

End Builtins.

Lemma len_fmap {A B} (f : A -> B) (l : list A) : len (f <$> l) = len l.
Proof. unfold len. by rewrite length_fmap. Qed.

Lemma len_range (n : Z) : 0 <= n -> len (range n) = n.
Proof. intros. unfold len, range. rewrite length_seqZ. lia. Qed.

Lemma range_snoc (n : Z) : 1 <= n -> range n = range (n - 1) ++ [n - 1].
Proof.
  intros Hn. unfold range.
  replace n with ((n - 1) + 1) at 1 by lia.
  rewrite seqZ_app by lia. f_equal.
Qed.

Lemma elem_of_range (n i : Z) : i ∈ range n <-> 0 <= i < n.
Proof. unfold range. rewrite elem_of_seqZ. lia. Qed.

Lemma floordiv_ok (a b : Z) : b <> 0 -> floordiv a b = Ret (Z.div a b).
Proof. intros Hb. unfold floordiv. by destruct (Z.eqb_spec b 0). Qed.

(* ===================================================================== *)
(** * The even word partition of the two splitters                      *)
(* ===================================================================== *)

Section Partition.
Context {A : Type} (words : list A) (n : Z).
Hypothesis n_pos : 1 <= n.

Let L := len words.
Let q := Z.div L n.

Lemma per_panel_bounds : 0 <= q /\ q * n <= L /\ (n - 1) * q <= L.
Proof.
  subst q L. pose proof (len_nonneg words) as HL.
  assert (0 <= len words `div` n) by (apply Z.div_pos; lia).
  assert (n * (len words `div` n) <= len words) by (apply Z.mul_div_le; lia).
  nia.
Qed.

(** The first [k] groups of [q] words are the first [k * q] words. *)
Lemma leading_groups (k : nat) :
  Z.of_nat k * q <= L ->
  concat ((fun i : Z => take (Z.to_nat q) (drop (Z.to_nat (i * q)) words))
            <$> range (Z.of_nat k))
  = take (Z.to_nat (Z.of_nat k * q)) words.
Proof.
  destruct per_panel_bounds as (Hq & _ & _).
  induction k as [|k IH]; intros Hk.
  - by rewrite Z.mul_0_l, take_0.
  - rewrite range_snoc by lia.
    replace (Z.of_nat (S k) - 1) with (Z.of_nat k) by lia.
    rewrite fmap_app, concat_app, IH by nia. simpl. rewrite app_nil_r.
    replace (Z.to_nat (Z.of_nat (S k) * q))
      with (Z.to_nat (Z.of_nat k * q) + Z.to_nat q)%nat by nia.
    apply take_take_drop.
Qed.

End Partition.

Lemma panel_words_same (words : list pystr) (q n i : Z) :
  LLMHandler.panel_words words q n i = utils.panel_words words q n i.
Proof. reflexivity. Qed.

Lemma panel_words_inner (words : list pystr) (n i : Z) :
  1 <= n -> 0 <= i < n - 1 ->
  utils.panel_words words (Z.div (len words) n) n i
  = take (Z.to_nat (Z.div (len words) n))
         (drop (Z.to_nat (i * Z.div (len words) n)) words).
Proof.
  intros Hn Hi. destruct (per_panel_bounds words n Hn) as (Hq & Hqn & Hlast).
  unfold utils.panel_words. destruct (Z.ltb_spec i (n - 1)); [|lia].
  rewrite py_slice_within by nia. do 2 f_equal. lia.
Qed.

Lemma panel_words_last (words : list pystr) (n : Z) :
  1 <= n ->
  utils.panel_words words (Z.div (len words) n) n (n - 1)
  = drop (Z.to_nat ((n - 1) * Z.div (len words) n)) words.
Proof.
  intros Hn. destruct (per_panel_bounds words n Hn) as (Hq & Hqn & Hlast).
  unfold utils.panel_words. destruct (Z.ltb_spec (n - 1) (n - 1)); [lia|].
  apply py_slice_to_end; nia.
Qed.

(** The word spans of all panels, in order, are the words. *)
Lemma panel_words_concat (words : list pystr) (n : Z) :
  1 <= n ->
  concat (utils.panel_words words (Z.div (len words) n) n <$> range n) = words.
Proof.
  intros Hn. destruct (per_panel_bounds words n Hn) as (Hq & Hqn & Hlast).
  rewrite range_snoc by done. rewrite fmap_app, concat_app. simpl.
  rewrite app_nil_r, panel_words_last by done.
  rewrite (list_fmap_ext (utils.panel_words words (Z.div (len words) n) n)
             (fun i => take (Z.to_nat (Z.div (len words) n))
                         (drop (Z.to_nat (i * Z.div (len words) n)) words))).
  2:{ intros k i Hk. apply panel_words_inner; [done|].
      apply list_elem_of_lookup_2, elem_of_range in Hk. lia. }
  replace (n - 1) with (Z.of_nat (Z.to_nat (n - 1))) at 1 by lia.
  rewrite leading_groups by lia.
  rewrite Z2Nat.id by lia. apply take_drop.
Qed.

Lemma split_story_into_panels_spans (story_text : pystr) (n : Z) :
  n <> 0 ->
  utils.split_story_into_panels story_text n
  = Ret ((fun i =>
            str_join (py " ")
              (utils.panel_words (str_split story_text)
                 (Z.div (len (str_split story_text)) n) n i)) <$> range n).
Proof.
  intros Hn. unfold utils.split_story_into_panels.
  rewrite floordiv_ok by done. simpl. by rewrite foldl_snoc.
Qed.

Lemma fallback_panel_generation_spans (story : pystr) (n : Z) :
  n <> 0 ->
  LLMHandler._fallback_panel_generation story n
  = Ret ((fun i =>
            LLMHandler.panel_desc i
              (str_join (py " ")
                 (utils.panel_words (str_split story)
                    (Z.div (len (str_split story)) n) n i))) <$> range n).
Proof.
  intros Hn. unfold LLMHandler._fallback_panel_generation.
  rewrite floordiv_ok by done. simpl. by rewrite foldl_snoc.
Qed.

(* ===================================================================== *)
(** * C1: the fallback splitter partitions the words                     *)
(* ===================================================================== *)

(** C1. For a story whose word list is non-empty and [n >= 1], both
    fallback splitters ([utils.split_story_into_panels] and
    [LLMHandler._fallback_panel_generation]) return exactly [n] strings,
    panel [i] being built from the word span [panel_words ... i]; each of
    the first [n - 1] spans has exactly [floor(len(words) / n)] words, the
    last span has the remaining words, which are at least that many, and
    the spans concatenated in order are the original word sequence. *)
Theorem C1_fallback_splitter_partitions_words (story : pystr) (n : Z) :
  str_split story <> [] -> 1 <= n ->
  let words := str_split story in
  let per_panel := Z.div (len words) n in
  let span := utils.panel_words words per_panel n in
  (exists panels,
      utils.split_story_into_panels story n = Ret panels
      /\ len panels = n
      /\ panels = (fun i => str_join (py " ") (span i)) <$> range n)
  /\ (exists panels,
         LLMHandler._fallback_panel_generation story n = Ret panels
         /\ len panels = n
         /\ panels
            = (fun i => LLMHandler.panel_desc i (str_join (py " ") (span i)))
                <$> range n)
  /\ (forall i, 0 <= i < n - 1 -> len (span i) = per_panel)
  /\ len (span (n - 1)) = len words - (n - 1) * per_panel
  /\ per_panel <= len (span (n - 1))
  /\ concat (span <$> range n) = words.
Proof.
  intros _ Hn words per_panel span.
  destruct (per_panel_bounds words n Hn) as (Hq & Hqn & Hlast).
  fold per_panel in Hq, Hqn, Hlast.
  assert (Hlen_last : len (span (n - 1)) = len words - (n - 1) * per_panel).
  { unfold span, per_panel. rewrite panel_words_last by done.
    fold per_panel. assert (0 <= (n - 1) * per_panel) by nia.
    unfold len in *. rewrite (length_drop words).
    set (m := (n - 1) * per_panel) in *. lia. }
  split; [|split; [|split; [|split; [|split]]]].
  - eexists. split; [apply split_story_into_panels_spans; lia|].
    split; [|reflexivity]. rewrite len_fmap, len_range; lia.
  - eexists. split; [apply fallback_panel_generation_spans; lia|].
    split; [|reflexivity]. rewrite len_fmap, len_range; lia.
  - intros i Hi. unfold span, per_panel. rewrite panel_words_inner by done.
    fold per_panel. assert (Hi' : i * per_panel + per_panel <= len words) by nia.
    assert (0 <= i * per_panel) by nia.
    unfold len in *. rewrite length_take, (length_drop words).
    set (m := i * per_panel) in *. lia.
  - exact Hlen_last.
  - rewrite Hlen_last. nia.
  - apply panel_words_concat. done.
Qed.

Lemma C1_fallback_splitter_witness :
  str_split (py "the quick brown fox jumps over the lazy dog") <> []
  /\ utils.split_story_into_panels
       (py "the quick brown fox jumps over the lazy dog") 4
     = Ret [py "the quick"; py "brown fox"; py "jumps over"; py "the lazy dog"].
Proof.
  split; [vm_compute; discriminate|].
  destruct (C1_fallback_splitter_partitions_words
              (py "the quick brown fox jumps over the lazy dog") 4)
    as [(panels & -> & _ & ->) _]; [vm_compute; discriminate | lia |].
  vm_compute. reflexivity.
Defined.

(* ===================================================================== *)
(** * C10: fewer words than panels                                       *)
(* ===================================================================== *)

Lemma fmap_const_on {A B} (f : A -> B) (c : B) (l : list A) :
  (forall x, x ∈ l -> f x = c) -> f <$> l = replicate (length l) c.
Proof.
  induction l as [|x l IH]; intros Hf; simpl; [done|].
  rewrite (Hf x) by left. f_equal. apply IH. intros y Hy. apply Hf. by right.
Qed.

Lemma panel_desc_empty (i : Z) :
  LLMHandler.panel_desc i [] = py "Scene " ++ str_of_int (i + 1) ++ py ": ".
Proof.
  unfold LLMHandler.panel_desc.
  change (py_slice [] None (Some 30)) with (@nil N).
  change (if 30 <? len (@nil N) then py "..." else py "") with (@nil N).
  by rewrite !app_nil_r.
Qed.

(** C10. When the story has fewer words than panels are asked for,
    [split_story_into_panels] returns the empty string for each of the
    first [num_panels - 1] panels and all the words, joined, as the last
    panel; the fallback labels of the LLM handler for the leading panels
    are the bare ["Scene i: "] with no description text, and the last label
    is built from all the words. *)
Theorem C10_fewer_words_than_panels (story : pystr) (num_panels : Z) :
  len (str_split story) < num_panels ->
  utils.split_story_into_panels story num_panels
  = Ret (replicate (Z.to_nat (num_panels - 1)) []
           ++ [str_join (py " ") (str_split story)])
  /\ LLMHandler._fallback_panel_generation story num_panels
     = Ret (((fun i => py "Scene " ++ str_of_int (i + 1) ++ py ": ")
               <$> range (num_panels - 1))
              ++ [LLMHandler.panel_desc (num_panels - 1)
                    (str_join (py " ") (str_split story))]).
Proof.
  intros Hlt. set (words := str_split story) in *.
  pose proof (len_nonneg words) as Hlen.
  assert (Hn : 1 <= num_panels) by lia.
  assert (Hq : Z.div (len words) num_panels = 0) by (apply Z.div_small; lia).
  assert (Hinner : forall i, i ∈ range (num_panels - 1) ->
            utils.panel_words words (Z.div (len words) num_panels) num_panels i = []).
  { intros i Hi. apply elem_of_range in Hi.
    rewrite panel_words_inner by lia. by rewrite Hq. }
  assert (Hlast : utils.panel_words words (Z.div (len words) num_panels)
                    num_panels (num_panels - 1) = words).
  { rewrite panel_words_last by lia. by rewrite Hq, Z.mul_0_r. }
  split.
  - rewrite split_story_into_panels_spans by lia. fold words.
    rewrite range_snoc, fmap_app by lia. simpl. rewrite Hlast. do 2 f_equal.
    rewrite (fmap_const_on _ []).
    + f_equal. unfold range. rewrite length_seqZ. done.
    + intros i Hi. by rewrite Hinner.
  - rewrite fallback_panel_generation_spans by lia. fold words.
    rewrite range_snoc, fmap_app by lia. simpl. rewrite Hlast. do 2 f_equal.
    apply list_fmap_ext. intros k i Hk.
    rewrite Hinner by (by eapply list_elem_of_lookup_2).
    apply panel_desc_empty.
Qed.

Lemma C10_fewer_words_witness :
  len (str_split (py "one two")) < 4
  /\ utils.split_story_into_panels (py "one two") 4
     = Ret [py ""; py ""; py ""; py "one two"]
  /\ LLMHandler._fallback_panel_generation (py "one two") 4
     = Ret [py "Scene 1: "; py "Scene 2: "; py "Scene 3: "; py "Scene 4: one two"].
Proof.
  assert (H : len (str_split (py "one two")) < 4) by (vm_compute; reflexivity).
  split; [exact H|].
  destruct (C10_fewer_words_than_panels (py "one two") 4 H) as [-> ->].
  split; vm_compute; reflexivity.
Defined.

(* ===================================================================== *)
(** * C8: the labels of the fallback panels                              *)
(* ===================================================================== *)

Lemma range_lookup (n i : Z) :
  0 <= i < n -> range n !! Z.to_nat i = Some i.
Proof.
  intros Hi. unfold range. rewrite lookup_seqZ_lt by lia. f_equal. lia.
Qed.

(** The label of line 216, by the length of the panel text. *)
Lemma panel_desc_cases (i : Z) (panel_text : pystr) :
  LLMHandler.panel_desc i panel_text
  = py "Scene " ++ str_of_int (i + 1) ++ py ": "
      ++ (if 30 <? len panel_text then take 30 panel_text ++ py "..."
          else panel_text).
Proof.
  unfold LLMHandler.panel_desc. rewrite py_slice_prefix by lia.
  change (Z.to_nat 30) with 30%nat.
  destruct (Z.ltb_spec 30 (len panel_text)) as [Hlong|Hshort]; [done|].
  rewrite take_ge by (unfold len in Hshort; lia).
  change (py "") with (@nil N). by rewrite app_nil_r.
Qed.

(** C8, as amended. For a story with a non-empty word list and [n >= 1],
    panel [i] (0-based, [0 <= i < n]) of the fallback generation is
    ["Scene "], the 1-based index [i + 1], [": "], and then the joined
    words of the panel: their first 30 characters followed by ["..."] when
    the joined text is longer than 30 characters, and the whole text with
    nothing after it otherwise. *)
Theorem C8_fallback_panel_labels (story : pystr) (n i : Z) :
  str_split story <> [] -> 1 <= n -> 0 <= i < n ->
  let words := str_split story in
  let panel_text :=
    str_join (py " ")
      (LLMHandler.panel_words words (Z.div (len words) n) n i) in
  exists panels,
    LLMHandler._fallback_panel_generation story n = Ret panels
    /\ panels !! Z.to_nat i
       = Some (py "Scene " ++ str_of_int (i + 1) ++ py ": "
                 ++ (if 30 <? len panel_text
                     then take 30 panel_text ++ py "..."
                     else panel_text)).
Proof.
  intros _ Hn Hi words panel_text. eexists.
  split; [apply fallback_panel_generation_spans; lia|].
  rewrite list_lookup_fmap, range_lookup by done. simpl. f_equal.
  apply panel_desc_cases.
Qed.

Lemma C8_fallback_panel_labels_witness :
  exists panels,
    LLMHandler._fallback_panel_generation
      (py "a very long opening sentence that keeps going and a short end") 2
    = Ret panels
    /\ panels !! 0%nat = Some (py "Scene 1: a very long opening sentence t...")
    /\ panels !! 1%nat = Some (py "Scene 2: keeps going and a short end").
Proof.
  set (story := py "a very long opening sentence that keeps going and a short end").
  assert (Hw : str_split story <> []) by (vm_compute; discriminate).
  destruct (C8_fallback_panel_labels story 2 0 Hw) as (p0 & E0 & L0); [lia|lia|].
  destruct (C8_fallback_panel_labels story 2 1 Hw) as (p1 & E1 & L1); [lia|lia|].
  rewrite E0 in E1. injection E1 as <-.
  exists p0. split; [exact E0|]. split.
  - etransitivity; [exact L0|]. vm_compute. reflexivity.
  - etransitivity; [exact L1|]. vm_compute. reflexivity.
Defined.

(** C8 as first stated fails: a panel text of at most 30 characters gets
    no ["..."]. *)
Lemma C8_counterexample :
  str_split (py "hello world") <> []
  /\ LLMHandler._fallback_panel_generation (py "hello world") 1
     = Ret [py "Scene 1: hello world"]
  /\ py "Scene 1: hello world"
     <> py "Scene 1: " ++ take 30 (py "hello world") ++ py "...".
Proof.
  split; [vm_compute; discriminate|].
  split; [vm_compute; reflexivity|vm_compute; discriminate].
Qed.

(* ===================================================================== *)
(** * C9: input validation                                               *)
(* ===================================================================== *)

(** The four outcomes of [validate_story_input], by the tests it makes in
    order. *)
Lemma validate_story_input_cases (story_text : pystr) :
  utils.validate_story_input story_text
  = if decide (str_strip story_text = []) then
      (false, py "Please enter a story or idea.")
    else if decide (len (str_strip story_text) < 10) then
      (false, py "Story must be at least 10 characters long.")
    else if decide (1000 < len story_text) then
      (false, py "Story is too long. Please keep it under 1000 characters.")
    else (true, py "").
Proof.
  unfold utils.validate_story_input.
  destruct story_text as [|c s]; [reflexivity|].
  cbn [truthy negb orb].
  destruct (str_strip (c :: s)) as [|d r] eqn:E; [reflexivity|].
  cbn [truthy negb]. rewrite decide_False by discriminate.
  destruct (Z.ltb_spec (len (d :: r)) 10);
    [by rewrite decide_True by lia | rewrite decide_False by lia].
  destruct (Z.ltb_spec 1000 (len (c :: s)));
    [by rewrite decide_True by lia | by rewrite decide_False by lia].
Qed.

(** C9, as amended. [validate_story_input] returns
    [(False, "Please enter a story or idea.")] for the empty string and for
    every string that is empty once stripped; the "at least 10 characters"
    message for every string whose stripped length is between 1 and 9; the
    "too long" message for every string of more than 1000 characters whose
    stripped length is at least 10, such as ["A" * 1001]; and [(True, "")]
    for every string whose stripped length is at least 10 and whose length
    is at most 1000, such as ["A cat discovers a magical garden."]. *)
Theorem C9_validate_story_input (story_text : pystr) :
  utils.validate_story_input (py "") = (false, py "Please enter a story or idea.")
  /\ (str_strip story_text = [] ->
      utils.validate_story_input story_text
      = (false, py "Please enter a story or idea."))
  /\ (0 < len (str_strip story_text) < 10 ->
      utils.validate_story_input story_text
      = (false, py "Story must be at least 10 characters long.")
      /\ str_in (py "at least 10 characters")
           (utils.validate_story_input story_text).2 = true)
  /\ (10 <= len (str_strip story_text) -> 1000 < len story_text ->
      utils.validate_story_input story_text
      = (false, py "Story is too long. Please keep it under 1000 characters.")
      /\ str_in (py "too long") (utils.validate_story_input story_text).2 = true)
  /\ (utils.validate_story_input (replicate 1001 65%N)).1 = false
  /\ str_in (py "too long") (utils.validate_story_input (replicate 1001 65%N)).2
     = true
  /\ (10 <= len (str_strip story_text) -> len story_text <= 1000 ->
      utils.validate_story_input story_text = (true, py ""))
  /\ utils.validate_story_input (py "A cat discovers a magical garden.")
     = (true, py "").
Proof.
  rewrite (validate_story_input_cases story_text).
  split; [reflexivity|].
  split; [intros E; by rewrite decide_True by done|].
  split.
  { intros H. rewrite decide_False.
    - rewrite decide_True by lia. split; [reflexivity|]. vm_compute. reflexivity.
    - intros E. rewrite E in H. unfold len in H. simpl in H. lia. }
  split.
  { intros H1 H2. rewrite decide_False.
    - rewrite decide_False, decide_True by lia.
      split; [reflexivity|]. vm_compute. reflexivity.
    - intros E. rewrite E in H1. unfold len in H1. simpl in H1. lia. }
  split; [vm_compute; reflexivity|].
  split; [vm_compute; reflexivity|].
  split; [|vm_compute; reflexivity].
  intros H1 H2. rewrite decide_False.
  - by rewrite !decide_False by lia.
  - intros E. rewrite E in H1. unfold len in H1. simpl in H1. lia.
Qed.

Lemma C9_validate_story_input_witness :
  utils.validate_story_input (py "Hi")
  = (false, py "Story must be at least 10 characters long.")
  /\ utils.validate_story_input (py "  A dog finds a bone.  ") = (true, py "").
Proof.
  split.
  - apply (C9_validate_story_input (py "Hi")). vm_compute. split; reflexivity.
  - apply (C9_validate_story_input (py "  A dog finds a bone.  "));
      vm_compute; discriminate.
Defined.

(** C9 as first stated fails: a string of blanks has a stripped length
    below 10 and gets the "please enter" message, not the "at least 10
    characters" one. *)
Lemma C9_counterexample :
  len (str_strip (py "   ")) < 10
  /\ utils.validate_story_input (py "   ")
     = (false, py "Please enter a story or idea.")
  /\ str_in (py "at least 10 characters")
       (utils.validate_story_input (py "   ")).2 = false.
Proof. vm_compute. repeat split; reflexivity. Qed.

(* ===================================================================== *)
(** * C4: parsing the reply of the language model                        *)
(* ===================================================================== *)

Lemma split_once_after (sep : N) (s : pystr) :
  char_in sep s = true -> str_split_once sep s !! 1%nat = Some (str_after sep s).
Proof.
  unfold char_in. induction s as [|c s IH]; simpl; [discriminate|].
  rewrite (N.eqb_sym sep c). destruct (c =? sep)%N; simpl; [done|].
  intros Hin. specialize (IH Hin).
  destruct (str_split_once sep s) as [|h t]; [discriminate|]. exact IH.
Qed.

(** One turn of the loop never raises, and appends what
    [accepted_description] says. *)
Lemma parse_line_spec (panels : list pystr) (line : pystr) :
  LLMHandler.parse_line panels line
  = Ret (panels ++ option_list (LLMHandler.accepted_description line)).
Proof.
  unfold LLMHandler.parse_line, LLMHandler.accepted_description.
  destruct (str_startswith (str_strip line) (py "Panel")) eqn:Hstart; simpl;
    [|by rewrite app_nil_r].
  destruct (char_in 58%N (str_strip line)) eqn:Hcolon; simpl;
    [|by rewrite app_nil_r].
  unfold getitem. rewrite split_once_after by done. simpl.
  destruct (truthy (str_strip (str_after 58%N (str_strip line)))); simpl;
    [done|by rewrite app_nil_r].
Qed.

Lemma parse_lines_spec (panels : list pystr) (lines : list pystr) :
  for_each LLMHandler.parse_line panels lines
  = Ret (panels ++ omap LLMHandler.accepted_description lines).
Proof.
  revert panels. induction lines as [|line lines IH]; intros panels; simpl.
  - by rewrite app_nil_r.
  - rewrite parse_line_spec. simpl. rewrite IH, <- app_assoc. f_equal. f_equal.
    by destruct (LLMHandler.accepted_description line).
Qed.

(** The padding loop adds the labels [Scene k] for [k] from
    [len(panels) + 1] up to [num_panels]. *)
Lemma pad_panels_spec (num_panels : Z) (panels : list pystr) :
  LLMHandler.pad_panels num_panels panels
  = panels ++ ((fun k => py "Scene " ++ str_of_int k)
                 <$> seqZ (len panels + 1) (num_panels - len panels)).
Proof.
  funelim (LLMHandler.pad_panels num_panels panels).
  - rewrite H. rewrite len_app. change (len [_]) with 1.
    rewrite <- app_assoc. f_equal.
    rewrite (seqZ_cons (len panels + 1)) by lia. simpl. do 2 f_equal.
    f_equal; lia.
  - rewrite seqZ_nil by lia. by rewrite app_nil_r.
Qed.

(** The result of the parser, by the number of accepted lines. *)
Lemma parse_panel_response_cases (response : pystr) (n : Z) :
  0 <= n ->
  let accepted :=
    omap LLMHandler.accepted_description
      (str_split_on 10%N (str_strip response)) in
  exists panels,
    LLMHandler._parse_panel_response response n = Ret panels
    /\ len panels = n
    /\ (len accepted < n ->
        panels
        = accepted ++ ((fun k => py "Scene " ++ str_of_int k)
                         <$> seqZ (len accepted + 1) (n - len accepted)))
    /\ (n <= len accepted -> panels = take (Z.to_nat n) accepted).
Proof.
  intros Hn accepted.
  unfold LLMHandler._parse_panel_response.
  rewrite parse_lines_spec. simpl. fold accepted.
  eexists. split; [reflexivity|].
  rewrite py_slice_prefix by done.
  destruct (Z.ltb_spec (len accepted) n) as [Hfew|Hmany].
  - rewrite pad_panels_spec.
    set (padded := accepted ++ _).
    assert (Hlen : length padded = Z.to_nat n).
    { unfold padded. rewrite length_app, length_fmap, length_seqZ.
      unfold len in *. lia. }
    rewrite take_ge by lia.
    split; [unfold len; lia|]. split; [done|lia].
  - split; [|split; [lia|done]].
    unfold len in *. rewrite length_take. lia.
Qed.

(** C4. For every response text and [n >= 0], [_parse_panel_response]
    returns exactly [n] descriptions. A line contributes a description only
    if, once stripped, it starts with [Panel] and contains a colon; the
    contributed descriptions are kept in the order of their lines (they are
    [omap accepted_description] of the lines, whatever number the label
    carries). When fewer than [n] lines are accepted the result is these
    descriptions followed by the labels [Scene k] for the missing positions
    [k]; when at least [n] are accepted it is the first [n] of them. *)
Theorem C4_parse_panel_response (response : pystr) (n : Z) :
  0 <= n ->
  let lines := str_split_on 10%N (str_strip response) in
  let accepted := omap LLMHandler.accepted_description lines in
  (forall line d,
      LLMHandler.accepted_description line = Some d ->
      str_startswith (str_strip line) (py "Panel") = true
      /\ char_in 58%N (str_strip line) = true)
  /\ exists panels,
      LLMHandler._parse_panel_response response n = Ret panels
      /\ len panels = n
      /\ (len accepted < n ->
          panels
          = accepted ++ ((fun k => py "Scene " ++ str_of_int k)
                           <$> seqZ (len accepted + 1) (n - len accepted)))
      /\ (n <= len accepted -> panels = take (Z.to_nat n) accepted).
Proof.
  intros Hn lines accepted. split.
  - intros line d. unfold LLMHandler.accepted_description.
    destruct (str_startswith (str_strip line) (py "Panel")); [|discriminate].
    destruct (char_in 58%N (str_strip line)); [done|discriminate].
  - exact (parse_panel_response_cases response n Hn).
Qed.

Lemma C4_parse_panel_response_witness :
  LLMHandler._parse_panel_response
    (py "Here are your panels:
Panel 2: a dragon wakes
  Panel 1 - no separator here
Panel 1: a knight rides
Panel 3:   ") 3
  = Ret [py "a dragon wakes"; py "a knight rides"; py "Scene 3"]
  /\ LLMHandler._parse_panel_response (py "Panel 1: a
Panel 2: b
Panel 3: c") 2
     = Ret [py "a"; py "b"].
Proof.
  split.
  - destruct (C4_parse_panel_response
                (py "Here are your panels:
Panel 2: a dragon wakes
  Panel 1 - no separator here
Panel 1: a knight rides
Panel 3:   ") 3) as (_ & panels & -> & _ & Hfew & _); [lia|].
    rewrite Hfew by (vm_compute; reflexivity). vm_compute. reflexivity.
  - destruct (C4_parse_panel_response (py "Panel 1: a
Panel 2: b
Panel 3: c") 2) as (_ & panels & -> & _ & _ & Hmany); [lia|].
    rewrite Hmany by (vm_compute; discriminate). vm_compute. reflexivity.
Defined.

(* ===================================================================== *)
(** * C6: prompt enhancement                                             *)
(* ===================================================================== *)

Ltac style_cases H :=
  unfold known_styles in H;
  repeat (apply elem_of_cons in H as [->|H]);
  [ .. | by apply elem_of_nil in H ].

Ltac style_differs H :=
  let E := fresh in
  intros E; apply H; rewrite <- E; unfold known_styles;
  repeat first [ by left | right ].

Lemma remote_style_unknown (style : pystr) :
  style ∉ known_styles -> ImageGenerator.style_enhancements !! style = None.
Proof.
  intros H. unfold ImageGenerator.style_enhancements.
  rewrite !lookup_insert_ne by style_differs H.
  apply lookup_singleton_ne. style_differs H.
Qed.

Lemma local_style_unknown (style : pystr) :
  style ∉ known_styles -> LocalImageGenerator.style_enhancements !! style = None.
Proof.
  intros H. unfold LocalImageGenerator.style_enhancements.
  rewrite !lookup_insert_ne by style_differs H.
  apply lookup_singleton_ne. style_differs H.
Qed.

Lemma style_prompts_unknown (style : pystr) :
  style ∉ [py "comic"; py "realistic"; py "cartoon"; py "anime"] ->
  utils.style_prompts !! style = None
  /\ LLMHandler.style_enhancements !! style = None.
Proof.
  intros H. unfold utils.style_prompts, LLMHandler.style_enhancements.
  rewrite !lookup_insert_ne
    by (intros E; apply H; rewrite <- E; repeat first [ by left | right ]).
  split; apply lookup_singleton_ne;
    intros E; apply H; rewrite <- E; repeat first [ by left | right ].
Qed.

(** C6, as amended. For every description and style tag.
    - The enhancement step of the image generators: for a tag among comic,
      realistic, cartoon, anime, watercolor and sketch it yields the
      description, then [", "], then the phrase the table holds for that
      tag (the remote generator returns it paired with its fixed negative
      prompt); every other tag yields what ["comic"] yields, whose phrase
      is spelled out.
    - [create_image_prompt] has a table of its own, for comic, realistic,
      cartoon and anime only: it yields the description, then [", "], then
      the phrase of the tag, then [", high quality, clear composition"];
      the four results are spelled out. Every other tag, ["watercolor"]
      and ["sketch"] among them, and a tag left out yield what ["comic"]
      yields.
    - [create_image_prompt("A cat in a garden", "anime")] contains the
      description and the anime phrase. *)
Theorem C6_prompt_enhancement (R : Runtime) (description style : pystr) :
  (style ∈ known_styles ->
   exists phrase,
     ImageGenerator.style_enhancements !! style = Some phrase
     /\ ImageGenerator._enhance_prompt (PStr description) style
        = Ret (description ++ py ", " ++ phrase,
               py "blurry, low quality, distorted, ugly, bad anatomy"))
  /\ (style ∉ known_styles ->
      ImageGenerator._enhance_prompt (PStr description) style
      = ImageGenerator._enhance_prompt (PStr description) (py "comic"))
  /\ ImageGenerator._enhance_prompt (PStr description) (py "comic")
     = Ret (description
              ++ py ", comic book style, vibrant colors, bold outlines, clear composition",
            py "blurry, low quality, distorted, ugly, bad anatomy")
  /\ (style ∈ known_styles ->
      exists phrase,
        LocalImageGenerator.style_enhancements !! style = Some phrase
        /\ LocalImageGenerator._enhance_prompt description style
           = Ret (description ++ py ", " ++ phrase))
  /\ (style ∉ known_styles ->
      LocalImageGenerator._enhance_prompt description style
      = LocalImageGenerator._enhance_prompt description (py "comic"))
  /\ LocalImageGenerator._enhance_prompt description (py "comic")
     = Ret (description
              ++ py ", comic book style, vibrant colors, bold outlines, clear composition, high quality")
  /\ (style ∈ [py "comic"; py "realistic"; py "cartoon"; py "anime"] ->
      exists phrase,
        utils.style_prompts !! style = Some phrase
        /\ utils.create_image_prompt description (Some style)
           = Ret (description ++ py ", " ++ phrase
                    ++ py ", high quality, clear composition"))
  /\ (style ∉ [py "comic"; py "realistic"; py "cartoon"; py "anime"] ->
      utils.style_prompts !! style = None
      /\ utils.create_image_prompt description (Some style)
         = utils.create_image_prompt description (Some (py "comic")))
  /\ utils.create_image_prompt description (Some (py "comic"))
     = Ret (description
              ++ py ", comic book style, vibrant colors, clear lines, high quality, clear composition")
  /\ utils.create_image_prompt description (Some (py "realistic"))
     = Ret (description
              ++ py ", photorealistic, detailed, natural lighting, high quality, clear composition")
  /\ utils.create_image_prompt description (Some (py "cartoon"))
     = Ret (description
              ++ py ", cartoon style, simple shapes, bright colors, high quality, clear composition")
  /\ utils.create_image_prompt description (Some (py "anime"))
     = Ret (description
              ++ py ", anime style, expressive characters, detailed backgrounds, high quality, clear composition")
  /\ utils.create_image_prompt description None
     = utils.create_image_prompt description (Some (py "comic"))
  /\ exists prompt,
      utils.create_image_prompt (py "A cat in a garden") (Some (py "anime"))
      = Ret prompt
      /\ str_in (py "A cat in a garden") prompt = true
      /\ str_in (py "anime style, expressive characters, detailed backgrounds")
           prompt = true.
Proof.
  repeat match goal with |- _ /\ _ => split end.
  - intros H. style_cases H; eexists; (split; [vm_compute; reflexivity|]);
      vm_compute; reflexivity.
  - intros H. unfold ImageGenerator._enhance_prompt, dict_get.
    rewrite (remote_style_unknown style H). reflexivity.
  - vm_compute. reflexivity.
  - intros H. style_cases H; eexists; (split; [vm_compute; reflexivity|]);
      vm_compute; reflexivity.
  - intros H. unfold LocalImageGenerator._enhance_prompt, dict_get.
    rewrite (local_style_unknown style H). reflexivity.
  - vm_compute. reflexivity.
  - intros H. repeat (apply elem_of_cons in H as [->|H]);
      [ .. | by apply elem_of_nil in H ];
      eexists; (split; [vm_compute; reflexivity|]); vm_compute; reflexivity.
  - intros H. destruct (style_prompts_unknown style H) as [H1 _].
    split; [exact H1|].
    unfold utils.create_image_prompt, dict_get. simpl. by rewrite H1.
  - vm_compute. reflexivity.
  - vm_compute. reflexivity.
  - vm_compute. reflexivity.
  - vm_compute. reflexivity.
  - reflexivity.
  - eexists. split; [vm_compute; reflexivity|]. split; vm_compute; reflexivity.
Qed.

(** C6 as first stated fails for [create_image_prompt]: it has no phrase
    for ["watercolor"], which the image generators have, and answers with
    the comic phrase; and what it returns for a tag it knows is more than
    the description, [", "] and the phrase of the tag. *)
Lemma C6_counterexample :
  utils.create_image_prompt (py "A cat in a garden") (Some (py "watercolor"))
  = Ret (py "A cat in a garden, comic book style, vibrant colors, clear lines, high quality, clear composition")
  /\ utils.style_prompts !! py "watercolor" = None
  /\ ImageGenerator.style_enhancements !! py "watercolor"
     = Some (py "watercolor painting style, soft colors, artistic")
  /\ utils.style_prompts !! py "anime"
     = Some (py "anime style, expressive characters, detailed backgrounds")
  /\ utils.create_image_prompt (py "A cat in a garden") (Some (py "anime"))
     <> Ret (py "A cat in a garden" ++ py ", "
              ++ py "anime style, expressive characters, detailed backgrounds").
Proof.
  repeat apply conj; try (vm_compute; reflexivity).
  vm_compute. discriminate.
Qed.

(* ===================================================================== *)
(** * Placeholder images                                                 *)
(* ===================================================================== *)

(** A statement that names no [Limits] is about [unlimited], Pillow with
    room for an image of any size: so are the statements on the
    placeholders of this part, on the layouts and on whole runs. The
    statements on what [generate_image] returns name their [Limits] and hold
    for every one. *)

Lemma Image_new_ok (mode : pystr) (w h : Z) (color : pystr) :
  0 <= w -> 0 <= h -> Image_new mode (w, h) color = Ret (New mode (w, h) color).
Proof.
  intros Hw Hh. unfold Image_new. simpl.
  destruct (Z.ltb_spec w 0); [lia|]. destruct (Z.ltb_spec h 0); [lia|]. done.
Qed.

(** A placeholder of positive size is made without an exception: a flat
    [#f0f0f0] image of the size asked for, with a text and a border. *)
Lemma remote_placeholder_ok (R : Runtime) (prompt : pystr) (w h : Z) :
  1 <= w -> 1 <= h ->
  exists xy text f,
    ImageGenerator._create_placeholder_image prompt w h
    = Ret (Rectangle
             (Text (New (py "RGB") (w, h) (py "#f0f0f0")) xy text (py "#666666") f)
             (0, 0, w - 1, h - 1) (py "#cccccc") 2).
Proof.
  intros Hw Hh. unfold ImageGenerator._create_placeholder_image.
  rewrite Image_new_ok by lia. simpl.
  destruct (textbbox _ _) as [[[l t] r] b].
  unfold draw_rectangle.
  destruct (Z.ltb_spec (w - 1) 0); [lia|]. destruct (Z.ltb_spec (h - 1) 0); [lia|].
  simpl. eauto.
Qed.

Lemma local_placeholder_ok (R : Runtime) (prompt : pystr) (w h : Z) :
  1 <= w -> 1 <= h ->
  exists xy text f,
    LocalImageGenerator._create_placeholder_image prompt w h
    = Ret (Rectangle
             (Text (New (py "RGB") (w, h) (py "#f0f0f0")) xy text (py "#666666") f)
             (0, 0, w - 1, h - 1) (py "#cccccc") 2).
Proof.
  intros Hw Hh. unfold LocalImageGenerator._create_placeholder_image.
  rewrite Image_new_ok by lia. simpl.
  destruct (textbbox _ _) as [[[l t] r] b].
  unfold draw_rectangle.
  destruct (Z.ltb_spec (w - 1) 0); [lia|]. destruct (Z.ltb_spec (h - 1) 0); [lia|].
  simpl. eauto.
Qed.

Lemma remote_placeholder_size (R : Runtime) (prompt : pystr) (w h : Z) :
  1 <= w -> 1 <= h ->
  exists img,
    ImageGenerator._create_placeholder_image prompt w h = Ret img
    /\ size img = (w, h).
Proof.
  intros Hw Hh.
  destruct (remote_placeholder_ok R prompt w h Hw Hh) as (xy & text & f & ->).
  eauto.
Qed.

Lemma local_placeholder_size (R : Runtime) (prompt : pystr) (w h : Z) :
  1 <= w -> 1 <= h ->
  exists img,
    LocalImageGenerator._create_placeholder_image prompt w h = Ret img
    /\ size img = (w, h).
Proof.
  intros Hw Hh.
  destruct (local_placeholder_ok R prompt w h Hw Hh) as (xy & text & f & ->).
  eauto.
Qed.

(* ===================================================================== *)
(** * C7: the compositor on an empty input                                *)
(* ===================================================================== *)

(** C7. For the empty list of images and every layout tag,
    [combine_panels_into_comic] of either generator raises nothing and
    returns one image, the placeholder that [_create_placeholder_image]
    makes for the prompt ["No panels to combine"] at the default size: a
    flat 512x512 image with a text and a border. *)
Theorem C7_combine_empty_input (R : Runtime) (layout : pystr) :
  (exists xy text f,
      ImageGenerator.combine_panels_into_comic [] layout
      = Ret (Rectangle
               (Text (New (py "RGB") (512, 512) (py "#f0f0f0")) xy text
                  (py "#666666") f)
               (0, 0, 511, 511) (py "#cccccc") 2)
      /\ ImageGenerator.combine_panels_into_comic [] layout
         = ImageGenerator._create_placeholder_image (py "No panels to combine")
             512 512)
  /\ (exists xy text f,
         LocalImageGenerator.combine_panels_into_comic [] layout
         = Ret (Rectangle
                  (Text (New (py "RGB") (512, 512) (py "#f0f0f0")) xy text
                     (py "#666666") f)
                  (0, 0, 511, 511) (py "#cccccc") 2)
         /\ LocalImageGenerator.combine_panels_into_comic [] layout
            = LocalImageGenerator._create_placeholder_image
                (py "No panels to combine") 512 512).
Proof.
  split.
  - destruct (remote_placeholder_ok R (py "No panels to combine") 512 512)
      as (xy & text & f & E); [lia|lia|].
    exists xy, text, f. split; [|reflexivity].
    unfold ImageGenerator.combine_panels_into_comic. simpl. exact E.
  - destruct (local_placeholder_ok R (py "No panels to combine") 512 512)
      as (xy & text & f & E); [lia|lia|].
    exists xy, text, f. split; [|reflexivity].
    unfold LocalImageGenerator.combine_panels_into_comic. simpl. exact E.
Qed.

(* ===================================================================== *)
(** * C3: the layouts of the compositor                                  *)
(* ===================================================================== *)

Section Pasting.
Variable place : Z -> Z * Z.



End Pasting.


Lemma length_enumerate {A} (l : list A) :
  length (enumerate l) = length l.
Proof.
  unfold enumerate. generalize 0. induction l as [|x l IH]; intros k; simpl;
    [done|]. by rewrite IH.
Qed.








(* ===================================================================== *)
(** * Image acquisition                                                  *)
(* ===================================================================== *)

Lemma remote_enhance_ok (R : Runtime) (prompt : prompt_value) (style : pystr) :
  exists enhanced,
    ImageGenerator._enhance_prompt prompt style
    = Ret (enhanced, py "blurry, low quality, distorted, ugly, bad anatomy").
Proof.
  unfold ImageGenerator._enhance_prompt.
  assert (E : dict_getitem ImageGenerator.style_enhancements (py "comic")
              = Ret (py "comic book style, vibrant colors, bold outlines, clear composition"))
    by (vm_compute; reflexivity).
  rewrite E. simpl. eauto.
Qed.

Lemma local_enhance_ok (prompt style : pystr) :
  exists enhanced, LocalImageGenerator._enhance_prompt prompt style = Ret enhanced.
Proof.
  unfold LocalImageGenerator._enhance_prompt.
  assert (E : dict_getitem LocalImageGenerator.style_enhancements (py "comic")
              = Ret (py "comic book style, vibrant colors, bold outlines, clear composition, high quality"))
    by (vm_compute; reflexivity).
  rewrite E. simpl. eauto.
Qed.

(** Within the limits of Pillow, [Image.new] returns the image. *)
Lemma Image_new_fits (L : Limits) (mode : pystr) (w h : Z) (color : pystr) :
  0 <= w -> 0 <= h -> too_large (w, h) = None ->
  Image_new mode (w, h) color = Ret (New mode (w, h) color).
Proof.
  intros Hw Hh Hfits. unfold Image_new. simpl.
  destruct (Z.ltb_spec w 0); [lia|]. destruct (Z.ltb_spec h 0); [lia|].
  simpl. by rewrite Hfits.
Qed.

Lemma remote_placeholder_fits (R : Runtime) (L : Limits) (prompt : pystr) (w h : Z) :
  1 <= w -> 1 <= h -> too_large (w, h) = None ->
  exists img,
    ImageGenerator._create_placeholder_image prompt w h = Ret img
    /\ size img = (w, h).
Proof.
  intros Hw Hh Hfits. unfold ImageGenerator._create_placeholder_image.
  rewrite Image_new_fits by (done || lia). simpl.
  destruct (textbbox _ _) as [[[l t] r] b].
  unfold draw_rectangle.
  destruct (Z.ltb_spec (w - 1) 0); [lia|]. destruct (Z.ltb_spec (h - 1) 0); [lia|].
  simpl. eauto.
Qed.

Lemma local_placeholder_fits (R : Runtime) (L : Limits) (prompt : pystr) (w h : Z) :
  1 <= w -> 1 <= h -> too_large (w, h) = None ->
  exists img,
    LocalImageGenerator._create_placeholder_image prompt w h = Ret img
    /\ size img = (w, h).
Proof.
  intros Hw Hh Hfits. unfold LocalImageGenerator._create_placeholder_image.
  rewrite Image_new_fits by (done || lia). simpl.
  destruct (textbbox _ _) as [[[l t] r] b].
  unfold draw_rectangle.
  destruct (Z.ltb_spec (w - 1) 0); [lia|]. destruct (Z.ltb_spec (h - 1) 0); [lia|].
  simpl. eauto.
Qed.

(** Beyond the limits of Pillow no placeholder is made: the exception of
    [Image.new] leaves [_create_placeholder_image]. *)
Lemma placeholder_too_large (R : Runtime) (L : Limits) (prompt : pystr) (w h : Z)
    (e : exn) :
  0 <= w -> 0 <= h -> too_large (w, h) = Some e ->
  ImageGenerator._create_placeholder_image prompt w h = Raise e
  /\ LocalImageGenerator._create_placeholder_image prompt w h = Raise e.
Proof.
  intros Hw Hh Hlarge.
  unfold ImageGenerator._create_placeholder_image,
    LocalImageGenerator._create_placeholder_image, Image_new. simpl.
  destruct (Z.ltb_spec w 0); [lia|]. destruct (Z.ltb_spec h 0); [lia|].
  simpl. by rewrite Hlarge.
Qed.

Lemma post_process_same (R : Runtime) (image : Image) (style : pystr) :
  LocalImageGenerator._post_process_image image style
  = ImageGenerator._post_process_image image style.
Proof. reflexivity. Qed.

Lemma boosted_panel_size (image : Image) (style : pystr) :
  size (boosted_panel image style) = (512, 512).
Proof.
  unfold boosted_panel, resized_panel.
  destruct (decide (size image <> (512, 512))) as [Hne|Heq];
    destruct (decide (style = py "comic")); simpl; try done;
    by apply dec_stable in Heq.
Qed.

(** Post-processing returns an image exactly when the resize it needs and
    the contrast boost it needs raise nothing; the image is then
    [boosted_panel image style]. Otherwise it raises. *)
Lemma post_process_outcome (R : Runtime) (image : Image) (style : pystr) :
  ((size image <> (512, 512) ->
    resize_raises image (512, 512) LANCZOS = None)
   /\ (style = py "comic" ->
       enhance_raises (resized_panel image) 1.2%Q = None) ->
   ImageGenerator._post_process_image image style
   = Ret (boosted_panel image style))
  /\ (forall img,
         ImageGenerator._post_process_image image style = Ret img ->
         img = boosted_panel image style
         /\ (size image <> (512, 512) ->
             resize_raises image (512, 512) LANCZOS = None)
         /\ (style = py "comic" ->
             enhance_raises (resized_panel image) 1.2%Q = None))
  /\ (forall e,
         ImageGenerator._post_process_image image style = Raise e ->
         (size image <> (512, 512)
          /\ resize_raises image (512, 512) LANCZOS = Some e)
         \/ (style = py "comic"
             /\ enhance_raises (resized_panel image) 1.2%Q = Some e)).
Proof.
  unfold ImageGenerator._post_process_image, boosted_panel, resized_panel,
    Image_resize, Contrast_enhance.
  destruct (decide (size image <> (512, 512))) as [Hne|Heq];
    [destruct (resize_raises image (512, 512) LANCZOS) as [e1|] eqn:E1|];
    cbv [mbind res_bind mret res_ret];
    (destruct (decide (style = py "comic")) as [Hc|Hc];
     [match goal with
      | |- context [enhance_raises ?i ?f] =>
          destruct (enhance_raises i f) as [e2|] eqn:E2
      end|]);
    (split; [|split];
     [ intros [H1 H2]; try specialize (H1 Hne); try specialize (H2 Hc);
       first [done | congruence]
     | intros img H; simplify_eq; repeat split; first [done | congruence]
     | intros e H; simplify_eq;
       first [done | left; split; [done|congruence]
             | right; split; [done|congruence]] ]).
Qed.

(** Post-processing always ends at the fixed panel size 512x512. *)
Lemma post_process_size (R : Runtime) (image : Image) (style : pystr) (img : Image) :
  ImageGenerator._post_process_image image style = Ret img ->
  size img = (512, 512).
Proof.
  intros H. destruct (post_process_outcome R image style) as (_ & Hret & _).
  destruct (Hret img H) as (-> & _). apply boosted_panel_size.
Qed.

(** [generate_image] of the remote generator, branch by branch: [enhanced]
    is the pair the enhancement step returns. *)
Lemma remote_generate_image_outcome (R : Runtime) (L : Limits)
    (self : ImageGenerator.t) (post : ImageGenerator.service)
    (image_open : bytes -> res Image) (prompt style : pystr) (width height : Z)
    (enhanced : pystr * pystr) :
  ImageGenerator._enhance_prompt (PStr prompt) style = Ret enhanced ->
  ImageGenerator.generate_image self post image_open prompt style width height
  = match ImageGenerator._call_image_api self post
            (PPair enhanced.1 enhanced.2) width height with
    | Ret (Some (c :: data)) =>
        match image_open (c :: data) with
        | Ret decoded =>
            match ImageGenerator._post_process_image decoded style with
            | Ret img => Ret (Some img)
            | Raise _ =>
                Some <$> ImageGenerator._create_placeholder_image prompt width height
            end
        | Raise _ =>
            Some <$> ImageGenerator._create_placeholder_image prompt width height
        end
    | _ => Some <$> ImageGenerator._create_placeholder_image prompt width height
    end.
Proof.
  intros Henh. unfold ImageGenerator.generate_image. rewrite Henh.
  cbn [mbind res_bind].
  destruct (ImageGenerator._call_image_api _ _ _ _ _) as [[[|c data]|]|e];
    cbn [mbind res_bind try_except truthy].
  - by destruct (ImageGenerator._create_placeholder_image prompt width height).
  - destruct (image_open (c :: data)) as [decoded|e];
      cbn [mbind res_bind try_except]; [|done].
    by destruct (ImageGenerator._post_process_image decoded style).
  - by destruct (ImageGenerator._create_placeholder_image prompt width height).
  - done.
Qed.

(** What [generate_image] of the remote generator returns where Pillow can
    make the placeholder: the post-processed image when the service
    delivered bytes that decode and post-process, and the placeholder of
    the size asked for in every other case. *)
Lemma remote_generate_image_fits (R : Runtime) (L : Limits)
    (self : ImageGenerator.t) (post : ImageGenerator.service)
    (image_open : bytes -> res Image) (prompt style : pystr) (width height : Z) :
  1 <= width -> 1 <= height -> too_large (width, height) = None ->
  exists img,
    ImageGenerator.generate_image self post image_open prompt style width height
    = Ret (Some img)
    /\ ((exists data decoded,
            image_open data = Ret decoded
            /\ ImageGenerator._post_process_image decoded style = Ret img)
        \/ ImageGenerator._create_placeholder_image prompt width height = Ret img).
Proof.
  intros Hw Hh Hfits.
  destruct (remote_placeholder_fits R L prompt width height Hw Hh Hfits)
    as (ph & Hph & _).
  destruct (remote_enhance_ok R (PStr prompt) style) as (enhanced & Henh).
  rewrite (remote_generate_image_outcome R L self post image_open prompt style
             width height _ Henh).
  destruct (ImageGenerator._call_image_api _ _ _ _ _) as [[[|c data]|]|e];
    try (rewrite Hph; eexists; split; [reflexivity|]; by right).
  destruct (image_open (c :: data)) as [decoded|e] eqn:Hopen;
    [|rewrite Hph; eexists; split; [reflexivity|]; by right].
  destruct (ImageGenerator._post_process_image decoded style) as [img|e] eqn:Hpp;
    [|rewrite Hph; eexists; split; [reflexivity|]; by right].
  exists img. split; [reflexivity|]. left. eauto.
Qed.

Lemma remote_generate_image_cases (R : Runtime) (self : ImageGenerator.t)
    (post : ImageGenerator.service) (image_open : bytes -> res Image)
    (prompt style : pystr) (width height : Z) :
  1 <= width -> 1 <= height ->
  exists img,
    ImageGenerator.generate_image self post image_open prompt style width height
    = Ret (Some img)
    /\ ((exists data decoded,
            image_open data = Ret decoded
            /\ ImageGenerator._post_process_image decoded style = Ret img)
        \/ ImageGenerator._create_placeholder_image prompt width height = Ret img).
Proof.
  intros Hw Hh. by apply remote_generate_image_fits.
Qed.

(* ===================================================================== *)
(** * C2: the image a request ends with                                  *)
(* ===================================================================== *)

(** C2, as amended. For every description, style tag and positive width
    and height of which Pillow can make an image, and whatever the service,
    the decoder and Pillow's resize and contrast steps do, [generate_image]
    raises nothing and returns an image. [delivered] is what
    [_call_image_api] returns for the enhanced prompt and the size asked
    for.
    - When it delivered bytes, not empty, that decode to an image which
      post-processing returns, the result is that image post-processed:
      resized with the LANCZOS filter to the fixed panel size 512x512
      exactly when its size differs from 512x512, then given the contrast
      boost of factor 1.2 exactly when the style is ["comic"]; its size is
      512x512, whatever size was asked for.
    - In every other case (nothing or no byte delivered, bytes that do not
      decode, a resize or a contrast boost that raises) the result is the
      placeholder for the description, of the width and height asked for.
    - Post-processing returns exactly when the resize it needs and the
      boost it needs raise nothing.
    At the default request of 512x512 the returned image has the size
    asked for in every case. *)
Theorem C2_generate_image (R : Runtime) (L : Limits) (self : ImageGenerator.t)
    (post : ImageGenerator.service) (image_open : bytes -> res Image)
    (description style : pystr) (width height : Z) :
  1 <= width -> 1 <= height -> too_large (width, height) = None ->
  exists enhanced placeholder,
    ImageGenerator._enhance_prompt (PStr description) style = Ret enhanced
    /\ ImageGenerator._create_placeholder_image description width height
       = Ret placeholder
    /\ size placeholder = (width, height)
    /\ let delivered :=
         ImageGenerator._call_image_api self post
           (PPair enhanced.1 enhanced.2) width height in
       let result :=
         ImageGenerator.generate_image self post image_open description style
           width height in
       (forall data decoded img,
           delivered = Ret (Some data) -> data <> [] ->
           image_open data = Ret decoded ->
           ImageGenerator._post_process_image decoded style = Ret img ->
           result = Ret (Some img)
           /\ size img = (512, 512)
           /\ (size decoded = (512, 512) -> style <> py "comic" ->
               img = decoded)
           /\ (size decoded <> (512, 512) -> style <> py "comic" ->
               img = Resized decoded (512, 512) LANCZOS)
           /\ (size decoded = (512, 512) -> style = py "comic" ->
               img = Contrast decoded 1.2%Q)
           /\ (size decoded <> (512, 512) -> style = py "comic" ->
               img = Contrast (Resized decoded (512, 512) LANCZOS) 1.2%Q))
       /\ (delivered = Ret None \/ delivered = Ret (Some [])
           \/ (exists e, delivered = Raise e)
           \/ (exists data,
                  delivered = Ret (Some data)
                  /\ ((exists e, image_open data = Raise e)
                      \/ (exists decoded e,
                             image_open data = Ret decoded
                             /\ ImageGenerator._post_process_image decoded style
                                = Raise e))) ->
           result = Ret (Some placeholder))
       /\ (forall decoded,
              (exists img,
                  ImageGenerator._post_process_image decoded style = Ret img)
              <-> (size decoded <> (512, 512) ->
                   resize_raises decoded (512, 512) LANCZOS = None)
                  /\ (style = py "comic" ->
                      enhance_raises
                        (if decide (size decoded <> (512, 512))
                         then Resized decoded (512, 512) LANCZOS else decoded)
                        1.2%Q = None))
       /\ exists img,
           result = Ret (Some img)
           /\ (size img = (512, 512) \/ img = placeholder)
           /\ (width = 512 -> height = 512 -> size img = (width, height)).
Proof.
  intros Hw Hh Hfits.
  destruct (remote_placeholder_fits R L description width height Hw Hh Hfits)
    as (ph & Hph & Hsize).
  destruct (remote_enhance_ok R (PStr description) style) as (enhanced & Henh).
  exists (enhanced, py "blurry, low quality, distorted, ugly, bad anatomy"), ph.
  split; [exact Henh|]. split; [exact Hph|]. split; [exact Hsize|].
  cbv zeta.
  rewrite (remote_generate_image_outcome R L self post image_open description
             style width height _ Henh), Hph.
  split; [|split; [|split]].
  - intros data decoded img -> Hdata Hopen Hpp.
    destruct data as [|c data]; [done|]. rewrite Hopen, Hpp.
    split; [reflexivity|].
    destruct (post_process_outcome R decoded style) as (_ & Hret & _).
    destruct (Hret img Hpp) as (-> & _).
    split; [apply boosted_panel_size|].
    unfold boosted_panel, resized_panel.
    repeat split; intros Hs Hc;
      destruct (decide (size decoded <> (512, 512)));
      destruct (decide (style = py "comic")); done.
  - intros [-> | [-> | [[e ->] | (data & -> & Hfail)]]]; try reflexivity.
    destruct data as [|c data]; [reflexivity|].
    destruct Hfail as [[e ->] | (decoded & e & -> & ->)]; reflexivity.
  - intros decoded.
    destruct (post_process_outcome R decoded style) as (Hok & Hret & _).
    split.
    + intros [img Hpp]. by destruct (Hret img Hpp) as (_ & H1 & H2).
    + intros H. eexists. apply Hok. exact H.
  - destruct (ImageGenerator._call_image_api _ _ _ _ _) as [[[|c data]|]|e];
      try (exists ph; split; [reflexivity|]; split; [by right|];
           by intros -> ->).
    destruct (image_open (c :: data)) as [decoded|e];
      [|exists ph; split; [reflexivity|]; split; [by right|]; by intros -> ->].
    destruct (ImageGenerator._post_process_image decoded style) as [img|e] eqn:Hpp;
      [|exists ph; split; [reflexivity|]; split; [by right|]; by intros -> ->].
    exists img. split; [reflexivity|].
    pose proof (post_process_size R decoded style img Hpp) as Himg.
    split; [by left|]. by intros -> ->.
Qed.

Lemma C2_generate_image_witness :
  ImageGenerator.generate_image (R := example_runtime) (L := c_int_limits)
    {| ImageGenerator.api_url := Some (py "http://localhost:7860/generate");
       ImageGenerator.default_headers := ∅ |}
    (fun _ _ _ => Ret (200, Ret (ImageGenerator.HasImages (Ret [137%N; 80%N]))))
    (fun data => Ret (Raster (768, 768) data))
    (py "A cat in a garden") (py "sketch") 512 512
  = Ret (Some (Resized (Raster (768, 768) [137%N; 80%N]) (512, 512) LANCZOS))
  /\ exists placeholder,
      ImageGenerator._create_placeholder_image (R := example_runtime)
        (L := c_int_limits) (py "A cat in a garden") 300 200 = Ret placeholder
      /\ size placeholder = (300, 200)
      /\ ImageGenerator.generate_image (R := example_runtime) (L := c_int_limits)
           {| ImageGenerator.api_url := Some (py "http://localhost:7860/generate");
              ImageGenerator.default_headers := ∅ |}
           (fun _ _ _ =>
              Ret (200, Ret (ImageGenerator.HasImages (Ret [80%N; 137%N]))))
           (fun data => Ret (Raster (512, 512) data))
           (py "A cat in a garden") (py "comic") 300 200
         = Ret (Some placeholder).
Proof.
  split.
  - destruct (C2_generate_image example_runtime c_int_limits
                {| ImageGenerator.api_url := Some (py "http://localhost:7860/generate");
                   ImageGenerator.default_headers := ∅ |}
                (fun _ _ _ =>
                   Ret (200, Ret (ImageGenerator.HasImages (Ret [137%N; 80%N]))))
                (fun data => Ret (Raster (768, 768) data))
                (py "A cat in a garden") (py "sketch") 512 512)
      as (enhanced & placeholder & Henh & _ & _ & Hdecoded & _);
      [lia|lia|reflexivity|].
    vm_compute in Henh. injection Henh as <-.
    apply (Hdecoded [137%N; 80%N] (Raster (768, 768) [137%N; 80%N])
             (Resized (Raster (768, 768) [137%N; 80%N]) (512, 512) LANCZOS));
      first [ discriminate | vm_compute; reflexivity ].
  - destruct (C2_generate_image example_runtime c_int_limits
                {| ImageGenerator.api_url := Some (py "http://localhost:7860/generate");
                   ImageGenerator.default_headers := ∅ |}
                (fun _ _ _ =>
                   Ret (200, Ret (ImageGenerator.HasImages (Ret [80%N; 137%N]))))
                (fun data => Ret (Raster (512, 512) data))
                (py "A cat in a garden") (py "comic") 300 200)
      as (enhanced & placeholder & Henh & Hph & Hsize & _ & Hother & _);
      [lia|lia|reflexivity|].
    exists placeholder. split; [exact Hph|]. split; [exact Hsize|].
    apply Hother. right. right. right.
    vm_compute in Henh. injection Henh as <-.
    exists [80%N; 137%N]. split; [vm_compute; reflexivity|].
    right. exists (Raster (512, 512) [80%N; 137%N]), ValueError.
    split; vm_compute; reflexivity.
Defined.

(** C2 as first stated fails: asked for 256x256 and served a 256x256 image,
    [generate_image] returns a 512x512 one. *)
Lemma C2_counterexample :
  let self :=
    {| ImageGenerator.api_url := Some (py "http://localhost:7860/generate");
       ImageGenerator.default_headers := ∅ |} in
  let post : ImageGenerator.service :=
    fun _ _ _ => Ret (200, Ret (ImageGenerator.HasImages (Ret [137%N; 80%N]))) in
  let image_open := fun data : bytes => Ret (Raster (256, 256) data) in
  exists img,
    ImageGenerator.generate_image (R := example_runtime) self post image_open
      (py "A cat in a garden") (py "comic") 256 256 = Ret (Some img)
    /\ size img = (512, 512)
    /\ size img <> (256, 256).
Proof.
  eexists. split; [vm_compute; reflexivity|]. split; [reflexivity|discriminate].
Qed.

(** What the remote service is asked: [generate_image] hands the pair
    returned by the first enhancement to [_call_image_api], which enhances
    the text of that pair once more, for the comic style. The service below
    echoes the prompt of the request as the bytes of the image. *)
Example remote_request_prompt :
  ImageGenerator.generate_image (R := example_runtime)
    {| ImageGenerator.api_url := Some (py "http://localhost:7860/generate");
       ImageGenerator.default_headers := ∅ |}
    (fun _ request _ =>
       Ret (200, Ret (ImageGenerator.HasImages (Ret (ImageGenerator.prompt request)))))
    (fun data => Ret (Raster (512, 512) data))
    (py "A cat") (py "sketch") 512 512
  = Ret (Some (Raster (512, 512)
                 (py "('A cat, pencil sketch style, black and white, artistic', 'blurry, low quality, distorted, ugly, bad anatomy'), comic book style, vibrant colors, bold outlines, clear composition"))).
Proof. vm_compute. reflexivity. Qed.

(** With a negative width the placeholder itself cannot be made, and the
    exception leaves [generate_image]: the bound on the sizes above is
    needed. *)
Remark generate_image_negative_width :
  ImageGenerator.generate_image (R := example_runtime)
    {| ImageGenerator.api_url := None; ImageGenerator.default_headers := ∅ |}
    (fun _ _ _ => Raise ValueError) (fun _ => Raise ValueError)
    (py "A cat in a garden") (py "comic") (-1) 512
  = Raise ValueError.
Proof. vm_compute. reflexivity. Qed.

(** Nor can it be made for a size beyond the limits of Pillow: whatever
    the service and the decoder do, the exception of [Image.new] leaves
    [generate_image] whenever the placeholder is what it would return, as
    without an API URL; so the condition on the size above is needed
    too. *)
Remark generate_image_too_large (R : Runtime) (L : Limits)
    (post : ImageGenerator.service) (image_open : bytes -> res Image)
    (headers : gmap pystr pystr) (description style : pystr) (width height : Z)
    (e : exn) :
  (0 <= width -> 0 <= height -> too_large (width, height) = Some e ->
   ImageGenerator.generate_image
     {| ImageGenerator.api_url := None; ImageGenerator.default_headers := headers |}
     post image_open description style width height
   = Raise e)
  /\ ImageGenerator.generate_image (R := example_runtime) (L := c_int_limits)
       {| ImageGenerator.api_url := None; ImageGenerator.default_headers := ∅ |}
       (fun _ _ _ => Raise ValueError) (fun _ => Raise ValueError)
       (py "A cat in a garden") (py "comic") (2 ^ 31) (2 ^ 31)
     = Raise OverflowError.
Proof.
  split; [|vm_compute; reflexivity].
  intros Hw Hh Hlarge.
  destruct (remote_enhance_ok R (PStr description) style) as (enhanced & Henh).
  rewrite (remote_generate_image_outcome R L _ post image_open description style
             width height _ Henh).
  destruct (placeholder_too_large R L description width height e Hw Hh Hlarge)
    as [-> _].
  reflexivity.
Qed.

(** [generate_image] of the local generator, branch by branch: [enhanced]
    is the prompt the enhancement step returns. *)
Lemma local_generate_image_outcome (R : Runtime) (L : Limits)
    (self : LocalImageGenerator.t) (prompt style : pystr) (width height : Z)
    (enhanced : pystr) :
  LocalImageGenerator._enhance_prompt prompt style = Ret enhanced ->
  LocalImageGenerator.generate_image self prompt style width height
  = match (if LocalImageGenerator.is_available self
           then LocalImageGenerator.pipeline self else None) with
    | Some call =>
        match call enhanced width height 20 7.5%Q 1 with
        | Ret (generated :: _) =>
            match LocalImageGenerator._post_process_image generated style with
            | Ret img => Ret (Some img)
            | Raise _ =>
                Some <$> LocalImageGenerator._create_placeholder_image
                           prompt width height
            end
        | _ =>
            Some <$> LocalImageGenerator._create_placeholder_image
                       prompt width height
        end
    | None =>
        Some <$> LocalImageGenerator._create_placeholder_image prompt width height
    end.
Proof.
  intros Henh. unfold LocalImageGenerator.generate_image.
  destruct (LocalImageGenerator.is_available self); cbn [negb]; [|done].
  rewrite Henh. cbn [mbind res_bind].
  destruct (LocalImageGenerator.pipeline self) as [call|];
    cbn [mbind res_bind try_except]; [|done].
  destruct (call enhanced width height 20 7.5%Q 1) as [[|generated rest]|e];
    cbn [mbind res_bind try_except truthy andb].
  - by destruct (LocalImageGenerator._create_placeholder_image prompt width height).
  - replace (0 <? len (generated :: rest)) with true
      by (symmetry; apply Z.ltb_lt; unfold len; simpl; lia).
    cbn [getitem lookup list_lookup mbind res_bind].
    by destruct (LocalImageGenerator._post_process_image generated style).
  - done.
Qed.

Lemma local_generate_image_fits (R : Runtime) (L : Limits)
    (self : LocalImageGenerator.t) (prompt style : pystr) (width height : Z) :
  1 <= width -> 1 <= height -> too_large (width, height) = None ->
  exists img,
    LocalImageGenerator.generate_image self prompt style width height
    = Ret (Some img)
    /\ ((exists generated,
            LocalImageGenerator._post_process_image generated style = Ret img)
        \/ LocalImageGenerator._create_placeholder_image prompt width height
           = Ret img).
Proof.
  intros Hw Hh Hfits.
  destruct (local_placeholder_fits R L prompt width height Hw Hh Hfits)
    as (ph & Hph & _).
  destruct (local_enhance_ok prompt style) as (enhanced & Henh).
  rewrite (local_generate_image_outcome R L self prompt style width height _ Henh).
  destruct (if LocalImageGenerator.is_available self
            then LocalImageGenerator.pipeline self else None) as [call|];
    [|rewrite Hph; eexists; split; [reflexivity|]; by right].
  destruct (call enhanced width height 20 7.5%Q 1) as [[|generated rest]|e];
    try (rewrite Hph; eexists; split; [reflexivity|]; by right).
  destruct (LocalImageGenerator._post_process_image generated style)
    as [img|e] eqn:Hpp;
    [|rewrite Hph; eexists; split; [reflexivity|]; by right].
  exists img. split; [reflexivity|]. left. eauto.
Qed.

Lemma local_generate_image_ok (R : Runtime) (self : LocalImageGenerator.t)
    (prompt style : pystr) (width height : Z) :
  1 <= width -> 1 <= height ->
  exists img,
    LocalImageGenerator.generate_image self prompt style width height
    = Ret (Some img)
    /\ ((exists generated,
            LocalImageGenerator._post_process_image generated style = Ret img)
        \/ LocalImageGenerator._create_placeholder_image prompt width height
           = Ret img).
Proof.
  intros Hw Hh. by apply local_generate_image_fits.
Qed.

(** A loop whose every turn appends one element and raises nothing ends
    with one element per item. *)
Lemma for_each_appends_one {A B} (body : list B -> A -> res (list B))
    (items : list A) (acc : list B) :
  (forall acc x, exists y, body acc x = Ret (acc ++ [y])) ->
  exists ys,
    for_each body acc items = Ret (acc ++ ys) /\ length ys = length items.
Proof.
  intros Hbody. revert acc.
  induction items as [|x items IH]; intros acc; simpl.
  - exists []. by rewrite app_nil_r.
  - destruct (Hbody acc x) as (y & ->). simpl.
    destruct (IH (acc ++ [y])) as (ys & -> & Hlen).
    exists (y :: ys). rewrite <- app_assoc. simpl. by rewrite Hlen.
Qed.

Lemma remote_comic_panels_length (R : Runtime) (self : ImageGenerator.t)
    (post : ImageGenerator.service) (image_open : bytes -> res Image)
    (panel_descriptions : list pystr) (style : pystr) :
  exists images,
    ImageGenerator.generate_comic_panels self post image_open
      panel_descriptions style = Ret images
    /\ len images = len panel_descriptions.
Proof.
  unfold ImageGenerator.generate_comic_panels.
  edestruct (for_each_appends_one
               (fun images '(i, description) =>
                  image ← ImageGenerator.generate_image self post image_open
                            (py "Comic panel " ++ str_of_int (i + 1) ++ py ": "
                               ++ description) style 512 512;
                  match image with
                  | Some image => mret (images ++ [image])
                  | None =>
                      placeholder ←
                        ImageGenerator._create_placeholder_image description 512 512;
                      mret (images ++ [placeholder])
                  end)
               (enumerate panel_descriptions) []) as (images & E & Hlen).
  - intros acc [i description].
    destruct (remote_generate_image_cases R self post image_open
                (py "Comic panel " ++ str_of_int (i + 1) ++ py ": " ++ description)
                style 512 512) as (img & -> & _); [lia|lia|].
    simpl. eauto.
  - exists images. split; [exact E|].
    unfold len. by rewrite Hlen, length_enumerate.
Qed.

Lemma local_comic_panels_length (R : Runtime) (self : LocalImageGenerator.t)
    (panel_descriptions : list pystr) (style : pystr) :
  exists images,
    LocalImageGenerator.generate_comic_panels self panel_descriptions style
    = Ret images
    /\ len images = len panel_descriptions.
Proof.
  unfold LocalImageGenerator.generate_comic_panels.
  edestruct (for_each_appends_one
               (fun images '(i, description) =>
                  image ← LocalImageGenerator.generate_image self
                            (py "Comic panel " ++ str_of_int (i + 1) ++ py ": "
                               ++ description) style 512 512;
                  match image with
                  | Some image => mret (images ++ [image])
                  | None =>
                      placeholder ←
                        LocalImageGenerator._create_placeholder_image
                          description 512 512;
                      mret (images ++ [placeholder])
                  end)
               (enumerate panel_descriptions) []) as (images & E & Hlen).
  - intros acc [i description].
    destruct (local_generate_image_ok R self
                (py "Comic panel " ++ str_of_int (i + 1) ++ py ": " ++ description)
                style 512 512) as (img & -> & _); [lia|lia|].
    simpl. eauto.
  - exists images. split; [exact E|].
    unfold len. by rewrite Hlen, length_enumerate.
Qed.

Lemma fallback_panel_count (story : pystr) (n : Z) :
  1 <= n ->
  exists panels,
    LLMHandler._fallback_panel_generation story n = Ret panels
    /\ len panels = n.
Proof.
  intros Hn. eexists. split; [apply fallback_panel_generation_spans; lia|].
  rewrite len_fmap, len_range; lia.
Qed.

Lemma parsed_panel_count (response : pystr) (n : Z) :
  0 <= n ->
  exists panels,
    LLMHandler._parse_panel_response response n = Ret panels
    /\ len panels = n.
Proof.
  intros Hn.
  destruct (parse_panel_response_cases response n Hn) as (panels & E & Hlen & _).
  eauto.
Qed.

Lemma panel_descriptions_count (is_service_available : bool)
    (post : pystr -> LLMHandler.post_outcome) (story : pystr) (n : Z) :
  1 <= n ->
  exists panels,
    LLMHandler.generate_panel_descriptions is_service_available post story n
    = Ret panels
    /\ len panels = n.
Proof.
  intros Hn.
  destruct (fallback_panel_count story n Hn) as (fb & Hfb & Hfb_len).
  unfold LLMHandler.generate_panel_descriptions.
  destruct is_service_available; cbn [negb]; [|eauto].
  destruct (LLMHandler._call_llm_api post _) as [response|]; [|rewrite Hfb; simpl; eauto].
  destruct (truthy response); [|rewrite Hfb; simpl; eauto].
  destruct (parsed_panel_count response n) as (panels & -> & Hlen); [lia|].
  simpl. eauto.
Qed.

(* ===================================================================== *)
(** * C5: as many descriptions and images as panels asked for            *)
(* ===================================================================== *)

(** C5. For a requested panel count [N >= 1], whatever the text service,
    the image service, the decoder and the local pipeline do:
    the fallback path and the language-model path (parsing any reply) each
    produce [N] descriptions, so [generate_panel_descriptions] returns [N]
    descriptions; and [generate_comic_panels], of the remote and of the
    local generator, returns exactly one image per description. Hence
    [len(PanelDescriptions) == len(PanelImages) == N] at the end of the
    run. *)
Theorem C5_panel_and_image_counts (R : Runtime)
    (is_service_available : bool) (llm_post : pystr -> LLMHandler.post_outcome)
    (remote : ImageGenerator.t) (post : ImageGenerator.service)
    (image_open : bytes -> res Image) (local : LocalImageGenerator.t)
    (story style : pystr) (N : Z) :
  1 <= N ->
  (exists panels,
      LLMHandler._fallback_panel_generation story N = Ret panels
      /\ len panels = N)
  /\ (forall response,
         exists panels,
           LLMHandler._parse_panel_response response N = Ret panels
           /\ len panels = N)
  /\ exists descriptions,
      LLMHandler.generate_panel_descriptions is_service_available llm_post
        story N = Ret descriptions
      /\ len descriptions = N
      /\ (exists images,
             ImageGenerator.generate_comic_panels remote post image_open
               descriptions style = Ret images
             /\ len images = len descriptions
             /\ len images = N)
      /\ (exists images,
             LocalImageGenerator.generate_comic_panels local descriptions style
             = Ret images
             /\ len images = len descriptions
             /\ len images = N).
Proof.
  intros HN.
  split; [by apply fallback_panel_count|].
  split; [intros response; apply parsed_panel_count; lia|].
  destruct (panel_descriptions_count is_service_available llm_post story N HN)
    as (descriptions & E & Hlen).
  exists descriptions. split; [exact E|]. split; [exact Hlen|]. split.
  - destruct (remote_comic_panels_length R remote post image_open descriptions style)
      as (images & Ei & Hi).
    exists images. split; [exact Ei|]. split; [exact Hi|]. by rewrite Hi.
  - destruct (local_comic_panels_length R local descriptions style)
      as (images & Ei & Hi).
    exists images. split; [exact Ei|]. split; [exact Hi|]. by rewrite Hi.
Qed.

Lemma C5_panel_and_image_counts_witness :
  let llm_post : pystr -> LLMHandler.post_outcome :=
    fun _ => Ret (200, Ret (py "Panel 1: a cat wakes up
Panel 2: the cat finds a door")) in
  let remote :=
    {| ImageGenerator.api_url := None; ImageGenerator.default_headers := ∅ |} in
  exists descriptions images,
    LLMHandler.generate_panel_descriptions true llm_post
      (py "A cat discovers a magical garden.") 3 = Ret descriptions
    /\ descriptions
       = [py "a cat wakes up"; py "the cat finds a door"; py "Scene 3"]
    /\ ImageGenerator.generate_comic_panels (R := example_runtime) remote
         (fun _ _ _ => Raise ValueError) (fun _ => Raise ValueError)
         descriptions (py "comic") = Ret images
    /\ len images = 3.
Proof.
  intros llm_post remote.
  destruct (C5_panel_and_image_counts example_runtime true llm_post remote
              (fun _ _ _ => Raise ValueError) (fun _ => Raise ValueError)
              {| LocalImageGenerator.LOCAL_DIFFUSION_AVAILABLE := false;
                 LocalImageGenerator.pipeline := None |}
              (py "A cat discovers a magical garden.") (py "comic") 3)
    as (_ & _ & descriptions & E & _ & (images & Ei & _ & Hi) & _); [lia|].
  exists descriptions, images. split; [exact E|].
  split; [|split; [exact Ei|exact Hi]].
  vm_compute in E. by injection E as <-.
Defined.

(* ===================================================================== *)
(** * Words, white space and stripping                                   *)
(* ===================================================================== *)

Lemma split_from_words (cur s : pystr) :
  solid cur -> Forall is_word (split_from cur s).
Proof.
  unfold is_word, solid. revert cur. induction s as [|c s IH]; intros cur Hcur; simpl.
  - destruct cur as [|d cur]; simpl; [constructor|].
    constructor; [|constructor]. split.
    + intros E. apply (f_equal (@length N)) in E. simpl in E.
      rewrite length_app in E. simpl in E. lia.
    + apply Forall_rev in Hcur. exact Hcur.
  - destruct (isspace c) eqn:Hc.
    + destruct cur as [|d cur]; simpl; [by apply IH|].
      constructor; [|by apply IH]. split.
      * intros E. apply (f_equal (@length N)) in E. simpl in E.
        rewrite length_app in E. simpl in E. lia.
      * apply Forall_rev in Hcur. exact Hcur.
    + apply IH. by constructor.
Qed.

(** Every element of [s.split()] is a word. *)
Lemma str_split_words (s : pystr) : Forall is_word (str_split s).
Proof. apply split_from_words. constructor. Qed.

Lemma split_from_solid (cur w s : pystr) :
  solid w -> split_from cur (w ++ s) = split_from (rev w ++ cur) s.
Proof.
  unfold solid. revert cur. induction w as [|c w IH]; intros cur Hw; simpl; [done|].
  inversion Hw as [|? ? Hc Hw']; subst. rewrite Hc, IH by done.
  by rewrite <- app_assoc.
Qed.

(** Cutting at a space: the words before it, then the words after it. *)
Lemma split_from_space (cur a b : pystr) :
  split_from cur (a ++ 32%N :: b) = split_from cur a ++ split_from [] b.
Proof.
  revert cur. induction a as [|c a IH]; intros cur; simpl.
  - by destruct (truthy cur).
  - destruct (isspace c); [|apply IH].
    destruct (truthy cur); simpl; by rewrite IH.
Qed.

(** Joining strings with a space and splitting gives the words of the
    strings, in order. *)
Lemma str_split_join (l : list pystr) :
  str_split (str_join (py " ") l) = concat (str_split <$> l).
Proof.
  induction l as [|a l IH]; [reflexivity|].
  destruct l as [|b l].
  - simpl. by rewrite app_nil_r.
  - change (str_join (py " ") (a :: b :: l))
      with (a ++ 32%N :: str_join (py " ") (b :: l)).
    unfold str_split at 1. rewrite split_from_space.
    fold (str_split a). fold (str_split (str_join (py " ") (b :: l))).
    by rewrite IH.
Qed.

(** A word splits into itself. *)
Lemma str_split_word (w : pystr) : is_word w -> str_split w = [w].
Proof.
  intros [Hne Hw]. unfold str_split.
  rewrite <- (app_nil_r w) at 1. rewrite split_from_solid by done. simpl.
  rewrite app_nil_r. destruct (rev w) eqn:E.
  - apply (f_equal (@rev N)) in E. rewrite rev_involutive in E. done.
  - cbn [truthy]. rewrite <- E. by rewrite rev_involutive.
Qed.

(** Joining words with a space and splitting gives the words back. *)
Lemma str_split_join_words (ws : list pystr) :
  Forall is_word ws -> str_split (str_join (py " ") ws) = ws.
Proof.
  intros Hws. rewrite str_split_join.
  induction Hws as [|w ws Hw Hws IH]; [done|].
  rewrite fmap_cons, concat_cons, IH, str_split_word by done. done.
Qed.

Lemma py_slice_Forall {A} (P : A -> Prop) (l : list A) (start stop : option Z) :
  Forall P l -> Forall P (py_slice l start stop).
Proof. intros Hl. unfold py_slice. by apply Forall_take, Forall_drop. Qed.

(* ===================================================================== *)
(** * The panels of the splitter keep the words of the story             *)
(* ===================================================================== *)

(** For [n >= 1] panels, splitting each string that
    [split_story_into_panels] returns gives back the word span it was
    joined from; so the words of the panels, read in order, are the words
    of the story, and the panels joined with spaces split into the words of
    the story. *)
Theorem split_story_panels_keep_words (story : pystr) (n : Z) :
  1 <= n ->
  exists panels,
    utils.split_story_into_panels story n = Ret panels
    /\ str_split <$> panels
       = utils.panel_words (str_split story)
           (Z.div (len (str_split story)) n) n <$> range n
    /\ concat (str_split <$> panels) = str_split story
    /\ str_split (str_join (py " ") panels) = str_split story.
Proof.
  intros Hn. eexists. split; [apply split_story_into_panels_spans; lia|].
  assert (Hspans :
    str_split <$> ((fun i => str_join (py " ")
                     (utils.panel_words (str_split story)
                        (Z.div (len (str_split story)) n) n i)) <$> range n)
    = utils.panel_words (str_split story)
        (Z.div (len (str_split story)) n) n <$> range n).
  { rewrite <- list_fmap_compose. apply list_fmap_ext. intros k i _. simpl.
    apply str_split_join_words. apply py_slice_Forall, str_split_words. }
  split; [exact Hspans|].
  assert (Hconcat : concat (str_split <$> ((fun i => str_join (py " ")
                     (utils.panel_words (str_split story)
                        (Z.div (len (str_split story)) n) n i)) <$> range n))
                    = str_split story)
    by (rewrite Hspans; by apply panel_words_concat).
  split; [exact Hconcat|]. by rewrite str_split_join.
Qed.

Lemma split_story_panels_keep_words_witness :
  exists panels,
    utils.split_story_into_panels (py " A cat   finds a  door ") 3 = Ret panels
    /\ panels = [py "A"; py "cat"; py "finds a door"]
    /\ str_split (str_join (py " ") panels) = [py "A"; py "cat"; py "finds"; py "a"; py "door"].
Proof.
  destruct (split_story_panels_keep_words (py " A cat   finds a  door ") 3)
    as (panels & E & _ & _ & Hjoin); [lia|].
  exists panels. split; [exact E|]. split.
  - vm_compute in E. by injection E as <-.
  - rewrite Hjoin. vm_compute. reflexivity.
Defined.

(* ===================================================================== *)
(** * The splitters with no panel, or fewer                              *)
(* ===================================================================== *)

(** Asked for 0 panels, both splitters raise [ZeroDivisionError], whatever
    the story; asked for a negative number of panels, both return the empty
    list and raise nothing. *)
Theorem splitters_without_panels (story : pystr) (n : Z) :
  n <= 0 ->
  (n = 0 ->
   utils.split_story_into_panels story n = Raise ZeroDivisionError
   /\ LLMHandler._fallback_panel_generation story n = Raise ZeroDivisionError)
  /\ (n < 0 ->
      utils.split_story_into_panels story n = Ret []
      /\ LLMHandler._fallback_panel_generation story n = Ret []).
Proof.
  intros Hn. split.
  - intros ->. split; reflexivity.
  - intros Hneg.
    rewrite split_story_into_panels_spans, fallback_panel_generation_spans by lia.
    unfold range. rewrite seqZ_nil by lia. split; reflexivity.
Qed.

Lemma splitters_without_panels_witness :
  utils.split_story_into_panels (py "A cat finds a door") 0
  = Raise ZeroDivisionError
  /\ LLMHandler._fallback_panel_generation (py "A cat finds a door") (-3) = Ret [].
Proof.
  split.
  - apply (splitters_without_panels (py "A cat finds a door") 0); lia.
  - apply (splitters_without_panels (py "A cat finds a door") (-3)); lia.
Defined.

(* ===================================================================== *)
(** * Stripping                                                          *)
(* ===================================================================== *)

Lemma lstrip_starts_solid (s : pystr) : starts_solid (lstrip s).
Proof.
  induction s as [|c s IH]; simpl; [done|].
  destruct (isspace c) eqn:Hc; [exact IH|exact Hc].
Qed.

Lemma lstrip_id (s : pystr) : starts_solid s -> lstrip s = s.
Proof. destruct s as [|c s]; simpl; [done|]. by intros ->. Qed.

(** [lstrip] cuts a prefix off. *)
Lemma lstrip_suffix (s : pystr) : exists a, s = a ++ lstrip s.
Proof.
  induction s as [|c s [a IH]]; simpl; [by exists []|].
  destruct (isspace c).
  - exists (c :: a). simpl. by rewrite <- IH.
  - by exists [].
Qed.

Lemma starts_solid_prefix (s b : pystr) :
  starts_solid (s ++ b) -> starts_solid s.
Proof. by destruct s. Qed.

(** What [strip] returns neither starts nor ends with white space. *)
Lemma str_strip_trimmed (s : pystr) : trimmed (str_strip s).
Proof.
  unfold trimmed, str_strip. rewrite rev_involutive. split.
  - destruct (lstrip_suffix (rev (lstrip s))) as [a Ha].
    apply (f_equal (@rev N)) in Ha. rewrite rev_involutive, rev_app_distr in Ha.
    apply (starts_solid_prefix _ (rev a)). rewrite <- Ha.
    apply lstrip_starts_solid.
  - apply lstrip_starts_solid.
Qed.

(** [strip] leaves a string alone exactly when it neither starts nor ends
    with white space. *)
Lemma str_strip_id (s : pystr) : trimmed s <-> str_strip s = s.
Proof.
  split.
  - intros [Hhead Hlast]. unfold str_strip.
    rewrite (lstrip_id s), (lstrip_id (rev s)) by done. apply rev_involutive.
  - intros <-. apply str_strip_trimmed.
Qed.

Lemma str_strip_idempotent (s : pystr) : str_strip (str_strip s) = str_strip s.
Proof. apply str_strip_id, str_strip_trimmed. Qed.

(** A leading space does not change what [strip] returns. *)
Lemma str_strip_space (s : pystr) : str_strip (32%N :: s) = str_strip s.
Proof. reflexivity. Qed.

Lemma trimmed_app (a b : pystr) :
  a <> [] -> b <> [] -> starts_solid a -> starts_solid (rev b) -> trimmed (a ++ b).
Proof.
  intros Ha Hb Hhead Hlast. split.
  - destruct a; [done|exact Hhead].
  - rewrite rev_app_distr. destruct (rev b) eqn:E; [|exact Hlast].
    apply (f_equal (@rev N)) in E. rewrite rev_involutive in E. done.
Qed.

(* ===================================================================== *)
(** * The digits of a number                                             *)
(* ===================================================================== *)

Lemma string_of_uint_numerals (d : Decimal.uint) :
  Forall numeral (py (NilEmpty.string_of_uint d)).
Proof.
  induction d; simpl; constructor; try done; left; vm_compute; split; discriminate.
Qed.

Lemma str_of_int_numerals (i : Z) : Forall numeral (str_of_int i).
Proof.
  unfold str_of_int.
  assert (Hu : forall d, Forall numeral (py (NilZero.string_of_uint d))).
  { intros d. destruct d; [|exact (string_of_uint_numerals _) ..].
    repeat constructor; vm_compute; discriminate. }
  destruct (Z.to_int i); simpl; [apply Hu|].
  constructor; [by right|apply Hu].
Qed.

Lemma str_of_int_nonempty (i : Z) : str_of_int i <> [].
Proof.
  unfold str_of_int. destruct (Z.to_int i) as [d|d]; simpl; [|done].
  destruct d; done.
Qed.

Lemma numeral_solid (c : N) : numeral c -> isspace c = false.
Proof.
  intros [[H1 H2]| ->]; [|reflexivity]. unfold isspace.
  repeat match goal with
         | |- context [(?a <=? ?b)%N] => destruct (N.leb_spec a b); try lia
         | |- context [(?a =? ?b)%N] => destruct (N.eqb_spec a b); try lia
         end; reflexivity.
Qed.

Lemma str_of_int_lacks (i : Z) (c : N) : ~ numeral c -> c ∉ str_of_int i.
Proof.
  intros Hc Hin. pose proof (str_of_int_numerals i) as Hall.
  rewrite Forall_forall in Hall. by apply Hc, Hall.
Qed.

Lemma solid_rev_starts_solid (w : pystr) : solid w -> starts_solid (rev w).
Proof.
  intros Hw. destruct (rev w) as [|c r] eqn:E; simpl; [done|].
  unfold solid in Hw. rewrite Forall_forall in Hw. apply Hw.
  apply list_elem_of_In, in_rev. rewrite E. by left.
Qed.

Lemma str_of_int_solid (i : Z) : solid (str_of_int i).
Proof.
  unfold solid. eapply Forall_impl; [apply str_of_int_numerals|].
  intros c. apply numeral_solid.
Qed.

(* ===================================================================== *)
(** * The descriptions the parser returns                                *)
(* ===================================================================== *)

Lemma accepted_description_trimmed (line d : pystr) :
  LLMHandler.accepted_description line = Some d -> d <> [] /\ str_strip d = d.
Proof.
  unfold LLMHandler.accepted_description.
  destruct (_ && _); [|discriminate].
  destruct (truthy _) eqn:Ht; [|discriminate]. intros [= <-]. split.
  - intros E. by rewrite E in Ht.
  - apply str_strip_idempotent.
Qed.

Lemma scene_label_trimmed (k : Z) :
  py "Scene " ++ str_of_int k <> []
  /\ str_strip (py "Scene " ++ str_of_int k) = py "Scene " ++ str_of_int k.
Proof.
  split; [done|]. apply str_strip_id, trimmed_app.
  - done.
  - apply str_of_int_nonempty.
  - reflexivity.
  - apply solid_rev_starts_solid, str_of_int_solid.
Qed.

(** For [n >= 0], every description [_parse_panel_response] returns,
    parsed or padded, is a non-empty string without white space at either
    end. *)
Theorem parsed_descriptions_nonempty_stripped (response : pystr) (n : Z) :
  0 <= n ->
  exists panels,
    LLMHandler._parse_panel_response response n = Ret panels
    /\ Forall (fun d => d <> [] /\ str_strip d = d) panels.
Proof.
  intros Hn.
  destruct (parse_panel_response_cases response n Hn)
    as (panels & E & _ & Hfew & Hmany).
  exists panels. split; [exact E|].
  set (accepted := omap LLMHandler.accepted_description
                     (str_split_on 10%N (str_strip response))) in *.
  assert (Hacc : Forall (fun d => d <> [] /\ str_strip d = d) accepted).
  { unfold accepted. generalize (str_split_on 10%N (str_strip response)).
    intros lines. induction lines as [|line lines IH]; simpl; [constructor|].
    destruct (LLMHandler.accepted_description line) as [d|] eqn:Ed; simpl;
      [|exact IH].
    constructor; [by eapply accepted_description_trimmed|exact IH]. }
  destruct (Z.lt_ge_cases (len accepted) n) as [Hlt|Hge].
  - rewrite (Hfew Hlt). apply Forall_app. split; [exact Hacc|].
    apply Forall_fmap, Forall_forall. intros k _. apply scene_label_trimmed.
  - rewrite (Hmany Hge). by apply Forall_take.
Qed.

Lemma parsed_descriptions_nonempty_stripped_witness :
  exists panels,
    LLMHandler._parse_panel_response (py "Panel 1:    a cat   
Panel 2:
Panel 3: ") 3 = Ret panels
    /\ panels = [py "a cat"; py "Scene 2"; py "Scene 3"]
    /\ Forall (fun d => d <> [] /\ str_strip d = d) panels.
Proof.
  destruct (parsed_descriptions_nonempty_stripped (py "Panel 1:    a cat   
Panel 2:
Panel 3: ") 3) as (panels & E & Hall); [lia|].
  exists panels. split; [exact E|]. split; [|exact Hall].
  vm_compute in E. by injection E as <-.
Defined.

(* ===================================================================== *)
(** * A reply in the format the prompt asks for                          *)
(* ===================================================================== *)

Ltac eval_py :=
  repeat match goal with
         | |- context [py ?s] =>
             let v := eval vm_compute in (py s) in change (py s) with v
         | H : context [py ?s] |- _ =>
             let v := eval vm_compute in (py s) in change (py s) with v in H
         end.

Lemma str_split_on_line (sep : N) (l : pystr) :
  sep ∉ l -> str_split_on sep l = [l].
Proof.
  induction l as [|c l IH]; intros Hl; simpl; [done|].
  apply not_elem_of_cons in Hl as [Hc Hl].
  destruct (N.eqb_spec c sep); [congruence|]. by rewrite IH.
Qed.

Lemma str_split_on_cut (sep : N) (l rest : pystr) :
  sep ∉ l -> str_split_on sep (l ++ sep :: rest) = l :: str_split_on sep rest.
Proof.
  induction l as [|c l IH]; intros Hl; simpl.
  - by rewrite N.eqb_refl.
  - apply not_elem_of_cons in Hl as [Hc Hl].
    destruct (N.eqb_spec c sep); [congruence|]. by rewrite IH.
Qed.

(** Lines without the separator, joined by it, split into the lines. *)
Lemma str_split_on_join (sep : N) (lines : list pystr) :
  lines <> [] -> Forall (fun l => sep ∉ l) lines ->
  str_split_on sep (str_join [sep] lines) = lines.
Proof.
  intros Hne Hall. induction Hall as [|l lines Hl Hall IH]; [done|].
  destruct lines as [|l' lines].
  - simpl. by apply str_split_on_line.
  - change (str_join [sep] (l :: l' :: lines))
      with (l ++ sep :: str_join [sep] (l' :: lines)).
    rewrite str_split_on_cut by done. by rewrite IH.
Qed.

Lemma str_after_first (sep : N) (a b : pystr) :
  sep ∉ a -> str_after sep (a ++ sep :: b) = b.
Proof.
  induction a as [|c a IH]; intros Ha; simpl.
  - by rewrite N.eqb_refl.
  - apply not_elem_of_cons in Ha as [Hc Ha].
    destruct (N.eqb_spec c sep); [congruence|]. by apply IH.
Qed.

Lemma char_in_middle (sep : N) (a b : pystr) : char_in sep (a ++ sep :: b) = true.
Proof.
  unfold char_in. rewrite existsb_app. simpl. rewrite N.eqb_refl.
  by rewrite orb_true_r.
Qed.

Lemma starts_solid_app (a b : pystr) :
  a <> [] -> starts_solid a -> starts_solid (a ++ b).
Proof. by destruct a. Qed.

Lemma join_lines_trimmed (lines : list pystr) :
  lines <> [] -> Forall (fun l => l <> [] /\ trimmed l) lines ->
  str_join [10%N] lines <> [] /\ trimmed (str_join [10%N] lines).
Proof.
  intros Hne Hall. induction Hall as [|l lines [Hl [Hhead Hlast]] Hall IH]; [done|].
  destruct lines as [|l' lines]; [done|].
  destruct IH as [HJ [_ HJlast]]; [done|].
  change (str_join [10%N] (l :: l' :: lines))
    with (l ++ 10%N :: str_join [10%N] (l' :: lines)).
  split; [by destruct l|]. apply trimmed_app; try done.
  change (10%N :: ?J) with ([10%N] ++ J). rewrite rev_app_distr.
  apply starts_solid_app; [|done].
  intros E. apply (f_equal (@rev N)) in E. rewrite rev_involutive in E. done.
Qed.

(** A line [Panel k: d] contributes [d], when [d] is non-empty and has no
    white space at either end. *)
Lemma accepted_panel_line (k : Z) (d : pystr) :
  d <> [] -> str_strip d = d ->
  LLMHandler.accepted_description
    (py "Panel " ++ str_of_int k ++ py ": " ++ d) = Some d.
Proof.
  intros Hd Hstrip. apply str_strip_id in Hstrip as Htrim.
  assert (Hline : str_strip (py "Panel " ++ str_of_int k ++ py ": " ++ d)
                  = py "Panel " ++ str_of_int k ++ py ": " ++ d).
  { apply str_strip_id. rewrite !app_assoc. apply trimmed_app; try done.
    - by destruct Htrim. }
  unfold LLMHandler.accepted_description. rewrite Hline.
  replace (str_startswith (py "Panel " ++ str_of_int k ++ py ": " ++ d) (py "Panel"))
    with true by reflexivity.
  assert (Hshape : py "Panel " ++ str_of_int k ++ py ": " ++ d
                   = (py "Panel " ++ str_of_int k) ++ 58%N :: 32%N :: d)
    by (by rewrite <- app_assoc).
  rewrite Hshape, char_in_middle, str_after_first.
  - rewrite str_strip_space, Hstrip. cbn [andb]. by destruct d.
  - intros Hin. apply elem_of_app in Hin as [Hin|Hin].
    + eval_py. repeat (apply elem_of_cons in Hin as [Hin|Hin]; [discriminate Hin|]).
      by apply elem_of_nil in Hin.
    + revert Hin. apply str_of_int_lacks. unfold numeral. lia.
Qed.

Lemma panel_line_trimmed (k : Z) (d : pystr) :
  d <> [] -> str_strip d = d ->
  trimmed (py "Panel " ++ str_of_int k ++ py ": " ++ d).
Proof.
  intros Hd Hstrip. apply str_strip_id in Hstrip as [_ Hlast].
  rewrite !app_assoc. by apply trimmed_app.
Qed.

Lemma panel_line_one_line (k : Z) (d : pystr) :
  10%N ∉ d -> 10%N ∉ py "Panel " ++ str_of_int k ++ py ": " ++ d.
Proof.
  intros Hd Hin.
  apply elem_of_app in Hin as [Hin|Hin];
    [|apply elem_of_app in Hin as [Hin|Hin];
      [|apply elem_of_app in Hin as [Hin|Hin]]].
  - eval_py. repeat (apply elem_of_cons in Hin as [Hin|Hin]; [discriminate Hin|]).
    by apply elem_of_nil in Hin.
  - revert Hin. apply str_of_int_lacks. unfold numeral. lia.
  - eval_py. repeat (apply elem_of_cons in Hin as [Hin|Hin]; [discriminate Hin|]).
    by apply elem_of_nil in Hin.
  - done.
Qed.

Lemma omap_cons_eq {A B} (f : A -> option B) (x : A) (l : list A) :
  omap f (x :: l)
  = match f x with Some y => y :: omap f l | None => omap f l end.
Proof. reflexivity. Qed.

Lemma panel_lines_accepted (k : Z) (ds : list pystr) :
  Forall (fun d => d <> [] /\ str_strip d = d /\ 10%N ∉ d) ds ->
  let lines :=
    (fun '(k, d) => py "Panel " ++ str_of_int (k + 1) ++ py ": " ++ d)
      <$> enumerate_from k ds in
  Forall (fun l => l <> [] /\ trimmed l) lines
  /\ Forall (fun l => 10%N ∉ l) lines
  /\ omap LLMHandler.accepted_description lines = ds.
Proof.
  intros Hds. revert k.
  induction Hds as [|d ds (Hd & Hstrip & Hnl) Hds IH]; intros k; cbv zeta;
    [by repeat split|].
  destruct (IH (k + 1)) as (IH1 & IH2 & IH3).
  cbn [enumerate_from]. rewrite fmap_cons. cbv beta iota.
  split; [|split].
  - constructor; [|exact IH1].
    split; [by eval_py|by apply panel_line_trimmed].
  - constructor; [by apply panel_line_one_line|exact IH2].
  - rewrite omap_cons_eq, accepted_panel_line by done. by rewrite IH3.
Qed.

(** A reply made of the lines [Panel 1: d1], ..., [Panel n: dn], where each
    description is non-empty, on one line and without white space at either
    end, parses to exactly [d1, ..., dn] when [n] panels are asked for. *)
Theorem parse_well_formed_reply (ds : list pystr) :
  Forall (fun d => d <> [] /\ str_strip d = d /\ 10%N ∉ d) ds ->
  LLMHandler._parse_panel_response
    (str_join [10%N]
       ((fun '(k, d) => py "Panel " ++ str_of_int (k + 1) ++ py ": " ++ d)
          <$> enumerate ds))
    (len ds)
  = Ret ds.
Proof.
  intros Hds. destruct ds as [|d0 ds0] eqn:Eds; [reflexivity|]. rewrite <- Eds in *.
  assert (Hne : ds <> []) by (by rewrite Eds). clear Eds.
  destruct (panel_lines_accepted 0 ds Hds) as (Hgood & Hlines & Hacc).
  fold (enumerate ds) in Hgood, Hlines, Hacc.
  set (lines := (fun '(k, d) => py "Panel " ++ str_of_int (k + 1) ++ py ": " ++ d)
                  <$> enumerate ds) in *.
  assert (Hlines_ne : lines <> []).
  { intros E. rewrite E in Hacc. simpl in Hacc. by rewrite <- Hacc in Hne. }
  destruct (join_lines_trimmed lines Hlines_ne Hgood) as [_ Htrim].
  apply str_strip_id in Htrim.
  destruct (parse_panel_response_cases (str_join [10%N] lines) (len ds))
    as (panels & E & _ & _ & Hmany); [apply len_nonneg|].
  rewrite E. f_equal.
  rewrite Htrim, str_split_on_join, Hacc in Hmany by done.
  rewrite Hmany by lia. apply take_ge. unfold len. lia.
Qed.

Lemma parse_well_formed_reply_witness :
  LLMHandler._parse_panel_response
    (py "Panel 1: a cat at the door: day
Panel 2: the cat, inside") 2
  = Ret [py "a cat at the door: day"; py "the cat, inside"].
Proof.
  apply (parse_well_formed_reply
           [py "a cat at the door: day"; py "the cat, inside"]).
  repeat constructor; try discriminate; try (vm_compute; reflexivity);
    intros Hin; vm_compute in Hin;
    repeat (apply elem_of_cons in Hin as [Hin|Hin]; [discriminate Hin|]);
    by apply elem_of_nil in Hin.
Defined.

(* ===================================================================== *)
(** * The compositor: column layout, mixed sizes, other tags             *)
(* ===================================================================== *)

Lemma enumerate_from_snd {A} (k : Z) (l : list A) :
  snd <$> enumerate_from k l = l.
Proof.
  revert k. induction l as [|x l IH]; intros k; simpl; [done|]. by rewrite IH.
Qed.







(* ===================================================================== *)
(** * The images of a run                                                *)
(* ===================================================================== *)

(** A loop whose every turn appends one element related to its item ends
    with the elements related to the items, in order. *)
Lemma for_each_appends_related {A B} (P : A -> B -> Prop)
    (body : list B -> A -> res (list B)) (items : list A) (acc : list B) :
  (forall acc x, exists y, body acc x = Ret (acc ++ [y]) /\ P x y) ->
  exists ys, for_each body acc items = Ret (acc ++ ys) /\ Forall2 P items ys.
Proof.
  intros Hbody. revert acc.
  induction items as [|x items IH]; intros acc; simpl.
  - exists []. by rewrite app_nil_r.
  - destruct (Hbody acc x) as (y & -> & Hy). simpl.
    destruct (IH (acc ++ [y])) as (ys & -> & Hys).
    exists (y :: ys). rewrite <- app_assoc. split; [done|by constructor].
Qed.

Lemma remote_generate_image_size (R : Runtime) (self : ImageGenerator.t)
    (post : ImageGenerator.service) (image_open : bytes -> res Image)
    (prompt style : pystr) :
  exists img,
    ImageGenerator.generate_image self post image_open prompt style 512 512
    = Ret (Some img)
    /\ size img = (512, 512).
Proof.
  destruct (remote_generate_image_cases R self post image_open prompt style
              512 512) as (img & E & Hcases); [lia|lia|].
  exists img. split; [exact E|].
  destruct Hcases as [(data & decoded & _ & Hpp)|Hp];
    [exact (post_process_size R decoded style img Hpp)|].
  destruct (remote_placeholder_size R prompt 512 512) as (ph & Hph & Hsize);
    [lia|lia|].
  rewrite Hp in Hph. by injection Hph as ->.
Qed.

Lemma local_generate_image_size (R : Runtime) (self : LocalImageGenerator.t)
    (prompt style : pystr) :
  exists img,
    LocalImageGenerator.generate_image self prompt style 512 512 = Ret (Some img)
    /\ size img = (512, 512).
Proof.
  destruct (local_generate_image_ok R self prompt style 512 512)
    as (img & E & Hcases); [lia|lia|].
  exists img. split; [exact E|].
  destruct Hcases as [(generated & Hpp)|Hp];
    [exact (post_process_size R generated style img Hpp)|].
  destruct (local_placeholder_size R prompt 512 512) as (ph & Hph & Hsize);
    [lia|lia|].
  rewrite Hp in Hph. by injection Hph as ->.
Qed.

(** The images of [generate_comic_panels], of the remote and of the local
    generator, match the descriptions position by position: image [i] is
    what [generate_image] returns at 512x512 for the prompt
    ["Comic panel <i+1>: <description i>"] in the style asked for. *)
Theorem comic_panels_follow_descriptions (R : Runtime)
    (remote : ImageGenerator.t) (post : ImageGenerator.service)
    (image_open : bytes -> res Image) (local : LocalImageGenerator.t)
    (panel_descriptions : list pystr) (style : pystr) :
  (exists images,
      ImageGenerator.generate_comic_panels remote post image_open
        panel_descriptions style = Ret images
      /\ Forall2
           (fun '(i, description) img =>
              ImageGenerator.generate_image remote post image_open
                (py "Comic panel " ++ str_of_int (i + 1) ++ py ": " ++ description)
                style 512 512 = Ret (Some img))
           (enumerate panel_descriptions) images)
  /\ (exists images,
         LocalImageGenerator.generate_comic_panels local panel_descriptions style
         = Ret images
         /\ Forall2
              (fun '(i, description) img =>
                 LocalImageGenerator.generate_image local
                   (py "Comic panel " ++ str_of_int (i + 1) ++ py ": "
                      ++ description)
                   style 512 512 = Ret (Some img))
              (enumerate panel_descriptions) images).
Proof.
  split.
  - unfold ImageGenerator.generate_comic_panels.
    edestruct (for_each_appends_related
                 (fun '(i, description) img =>
                    ImageGenerator.generate_image remote post image_open
                      (py "Comic panel " ++ str_of_int (i + 1) ++ py ": "
                         ++ description) style 512 512 = Ret (Some img)))
      as (images & E & Hall); [|exists images; split; [exact E|exact Hall]].
    intros acc [i description].
    destruct (remote_generate_image_size R remote post image_open
                (py "Comic panel " ++ str_of_int (i + 1) ++ py ": " ++ description)
                style) as (img & E & _).
    exists img. rewrite E. by split.
  - unfold LocalImageGenerator.generate_comic_panels.
    edestruct (for_each_appends_related
                 (fun '(i, description) img =>
                    LocalImageGenerator.generate_image local
                      (py "Comic panel " ++ str_of_int (i + 1) ++ py ": "
                         ++ description) style 512 512 = Ret (Some img)))
      as (images & E & Hall); [|exists images; split; [exact E|exact Hall]].
    intros acc [i description].
    destruct (local_generate_image_size R local
                (py "Comic panel " ++ str_of_int (i + 1) ++ py ": " ++ description)
                style) as (img & E & _).
    exists img. rewrite E. by split.
Qed.

Lemma remote_comic_panels_sizes (R : Runtime) (remote : ImageGenerator.t)
    (post : ImageGenerator.service) (image_open : bytes -> res Image)
    (panel_descriptions : list pystr) (style : pystr) :
  exists images,
    ImageGenerator.generate_comic_panels remote post image_open
      panel_descriptions style = Ret images
    /\ len images = len panel_descriptions
    /\ Forall (fun img => size img = (512, 512)) images.
Proof.
  unfold ImageGenerator.generate_comic_panels.
  edestruct (for_each_appends_related
               (fun (_ : Z * pystr) img => size img = (512, 512)))
    as (images & E & Hall);
    [|exists images; split; [exact E|split]].
  - intros acc [i description].
    destruct (remote_generate_image_size R remote post image_open
                (py "Comic panel " ++ str_of_int (i + 1) ++ py ": " ++ description)
                style) as (img & E & Hsize).
    exists img. rewrite E. by split.
  - unfold len. apply Forall2_length in Hall.
    by rewrite <- Hall, length_enumerate.
  - clear E. induction Hall; by constructor.
Qed.

Lemma local_comic_panels_sizes (R : Runtime) (local : LocalImageGenerator.t)
    (panel_descriptions : list pystr) (style : pystr) :
  exists images,
    LocalImageGenerator.generate_comic_panels local panel_descriptions style
    = Ret images
    /\ len images = len panel_descriptions
    /\ Forall (fun img => size img = (512, 512)) images.
Proof.
  unfold LocalImageGenerator.generate_comic_panels.
  edestruct (for_each_appends_related
               (fun (_ : Z * pystr) img => size img = (512, 512)))
    as (images & E & Hall);
    [|exists images; split; [exact E|split]].
  - intros acc [i description].
    destruct (local_generate_image_size R local
                (py "Comic panel " ++ str_of_int (i + 1) ++ py ": " ++ description)
                style) as (img & E & Hsize).
    exists img. rewrite E. by split.
  - unfold len. apply Forall2_length in Hall.
    by rewrite <- Hall, length_enumerate.
  - clear E. induction Hall; by constructor.
Qed.

(** Every image [generate_comic_panels] returns, of the remote and of the
    local generator, has size 512x512, whatever the services deliver: the
    images of one run always share one width and one height. *)
Theorem comic_panels_share_one_size (R : Runtime)
    (remote : ImageGenerator.t) (post : ImageGenerator.service)
    (image_open : bytes -> res Image) (local : LocalImageGenerator.t)
    (panel_descriptions : list pystr) (style : pystr) :
  (exists images,
      ImageGenerator.generate_comic_panels remote post image_open
        panel_descriptions style = Ret images
      /\ Forall (fun img => size img = (512, 512)) images)
  /\ (exists images,
         LocalImageGenerator.generate_comic_panels local panel_descriptions style
         = Ret images
         /\ Forall (fun img => size img = (512, 512)) images).
Proof.
  split.
  - destruct (remote_comic_panels_sizes R remote post image_open
                panel_descriptions style) as (images & E & _ & Hall). eauto.
  - destruct (local_comic_panels_sizes R local panel_descriptions style)
      as (images & E & _ & Hall). eauto.
Qed.

(* ===================================================================== *)
(** * From the story to the strip                                        *)
(* ===================================================================== *)




(* ===================================================================== *)
(** * Which path the descriptions come from, and when they fail          *)
(* ===================================================================== *)

(** The parser raises nothing, whatever the reply and the count asked. *)
Lemma parse_panel_response_returns (response : pystr) (n : Z) :
  exists panels, LLMHandler._parse_panel_response response n = Ret panels.
Proof.
  unfold LLMHandler._parse_panel_response. rewrite parse_lines_spec. simpl. eauto.
Qed.

Lemma fallback_raises_only_on_zero (story : pystr) (n : Z) (e : exn) :
  LLMHandler._fallback_panel_generation story n = Raise e ->
  e = ZeroDivisionError /\ n = 0.
Proof.
  destruct (Z.eq_dec n 0) as [->|Hn].
  - by intros [= <-].
  - by rewrite fallback_panel_generation_spans.
Qed.

(** [generate_panel_descriptions] returns what the parser makes of the
    reply when the service is available and the call for the templated
    prompt brings back a non-empty text, and what the fallback makes of the
    story in every other case (service unavailable, failed request, status
    other than 200, unreadable or empty reply). It raises only when the
    fallback is taken with [num_panels = 0], and then a
    [ZeroDivisionError]: the parser path never raises. *)
Theorem panel_descriptions_paths (is_service_available : bool)
    (post : pystr -> LLMHandler.post_outcome) (story : pystr) (num_panels : Z) :
  let reply :=
    LLMHandler._call_llm_api post
      (LLMHandler._create_panel_prompt story num_panels) in
  let result :=
    LLMHandler.generate_panel_descriptions is_service_available post story
      num_panels in
  (forall response,
      is_service_available = true -> reply = Some response -> response <> [] ->
      result = LLMHandler._parse_panel_response response num_panels
      /\ exists panels, result = Ret panels)
  /\ (is_service_available = false \/ reply = None \/ reply = Some [] ->
      result = LLMHandler._fallback_panel_generation story num_panels)
  /\ (forall e, result = Raise e -> e = ZeroDivisionError /\ num_panels = 0).
Proof.
  intros reply result.
  assert (Hfb : try_except (LLMHandler._fallback_panel_generation story num_panels)
                  (fun _ => LLMHandler._fallback_panel_generation story num_panels)
                = LLMHandler._fallback_panel_generation story num_panels)
    by (by destruct (LLMHandler._fallback_panel_generation story num_panels)).
  split; [|split].
  - intros response -> Hreply Hne. unfold result, LLMHandler.generate_panel_descriptions.
    fold reply. rewrite Hreply. cbn [negb].
    destruct response as [|c r]; [done|]. cbn [truthy].
    destruct (parse_panel_response_returns (c :: r) num_panels) as [panels E].
    rewrite E. simpl. eauto.
  - intros Hcase. unfold result, LLMHandler.generate_panel_descriptions. fold reply.
    destruct is_service_available; cbn [negb]; [|done].
    destruct Hcase as [Hbad|[->| ->]]; [discriminate Hbad|exact Hfb|exact Hfb].
  - intros e. unfold result, LLMHandler.generate_panel_descriptions. fold reply.
    destruct is_service_available; cbn [negb];
      [|apply fallback_raises_only_on_zero].
    destruct reply as [response|]; [destruct (truthy response)|];
      try (rewrite Hfb; apply fallback_raises_only_on_zero).
    destruct (parse_panel_response_returns response num_panels) as [panels E].
    rewrite E. discriminate.
Qed.

(* ===================================================================== *)
(** * What the image service is asked, and when bytes come back          *)
(* ===================================================================== *)

(** [_call_image_api] raises nothing. It returns bytes exactly when an API
    URL is set (not [None], not empty) and the service, asked at that URL
    with the headers of [self] for the prompt enhanced for the comic style,
    the fixed negative prompt, the width and height given, 20 steps,
    guidance 7.5 and one image, answers with status 200 and a body whose
    [images] or [data] entry decodes to those bytes; otherwise it returns
    [None]. *)
Theorem image_api_outcome (R : Runtime) (self : ImageGenerator.t)
    (post : ImageGenerator.service) (prompt : prompt_value) (width height : Z) :
  let request :=
    {| ImageGenerator.prompt :=
         format_value prompt
           ++ py ", comic book style, vibrant colors, bold outlines, clear composition";
       ImageGenerator.negative_prompt :=
         py "blurry, low quality, distorted, ugly, bad anatomy";
       ImageGenerator.width := width;
       ImageGenerator.height := height;
       ImageGenerator.num_inference_steps := 20;
       ImageGenerator.guidance_scale := 7.5%Q;
       ImageGenerator.num_images_per_prompt := 1 |} in
  (exists outcome,
      ImageGenerator._call_image_api self post prompt width height = Ret outcome)
  /\ forall image_data,
      ImageGenerator._call_image_api self post prompt width height
      = Ret (Some image_data)
      <-> exists url,
          ImageGenerator.api_url self = Some url /\ url <> []
          /\ (post url request (ImageGenerator.default_headers self)
              = Ret (200, Ret (ImageGenerator.HasImages (Ret image_data)))
              \/ post url request (ImageGenerator.default_headers self)
                 = Ret (200, Ret (ImageGenerator.HasData (Ret image_data)))).
Proof.
  intros request. unfold ImageGenerator._call_image_api.
  destruct (ImageGenerator.api_url self) as [url|].
  2:{ split; [eauto|]. intros data. split; [discriminate|].
      by intros (url & Hurl & _). }
  destruct url as [|c u]; cbn [truthy negb].
  { split; [eauto|]. intros data. split; [discriminate|].
    intros (url & [= <-] & Hne & _). done. }
  assert (Eenh : ImageGenerator._enhance_prompt prompt (py "comic")
                 = Ret (ImageGenerator.prompt request,
                         ImageGenerator.negative_prompt request))
    by (vm_compute; reflexivity).
  rewrite Eenh. cbn [mbind res_bind].
  change (ImageGenerator.Build_payload _ _ _ _ _ _ _) with request.
  destruct (post (c :: u) request (ImageGenerator.default_headers self))
    as [[status json]|e] eqn:Epost; cbn [mbind res_bind try_except].
  2:{ split; [eauto|]. intros data. split; [discriminate|].
      intros (url & [= <-] & _ & [H|H]); rewrite Epost in H; discriminate. }
  destruct (Z.eqb_spec status 200) as [->|Hstatus].
  2:{ split; [simpl; eauto|]. intros data. split; [discriminate|].
      intros (url & [= <-] & _ & [H|H]); rewrite Epost in H;
        injection H as H _; done. }
  destruct json as [[[first|e]|[first|e]|]|e];
    cbn [mbind res_bind try_except mret res_ret];
    (split; [eauto|]); intros data; split;
    try discriminate;
    try (intros (url & [= <-] & _ & [H|H]); rewrite Epost in H; by simplify_eq).
  - intros [= <-]. exists (c :: u). split; [done|]. split; [done|]. by left.
  - intros [= <-]. exists (c :: u). split; [done|]. split; [done|]. by right.
Qed.

(* ===================================================================== *)
(** * Numbers print differently                                          *)
(* ===================================================================== *)

Lemma py_inj (s t : string) : py s = py t -> s = t.
Proof.
  revert t. induction s as [|a s IH]; intros [|b t]; simpl; try done.
  intros [= Hab Hst]. f_equal; [|by apply IH].
  by rewrite <- (ascii_N_embedding a), <- (ascii_N_embedding b), Hab.
Qed.

Lemma to_int_normal (z : Z) : Z.to_int z <> Decimal.Pos Decimal.Nil
                              /\ Z.to_int z <> Decimal.Neg Decimal.Nil.
Proof.
  pose proof (DecimalZ.to_of (Z.to_int z)) as H. rewrite DecimalZ.of_to in H.
  split; intros E; rewrite E in H; discriminate H.
Qed.

(** Two integers with the same decimal text are the same. *)
Lemma str_of_int_inj (a b : Z) : str_of_int a = str_of_int b -> a = b.
Proof.
  unfold str_of_int. intros E. apply py_inj in E.
  destruct (to_int_normal a) as [Ha1 Ha2]. destruct (to_int_normal b) as [Hb1 Hb2].
  pose proof (NilZero.isi _ Ha1 Ha2) as Ia. pose proof (NilZero.isi _ Hb1 Hb2) as Ib.
  rewrite E, Ib in Ia. injection Ia as Ia.
  by rewrite <- (DecimalZ.of_to a), <- (DecimalZ.of_to b), Ia.
Qed.

(* ===================================================================== *)
(** * The files of a saved comic                                         *)
(* ===================================================================== *)

Lemma enumerate_from_fst {A} (k : Z) (l : list A) :
  fst <$> enumerate_from k l = seqZ k (len l).
Proof.
  revert k. induction l as [|x l IH]; intros k.
  - reflexivity.
  - cbn [enumerate_from]. rewrite fmap_cons, IH. simpl.
    rewrite (seqZ_cons k) by (unfold len; simpl; lia).
    f_equal. f_equal. unfold len. simpl. lia.
Qed.

Lemma save_panels_spec (io : utils_io.effect -> res unit) (str_exn : exn -> pystr)
    (output_path : pystr) (items : list (Z * (Image * pystr)))
    (done : list utils_io.effect) :
  let target :=
    (fun '(i, (image, _)) =>
       (output_path ++ py "_panel_" ++ str_of_int (i + 1) ++ py ".png", image))
      <$> items in
  let r := utils_io.save_panels io str_exn output_path items done in
  exists k,
    utils_io.saved r.2 = utils_io.saved done ++ take k target
    /\ (r.1 = true -> utils_io.saved r.2 = utils_io.saved done ++ target)
    /\ ((forall e, exists u, io e = Ret u) -> r.1 = true).
Proof.
  revert done. induction items as [|[i [image text]] items IH]; intros done; cbv zeta.
  - exists 0%nat. simpl. by rewrite app_nil_r.
  - cbn [utils_io.save_panels]. rewrite fmap_cons. cbv beta iota.
    destruct (io _) as [u|e] eqn:Eio.
    + destruct (IH (done ++
                  [utils_io.Save (output_path ++ py "_panel_" ++ str_of_int (i + 1)
                                    ++ py ".png") image;
                   utils_io.LogInfo (py "Saved panel " ++ str_of_int (i + 1)
                                       ++ py " to " ++ output_path ++ py "_panel_"
                                       ++ str_of_int (i + 1) ++ py ".png")]))
        as (k & Hk & Hok & Hall).
      unfold utils_io.saved in *. rewrite omap_app in Hk, Hok. simpl in Hk, Hok.
      rewrite <- app_assoc in Hk, Hok. simpl in Hk, Hok.
      exists (S k). split; [exact Hk|]. split; [exact Hok|exact Hall].
    + exists 0%nat. unfold utils_io.saved. simpl. rewrite omap_app. simpl.
      split; [done|]. split; [discriminate|].
      intros Hio. destruct (Hio (utils_io.Save
                                   (output_path ++ py "_panel_" ++ str_of_int (i + 1)
                                      ++ py ".png") image)) as [u Hu].
      rewrite Hu in Eio. discriminate.
Qed.

Lemma zip_fst_take {A B} (l : list A) (k : list B) :
  fst <$> zip l k = take (length k) l.
Proof.
  revert k. induction l as [|x l IH]; intros [|y k]; simpl; try done.
  by rewrite IH.
Qed.

Lemma panel_path_inj (output_path : pystr) (i j : Z) :
  output_path ++ py "_panel_" ++ str_of_int (i + 1) ++ py ".png"
  = output_path ++ py "_panel_" ++ str_of_int (j + 1) ++ py ".png" ->
  i = j.
Proof.
  intros E. do 2 apply app_inv_head in E. apply app_inv_tail in E.
  apply str_of_int_inj in E. lia.
Qed.

(** [save_comic_to_file] raises nothing and saves one file per pair of an
    image and a text: [min(len(images), len(panel_texts))] files, image [i]
    under [<output_path>_panel_<i+1>.png], all under different paths. What
    it has saved when it returns is always a prefix of these files, in
    order (a step that fails leaves the files saved before it in place),
    and all of them when it returns [True]. If the directory and file
    operations all work it returns [True]. *)
Theorem save_comic_to_file_files (io : utils_io.effect -> res unit)
    (str_exn : exn -> pystr) (images : list Image) (panel_texts : list pystr)
    (output_path : pystr) :
  let target :=
    (fun '(i, (image, _)) =>
       (output_path ++ py "_panel_" ++ str_of_int (i + 1) ++ py ".png", image))
      <$> enumerate (zip images panel_texts) in
  let r := utils_io.save_comic_to_file io str_exn images panel_texts output_path in
  len target = Z.min (len images) (len panel_texts)
  /\ snd <$> target = take (length panel_texts) images
  /\ NoDup (fst <$> target)
  /\ utils_io.saved r.2 `prefix_of` target
  /\ (r.1 = true -> utils_io.saved r.2 = target)
  /\ ((forall e, exists u, io e = Ret u) -> r.1 = true).
Proof.
  intros target r. split; [|split; [|split]].
  - unfold target, len. rewrite length_fmap, length_enumerate, length_zip_with. lia.
  - unfold target. rewrite <- list_fmap_compose.
    transitivity (fst <$> (snd <$> enumerate (zip images panel_texts))).
    + rewrite <- list_fmap_compose. apply list_fmap_ext. by intros k [i [image text]] _.
    + unfold enumerate. rewrite enumerate_from_snd. apply zip_fst_take.
  - unfold target. rewrite <- list_fmap_compose.
    assert (E : (fst ∘ (fun '(i, (image, _)) =>
                   (output_path ++ py "_panel_" ++ str_of_int (i + 1) ++ py ".png",
                    image))) <$> enumerate (zip images panel_texts)
                = (fun i => output_path ++ py "_panel_" ++ str_of_int (i + 1)
                              ++ py ".png")
                    <$> (fst <$> enumerate (zip images panel_texts))).
    { rewrite <- list_fmap_compose. apply list_fmap_ext. by intros k [i [image text]] _. }
    rewrite E. unfold enumerate. rewrite enumerate_from_fst.
    apply NoDup_fmap_2_strong; [|apply NoDup_seqZ].
    intros i j _ _. apply panel_path_inj.
  - unfold r, utils_io.save_comic_to_file.
    destruct (io (utils_io.Mkdir_parent output_path)) as [u|e] eqn:Emk.
    + destruct (save_panels_spec io str_exn output_path
                  (enumerate (zip images panel_texts))
                  [utils_io.Mkdir_parent output_path]) as (k & Hk & Hok & Hall).
      fold target in Hk, Hok. simpl in Hk, Hok.
      split; [rewrite Hk; apply prefix_take|]. split; [exact Hok|exact Hall].
    + simpl. split; [apply prefix_nil|]. split; [discriminate|].
      intros Hio. destruct (Hio (utils_io.Mkdir_parent output_path)) as [u Hu].
      rewrite Hu in Emk. discriminate.
Qed.

Example save_comic_to_file_example :
  let a := Raster (512, 512) [1%N] in
  let b := Raster (512, 512) [2%N] in
  let c := Raster (512, 512) [3%N] in
  let disk_full (e : utils_io.effect) : res unit :=
    match e with
    | utils_io.Save path _ =>
        if decide (path = py "out/comic_panel_2.png") then Raise ValueError
        else Ret tt
    | _ => Ret tt
    end in
  utils_io.save_comic_to_file (fun _ => Ret tt) (fun _ => py "")
    [a; b; c] [py "one"; py "two"] (py "out/comic")
  = (true,
     [utils_io.Mkdir_parent (py "out/comic");
      utils_io.Save (py "out/comic_panel_1.png") a;
      utils_io.LogInfo (py "Saved panel 1 to out/comic_panel_1.png");
      utils_io.Save (py "out/comic_panel_2.png") b;
      utils_io.LogInfo (py "Saved panel 2 to out/comic_panel_2.png")])
  /\ utils_io.save_comic_to_file disk_full (fun _ => py "No space left on device")
       [a; b; c] [py "one"; py "two"] (py "out/comic")
     = (false,
        [utils_io.Mkdir_parent (py "out/comic");
         utils_io.Save (py "out/comic_panel_1.png") a;
         utils_io.LogInfo (py "Saved panel 1 to out/comic_panel_1.png");
         utils_io.LogError (py "Error saving comic: No space left on device")]).
Proof. vm_compute. split; reflexivity. Qed.

(* ===================================================================== *)
(** * Messages and status codes                                          *)
(* ===================================================================== *)

(** The exception types [format_error_message] has a message for. *)
Lemma error_messages_unknown (error_type : pystr) :
  error_type ∉ [py "ConnectionError"; py "TimeoutError"; py "ValueError";
                py "RuntimeError"] ->
  utils.error_messages !! error_type = None.
Proof.
  intros H. unfold utils.error_messages.
  rewrite !lookup_insert_ne
    by (intros E; apply H; rewrite <- E; repeat first [ by left | right ]).
  apply lookup_singleton_ne.
  intros E; apply H; rewrite <- E; repeat first [ by left | right ].
Qed.

(** For an exception whose type is [ConnectionError], [TimeoutError],
    [ValueError] or [RuntimeError], [format_error_message] returns the
    fixed message of that type and nothing of the text of the exception;
    for every other type it returns ["An unexpected error occurred: "]
    followed by the text of the exception. A [RuntimeError] thus gets its
    fixed message, in which "unexpected error occurred" does not occur. *)
Theorem format_error_message_cases (error : utils.exception) :
  (utils.type_name error
     ∈ [py "ConnectionError"; py "TimeoutError"; py "ValueError";
        py "RuntimeError"] ->
   exists fixed,
     utils.error_messages !! utils.type_name error = Some fixed
     /\ forall text,
          utils.format_error_message
            {| utils.type_name := utils.type_name error; utils.message := text |}
          = fixed)
  /\ (utils.type_name error
        ∉ [py "ConnectionError"; py "TimeoutError"; py "ValueError";
           py "RuntimeError"] ->
      utils.format_error_message error
      = py "An unexpected error occurred: " ++ utils.message error)
  /\ (forall text,
         utils.format_error_message
           {| utils.type_name := py "RuntimeError"; utils.message := text |}
         = py "An error occurred while processing your request. Please try again."
         /\ str_in (py "unexpected error occurred")
              (utils.format_error_message
                 {| utils.type_name := py "RuntimeError"; utils.message := text |})
            = false).
Proof.
  split; [|split].
  - intros H. destruct error as [name text0]. simpl in *.
    repeat (apply elem_of_cons in H as [->|H]);
      [ .. | by apply elem_of_nil in H ];
      eexists; (split; [vm_compute; reflexivity|]); intros text; reflexivity.
  - intros H. unfold utils.format_error_message, dict_get.
    by rewrite error_messages_unknown.
  - intros text. split; [reflexivity|]. vm_compute. reflexivity.
Qed.

(** [validate_api_response] accepts exactly the status code 200, and logs
    one error line for every other code and none for 200. *)
Theorem validate_api_response_accepts_200 (status_code : Z) (text : pystr) :
  ((utils.validate_api_response status_code text).1 = true <-> status_code = 200)
  /\ ((utils.validate_api_response status_code text).2 = [] <-> status_code = 200)
  /\ (status_code <> 200 ->
      length (utils.validate_api_response status_code text).2 = 1%nat).
Proof.
  unfold utils.validate_api_response.
  destruct (Z.eqb_spec status_code 200) as [->|H200]; simpl; [by repeat split|].
  destruct (status_code =? 401); [by repeat split|].
  destruct (status_code =? 429); [by repeat split|].
  destruct (500 <=? status_code); by repeat split.
Qed.

(* ===================================================================== *)
(** * Style tags the four-entry tables lack                              *)
(* ===================================================================== *)

(** [create_image_prompt] and [enhance_panel_description] know four style
    tags only. For every other tag, among them ["watercolor"] and
    ["sketch"] that the image generators have phrases for, they raise
    nothing and return what they return for ["comic"]. *)
Theorem four_style_tables_default_to_comic (description style : pystr) :
  style ∉ [py "comic"; py "realistic"; py "cartoon"; py "anime"] ->
  utils.create_image_prompt description (Some style)
  = Ret (description
           ++ py ", comic book style, vibrant colors, clear lines, high quality, clear composition")
  /\ LLMHandler.enhance_panel_description description style
     = Ret (description ++ py ", comic book style, bold colors, clear outlines")
  /\ utils.create_image_prompt description (Some style)
     = utils.create_image_prompt description (Some (py "comic"))
  /\ LLMHandler.enhance_panel_description description style
     = LLMHandler.enhance_panel_description description (py "comic").
Proof.
  intros H. destruct (style_prompts_unknown style H) as [H1 H2].
  assert (E1 : utils.create_image_prompt description (Some style)
               = utils.create_image_prompt description (Some (py "comic"))).
  { unfold utils.create_image_prompt, dict_get. simpl. by rewrite H1. }
  assert (E2 : LLMHandler.enhance_panel_description description style
               = LLMHandler.enhance_panel_description description (py "comic")).
  { unfold LLMHandler.enhance_panel_description, dict_get. by rewrite H2. }
  rewrite E1, E2. repeat split; vm_compute; reflexivity.
Qed.

Lemma four_style_tables_witness :
  utils.create_image_prompt (py "A cat") (Some (py "watercolor"))
  = Ret (py "A cat, comic book style, vibrant colors, clear lines, high quality, clear composition")
  /\ LLMHandler.enhance_panel_description (py "A cat") (py "sketch")
     = Ret (py "A cat, comic book style, bold colors, clear outlines").
Proof.
  assert (Hw : py "watercolor" ∉ [py "comic"; py "realistic"; py "cartoon"; py "anime"]).
  { intros H. repeat (apply elem_of_cons in H as [H|H]; [discriminate H|]).
    by apply elem_of_nil in H. }
  assert (Hs : py "sketch" ∉ [py "comic"; py "realistic"; py "cartoon"; py "anime"]).
  { intros H. repeat (apply elem_of_cons in H as [H|H]; [discriminate H|]).
    by apply elem_of_nil in H. }
  split.
  - apply (four_style_tables_default_to_comic (py "A cat") (py "watercolor") Hw).
  - apply (four_style_tables_default_to_comic (py "A cat") (py "sketch") Hs).
Defined.

(* ===================================================================== *)
(** * Text over an image                                                 *)
(* ===================================================================== *)

(** [add_text_to_image] keeps the size of the image and what was pasted
    into it. On top of the texts already there it draws the text nine
    times: in black at the eight neighbours of [(x, y)], then in white at
    [(x, y)] itself, last. [x] centres the text; [y] is 10 for ["top"],
    leaves 10 pixels under the text for ["bottom"], and centres the text
    for every other position tag. *)
Theorem add_text_to_image_draws (R : Runtime) (image : Image)
    (text position : pystr) :
  let font := match load_default with Ret f => Some f | Raise _ => None end in
  let text_width := (textbbox text font).1.2 - (textbbox text font).1.1.1 in
  let text_height := (textbbox text font).2 - (textbbox text font).1.1.2 in
  let x := Z.div ((size image).1 - text_width) 2 in
  let y :=
    if decide (position = py "top") then 10
    else if decide (position = py "bottom")
         then (size image).2 - text_height - 10
         else Z.div ((size image).2 - text_height) 2 in
  let result := ImageGenerator.add_text_to_image image text position in
  size result = size image
  /\ pasted result = pasted image
  /\ texts result
     = texts image
         ++ [((x - 1, y - 1), text, py "black"); ((x - 1, y), text, py "black");
             ((x - 1, y + 1), text, py "black"); ((x, y - 1), text, py "black");
             ((x, y + 1), text, py "black"); ((x + 1, y - 1), text, py "black");
             ((x + 1, y), text, py "black"); ((x + 1, y + 1), text, py "black");
             ((x, y), text, py "white")]
  /\ (position = py "bottom" -> y + text_height + 10 = (size image).2).
Proof.
  intros font text_width text_height x y result.
  unfold result, ImageGenerator.add_text_to_image. fold font.
  subst x y text_width text_height.
  destruct (textbbox text font) as [[[l t] r] b].
  destruct (size image) as [w h] eqn:Hsize. cbn [fst snd].
  split; [|split; [|split]].
  - repeat case_decide; cbn; by rewrite ?Hsize.
  - repeat case_decide; cbn; reflexivity.
  - repeat case_decide; cbn;
      rewrite <- ?app_assoc; cbn; rewrite ?Z.add_0_r;
      repeat (f_equal; try lia).
  - intros ->. rewrite decide_False, decide_True by done. lia.
Qed.

(* ===================================================================== *)
(** * The session across a run of generate_comic                         *)
(* ===================================================================== *)

Lemma inline_placeholders_sizes (R : Runtime) (panel_descriptions : list pystr) :
  exists images,
    app.inline_placeholders panel_descriptions = Ret images
    /\ len images = len panel_descriptions
    /\ Forall (fun img => size img = (512, 512)) images.
Proof.
  unfold app.inline_placeholders.
  edestruct (for_each_appends_related
               (fun (_ : Z * pystr) img => size img = (512, 512)))
    as (images & E & Hall);
    [|exists images; split; [exact E|split]].
  - intros acc [i description]. rewrite Image_new_ok by lia.
    cbn [mbind res_bind]. destruct (textbbox _ _) as [[[l t] r] b].
    cbn [draw_rectangle]. simpl. eauto.
  - unfold len. apply Forall2_length in Hall.
    by rewrite <- Hall, length_enumerate.
  - clear E. induction Hall; by constructor.
Qed.

(** What every run that got past validation and did not fail leaves in the
    session. *)
Lemma generate_comic_outcomes (R : Runtime) (w : app.world)
    (st : utils_io.session_state) (story_text art_style : pystr) (num_panels : Z)
    (layout_style llm_model api_url api_key : pystr) :
  let r :=
    app.generate_comic w st story_text art_style num_panels layout_style
      llm_model api_url api_key in
  r.1 = (utils_io.get_session_state st).2
  \/ exists panels images,
      LLMHandler.generate_panel_descriptions (app.is_service_available w)
        (app.llm_post w) story_text num_panels = Ret panels
      /\ (utils.validate_story_input story_text).1 = true
      /\ app.LOCAL_DIFFUSION_AVAILABLE w = true
      /\ len images = len panels
      /\ Forall (fun img => size img = (512, 512)) images
      /\ r.1 = Some {| utils_io.story := story_text;
                       utils_io.panels := panels;
                       utils_io.images := images;
                       utils_io.generated := true;
                       utils_io.generation_time :=
                         Some (app.end_time w - app.start_time w)%Q |}
      /\ last r.2
         = Some (app.st_success
                   ([127881%N] ++ py " Your comic has been generated! Scroll down to see the results.")).
Proof.
  intros r. unfold r, app.generate_comic.
  destruct (utils_io.get_session_state st) as [session_data st'] eqn:Eget.
  destruct (utils.validate_story_input story_text) as [is_valid error_msg] eqn:Eval.
  destruct is_valid; cbn [negb snd fst]; [|by left].
  destruct (LLMHandler.generate_panel_descriptions _ _ _ _) as [panels|e] eqn:Ed;
    [|by left].
  destruct (app.LOCAL_DIFFUSION_AVAILABLE w) eqn:Eflag; [|by left].
  cbn [LocalImageGenerator.__init__ negb].
  set (local := {| LocalImageGenerator.LOCAL_DIFFUSION_AVAILABLE := true;
                   LocalImageGenerator.pipeline := _ |}).
  destruct (LocalImageGenerator.is_available local).
  - destruct (local_comic_panels_sizes R local panels art_style)
      as (images & -> & Hlen & Hall).
    right. exists panels, images. repeat split; try done.
  - destruct (truthy api_url).
    + destruct (remote_comic_panels_sizes R
                  (ImageGenerator.__init__ (app.getenv w) (Some api_url) (Some api_key))
                  (app.image_post w) (app.image_open w) panels art_style)
        as (images & -> & Hlen & Hall).
      right. exists panels, images. repeat split; try done.
    + destruct (inline_placeholders_sizes R panels) as (images & -> & Hlen & Hall).
      right. exists panels, images. repeat split; try done.
Qed.

(** The session keeps its shape through every operation on it: if the
    comic it holds, when it holds one, has as many images as panels, each
    of 512x512, then the same is true after [get_session_state], after
    [clear_session_state] and after [generate_comic], whatever the input
    and whatever the services do. The empty session has the shape. *)
Theorem session_stays_consistent (R : Runtime) (w : app.world)
    (st : utils_io.session_state) (story_text art_style : pystr) (num_panels : Z)
    (layout_style llm_model api_url api_key : pystr) :
  utils_io.consistent st ->
  utils_io.consistent None
  /\ utils_io.consistent (utils_io.get_session_state st).2
  /\ utils_io.consistent (utils_io.clear_session_state st)
  /\ utils_io.consistent
       (app.generate_comic w st story_text art_style num_panels layout_style
          llm_model api_url api_key).1.
Proof.
  intros Hst.
  assert (Hget : utils_io.consistent (utils_io.get_session_state st).2).
  { destruct st as [data|]; simpl; [exact Hst|].
    intros data [= <-]. simpl. split; [done|constructor]. }
  split; [by intros data|]. split; [exact Hget|]. split.
  - destruct st; by intros data.
  - destruct (generate_comic_outcomes R w st story_text art_style num_panels
                layout_style llm_model api_url api_key)
      as [->|(panels & images & _ & _ & _ & Hlen & Hall & -> & _)]; [exact Hget|].
    intros data [= <-]. simpl. by split.
Qed.

Lemma session_stays_consistent_witness :
  let w :=
    {| app.is_service_available := false;
       app.llm_post := fun _ => Raise ValueError;
       app.LOCAL_DIFFUSION_AVAILABLE := true;
       app.from_pretrained := Raise ValueError;
       app.getenv := fun _ => None;
       app.image_post := fun _ _ _ => Raise ValueError;
       app.image_open := fun _ => Raise ValueError;
       app.start_time := 0;
       app.end_time := 1.5;
       app.str_raised := fun _ => py "" |} in
  exists data,
    (app.generate_comic (R := example_runtime) w None
       (py "A cat discovers a magical garden.") (py "comic") 3
       (py "grid") (py "llama2") (py "") (py "")).1 = Some data
    /\ utils_io.panels data
       = [py "Scene 1: A cat"; py "Scene 2: discovers a"; py "Scene 3: magical garden."]
    /\ len (utils_io.images data) = len (utils_io.panels data).
Proof.
  intros w.
  destruct (session_stays_consistent example_runtime w None
              (py "A cat discovers a magical garden.") (py "comic") 3
              (py "grid") (py "llama2") (py "") (py ""))
    as (_ & _ & _ & Hrun); [by intros data|].
  destruct (app.generate_comic _ _ _ _ _ _ _ _ _).1 as [data|] eqn:E;
    [|vm_compute in E; discriminate E].
  exists data. split; [reflexivity|]. split; [|by apply (Hrun data)].
  vm_compute in E. by injection E as <-.
Defined.

(** A story that validation rejects changes nothing: no service is asked,
    the comic of the session stays as it was (an empty one is put there if
    there was none), and the only thing shown is the message of the
    validation, as an error. *)
Theorem generate_comic_rejects_invalid_story (R : Runtime) (w : app.world)
    (st : utils_io.session_state) (story_text art_style : pystr) (num_panels : Z)
    (layout_style llm_model api_url api_key : pystr) :
  (utils.validate_story_input story_text).1 = false ->
  app.generate_comic w st story_text art_style num_panels layout_style
    llm_model api_url api_key
  = ((utils_io.get_session_state st).2,
     [app.st_error (utils.validate_story_input story_text).2])
  /\ (forall data,
         st = Some data ->
         (app.generate_comic w st story_text art_style num_panels layout_style
            llm_model api_url api_key).1 = Some data).
Proof.
  intros Hinvalid. unfold app.generate_comic.
  destruct (utils_io.get_session_state st) as [session_data st'] eqn:Eget.
  destruct (utils.validate_story_input story_text) as [is_valid error_msg].
  simpl in Hinvalid. subst is_valid. simpl. split; [done|].
  intros data ->. simpl in Eget. by injection Eget as _ <-.
Qed.

Lemma generate_comic_rejects_invalid_story_witness :
  let w :=
    {| app.is_service_available := true;
       app.llm_post := fun _ => Ret (200, Ret (py "Panel 1: a cat"));
       app.LOCAL_DIFFUSION_AVAILABLE := true;
       app.from_pretrained := Raise ValueError;
       app.getenv := fun _ => None;
       app.image_post := fun _ _ _ => Raise ValueError;
       app.image_open := fun _ => Raise ValueError;
       app.start_time := 0;
       app.end_time := 1.5;
       app.str_raised := fun _ => py "" |} in
  app.generate_comic (R := example_runtime) w None (py "  Too short ")
    (py "comic") 4 (py "grid") (py "llama2") (py "") (py "")
  = (Some {| utils_io.story := py ""; utils_io.panels := [];
             utils_io.images := []; utils_io.generated := false;
             utils_io.generation_time := None |},
     [app.st_error (py "Story must be at least 10 characters long.")]).
Proof.
  intros w.
  destruct (generate_comic_rejects_invalid_story example_runtime w None
              (py "  Too short ") (py "comic") 4 (py "grid") (py "llama2")
              (py "") (py "")) as [E _]; [vm_compute; reflexivity|].
  rewrite E. vm_compute. reflexivity.
Defined.

(** A valid story, [N >= 1] panels and the diffusion libraries installed:
    the run succeeds whatever the services do (local pipeline if it loaded,
    else the remote API if a URL was given, else placeholders drawn on the
    spot). The session then holds the story, [N] panel descriptions and
    [N] images of 512x512 and is marked generated; the last thing shown is
    the success message. *)
Theorem generate_comic_succeeds (R : Runtime) (w : app.world)
    (st : utils_io.session_state) (story_text art_style : pystr) (N : Z)
    (layout_style llm_model api_url api_key : pystr) :
  (utils.validate_story_input story_text).1 = true ->
  1 <= N ->
  app.LOCAL_DIFFUSION_AVAILABLE w = true ->
  exists panels images shown,
    app.generate_comic w st story_text art_style N layout_style
      llm_model api_url api_key
    = (Some {| utils_io.story := story_text;
               utils_io.panels := panels;
               utils_io.images := images;
               utils_io.generated := true;
               utils_io.generation_time :=
                 Some (app.end_time w - app.start_time w)%Q |},
       shown)
    /\ len panels = N
    /\ len images = N
    /\ Forall (fun img => size img = (512, 512)) images
    /\ last shown
       = Some (app.st_success
                 ([127881%N] ++ py " Your comic has been generated! Scroll down to see the results.")).
Proof.
  intros Hvalid HN Hflag. unfold app.generate_comic.
  destruct (utils_io.get_session_state st) as [session_data st'].
  destruct (utils.validate_story_input story_text) as [is_valid error_msg].
  simpl in Hvalid. subst is_valid. cbn [negb].
  destruct (panel_descriptions_count (app.is_service_available w) (app.llm_post w)
              story_text N HN) as (panels & -> & Hlen).
  rewrite Hflag. cbn [LocalImageGenerator.__init__ negb].
  set (local := {| LocalImageGenerator.LOCAL_DIFFUSION_AVAILABLE := true;
                   LocalImageGenerator.pipeline := _ |}).
  destruct (LocalImageGenerator.is_available local).
  - destruct (local_comic_panels_sizes R local panels art_style)
      as (images & -> & Hi & Hall).
    eexists panels, images, _. split; [reflexivity|].
    rewrite Hlen in Hi. repeat split; done.
  - destruct (truthy api_url).
    + destruct (remote_comic_panels_sizes R
                  (ImageGenerator.__init__ (app.getenv w) (Some api_url) (Some api_key))
                  (app.image_post w) (app.image_open w) panels art_style)
        as (images & -> & Hi & Hall).
      eexists panels, images, _. split; [reflexivity|].
      rewrite Hlen in Hi. repeat split; done.
    + destruct (inline_placeholders_sizes R panels) as (images & -> & Hi & Hall).
      eexists panels, images, _. split; [reflexivity|].
      rewrite Hlen in Hi. repeat split; done.
Qed.

Lemma generate_comic_succeeds_witness :
  let w :=
    {| app.is_service_available := true;
       app.llm_post :=
         fun _ => Ret (200, Ret (py "Panel 1: a cat at a gate
Panel 2: the cat among flowers"));
       app.LOCAL_DIFFUSION_AVAILABLE := true;
       app.from_pretrained := Raise ValueError;
       app.getenv := fun _ => None;
       app.image_post := fun _ _ _ => Ret (500, Raise ValueError);
       app.image_open := fun _ => Raise ValueError;
       app.start_time := 0;
       app.end_time := 1.5;
       app.str_raised := fun _ => py "" |} in
  exists data shown,
    app.generate_comic (R := example_runtime) w None
      (py "A cat discovers a magical garden.") (py "anime") 2 (py "horizontal")
      (py "llama2") (py "http://localhost:7860/generate") (py "")
    = (Some data, shown)
    /\ utils_io.panels data = [py "a cat at a gate"; py "the cat among flowers"]
    /\ len (utils_io.images data) = 2.
Proof.
  intros w.
  destruct (generate_comic_succeeds example_runtime w None
              (py "A cat discovers a magical garden.") (py "anime") 2
              (py "horizontal") (py "llama2")
              (py "http://localhost:7860/generate") (py ""))
    as (panels & images & shown & E & _ & Hi & _);
    [vm_compute; reflexivity|lia|reflexivity|].
  eexists _, shown. split; [exact E|]. split; [|exact Hi].
  vm_compute in E. by injection E as <- _ _.
Defined.

(** Without the diffusion libraries a run never gets to the images, even
    with an API URL given and a working service: for a valid story and
    [N >= 1] panels the constructor of the local generator raises its
    [NameError], the session is left as it was, and what is shown ends with
    the error ["An unexpected error occurred: "] followed by the text of
    that exception, the progress bar back at 0 and the status of a failed
    generation. *)
Theorem generate_comic_without_diffusion_libraries (R : Runtime) (w : app.world)
    (st : utils_io.session_state) (story_text art_style : pystr) (N : Z)
    (layout_style llm_model api_url api_key : pystr) :
  (utils.validate_story_input story_text).1 = true ->
  1 <= N ->
  app.LOCAL_DIFFUSION_AVAILABLE w = false ->
  app.generate_comic w st story_text art_style N layout_style
    llm_model api_url api_key
  = ((utils_io.get_session_state st).2,
     [app.st_progress 0; app.st_empty;
      app.status_text ([129302%N] ++ py " Generating panel descriptions...");
      app.progress 20;
      app.status_text ([127912%N] ++ py " Generating images...");
      app.progress 40;
      app.st_error
        ([10060%N] ++ py " Error generating comic: An unexpected error occurred: "
           ++ app.str_raised w (NameError (py "torch")));
      app.progress 0;
      app.status_text ([10060%N] ++ py " Generation failed")]).
Proof.
  intros Hvalid HN Hflag. unfold app.generate_comic.
  destruct (utils_io.get_session_state st) as [session_data st'].
  destruct (utils.validate_story_input story_text) as [is_valid error_msg].
  simpl in Hvalid. subst is_valid. cbn [negb].
  destruct (panel_descriptions_count (app.is_service_available w) (app.llm_post w)
              story_text N HN) as (panels & -> & _).
  rewrite Hflag. reflexivity.
Qed.

Lemma generate_comic_without_diffusion_libraries_witness :
  let w :=
    {| app.is_service_available := false;
       app.llm_post := fun _ => Raise ValueError;
       app.LOCAL_DIFFUSION_AVAILABLE := false;
       app.from_pretrained := Raise ValueError;
       app.getenv := fun _ => None;
       app.image_post :=
         fun _ _ _ => Ret (200, Ret (ImageGenerator.HasImages (Ret [137%N; 80%N])));
       app.image_open := fun data => Ret (Raster (512, 512) data);
       app.start_time := 0;
       app.end_time := 1.5;
       app.str_raised := fun _ => py "name 'torch' is not defined" |} in
  (app.generate_comic (R := example_runtime) w None
     (py "A cat discovers a magical garden.") (py "anime") 2 (py "horizontal")
     (py "llama2") (py "http://localhost:7860/generate") (py "")).1
  = Some {| utils_io.story := py ""; utils_io.panels := [];
            utils_io.images := []; utils_io.generated := false;
            utils_io.generation_time := None |}
  /\ last (app.generate_comic (R := example_runtime) w None
             (py "A cat discovers a magical garden.") (py "anime") 2
             (py "horizontal") (py "llama2")
             (py "http://localhost:7860/generate") (py "")).2
     = Some (app.status_text ([10060%N] ++ py " Generation failed")).
Proof.
  intros w.
  rewrite (generate_comic_without_diffusion_libraries example_runtime w None
             (py "A cat discovers a magical garden.") (py "anime") 2
             (py "horizontal") (py "llama2")
             (py "http://localhost:7860/generate") (py ""))
    by (vm_compute; first [reflexivity | discriminate]).
  split; reflexivity.
Defined.

(* ===================================================================== *)
(** * When every panel of the splitter has text                          *)
(* ===================================================================== *)

Lemma str_join_words_nonempty (ws : list pystr) :
  ws <> [] -> Forall is_word ws -> str_join (py " ") ws <> [].
Proof.
  intros Hne Hws. destruct ws as [|w ws]; [done|].
  apply Forall_inv in Hws as [Hw _]. destruct ws; simpl; [done|]. by destruct w.
Qed.

Lemma panel_words_nonempty (words : list pystr) (n i : Z) :
  1 <= n -> n <= len words -> 0 <= i < n ->
  utils.panel_words words (Z.div (len words) n) n i <> [].
Proof.
  intros Hn Hle Hi.
  destruct (per_panel_bounds words n Hn) as (Hq & Hqn & Hlast).
  assert (Hq1 : 1 <= Z.div (len words) n) by (apply Z.div_le_lower_bound; lia).
  intros E. apply (f_equal (@length pystr)) in E. simpl in E. revert E.
  destruct (Z.eq_dec i (n - 1)) as [->|Hne].
  - rewrite panel_words_last by done. rewrite length_drop.
    set (m := (n - 1) * Z.div (len words) n) in *.
    assert (m + 1 <= len words) by (unfold m; nia).
    assert (0 <= m) by (unfold m; nia). unfold len in *. lia.
  - rewrite panel_words_inner by lia. rewrite length_take, length_drop.
    set (m := i * Z.div (len words) n) in *.
    assert (m + 1 <= len words) by (unfold m; nia).
    assert (0 <= m) by (unfold m; nia). unfold len in *. lia.
Qed.

(** For [n >= 1], every string [split_story_into_panels] returns is
    non-empty exactly when the story has at least [n] words. *)
Theorem split_story_panels_all_nonempty (story : pystr) (n : Z) :
  1 <= n ->
  exists panels,
    utils.split_story_into_panels story n = Ret panels
    /\ (Forall (fun panel => panel <> []) panels <-> n <= len (str_split story)).
Proof.
  intros Hn. eexists. split; [apply split_story_into_panels_spans; lia|].
  set (words := str_split story).
  split.
  - intros Hall. destruct (Z.le_gt_cases n (len words)) as [|Hfew]; [done|exfalso].
    rewrite Forall_fmap, Forall_forall in Hall.
    apply (Hall 0); [apply elem_of_range; lia|]. simpl.
    assert (Hq : Z.div (len words) n = 0)
      by (apply Z.div_small; pose proof (len_nonneg words); lia).
    destruct (Z.eq_dec n 1) as [->|Hn1].
    + assert (Hw : words = []).
      { destruct words; [done|]. unfold len in Hfew. simpl in Hfew. lia. }
      rewrite Hw. reflexivity.
    + rewrite panel_words_inner by lia. by rewrite Hq.
  - intros Hle. apply Forall_fmap, Forall_forall. intros i Hi.
    apply elem_of_range in Hi. simpl. apply str_join_words_nonempty.
    + by apply panel_words_nonempty.
    + apply py_slice_Forall, str_split_words.
Qed.

Lemma split_story_panels_all_nonempty_witness :
  exists panels,
    utils.split_story_into_panels
      (py "This is a test story with multiple words to split into panels.") 3
    = Ret panels
    /\ Forall (fun panel => panel <> []) panels.
Proof.
  destruct (split_story_panels_all_nonempty
              (py "This is a test story with multiple words to split into panels.") 3)
    as (panels & E & Hiff); [lia|].
  exists panels. split; [exact E|]. apply Hiff. vm_compute. discriminate.
Defined.

(* ===================================================================== *)
(** * The local generator's image                                        *)
(* ===================================================================== *)

(** For positive width and height of which Pillow can make an image,
    [generate_image] of the local generator raises nothing and returns an
    image, whatever the pipeline and Pillow's resize and contrast steps do.
    - A generator that is not available returns the placeholder of the
      width and height asked for.
    - An available one calls its pipeline for the enhanced prompt, the
      width and height asked for, 20 steps, guidance 7.5 and one image.
      When the pipeline returns images and post-processing returns, the
      result is the first of them post-processed: resized with LANCZOS to
      512x512 exactly when its size differs, then given the contrast boost
      1.2 exactly when the style is ["comic"]; its size is 512x512.
    - In every other case (no image, an exception of the pipeline, a resize
      or boost that raises) the result is that placeholder. *)
Theorem local_generate_image_result (R : Runtime) (L : Limits)
    (self : LocalImageGenerator.t) (prompt style : pystr) (width height : Z) :
  1 <= width -> 1 <= height -> too_large (width, height) = None ->
  exists enhanced placeholder,
    LocalImageGenerator._enhance_prompt prompt style = Ret enhanced
    /\ LocalImageGenerator._create_placeholder_image prompt width height
       = Ret placeholder
    /\ size placeholder = (width, height)
    /\ let result :=
         LocalImageGenerator.generate_image self prompt style width height in
       (LocalImageGenerator.is_available self = false ->
        result = Ret (Some placeholder))
       /\ (LocalImageGenerator.is_available self = true ->
           exists call,
             LocalImageGenerator.pipeline self = Some call
             /\ let images := call enhanced width height 20 7.5%Q 1 in
                (forall generated rest img,
                    images = Ret (generated :: rest) ->
                    LocalImageGenerator._post_process_image generated style
                    = Ret img ->
                    result = Ret (Some img)
                    /\ size img = (512, 512)
                    /\ (size generated = (512, 512) -> style <> py "comic" ->
                        img = generated)
                    /\ (size generated <> (512, 512) -> style <> py "comic" ->
                        img = Resized generated (512, 512) LANCZOS)
                    /\ (size generated = (512, 512) -> style = py "comic" ->
                        img = Contrast generated 1.2%Q)
                    /\ (size generated <> (512, 512) -> style = py "comic" ->
                        img = Contrast (Resized generated (512, 512) LANCZOS)
                                1.2%Q))
                /\ (images = Ret []
                    \/ (exists e, images = Raise e)
                    \/ (exists generated rest e,
                           images = Ret (generated :: rest)
                           /\ LocalImageGenerator._post_process_image
                                generated style = Raise e) ->
                    result = Ret (Some placeholder)))
       /\ (forall generated,
              (exists img,
                  LocalImageGenerator._post_process_image generated style
                  = Ret img)
              <-> (size generated <> (512, 512) ->
                   resize_raises generated (512, 512) LANCZOS = None)
                  /\ (style = py "comic" ->
                      enhance_raises
                        (if decide (size generated <> (512, 512))
                         then Resized generated (512, 512) LANCZOS
                         else generated)
                        1.2%Q = None))
       /\ exists img,
           result = Ret (Some img)
           /\ (size img = (512, 512) \/ img = placeholder).
Proof.
  intros Hw Hh Hfits.
  destruct (local_placeholder_fits R L prompt width height Hw Hh Hfits)
    as (ph & Hph & Hsize).
  destruct (local_enhance_ok prompt style) as (enhanced & Henh).
  exists enhanced, ph.
  split; [exact Henh|]. split; [exact Hph|]. split; [exact Hsize|].
  cbv zeta.
  rewrite (local_generate_image_outcome R L self prompt style width height _ Henh),
    Hph.
  split; [|split; [|split]].
  - by intros ->.
  - intros Havail. rewrite Havail.
    unfold LocalImageGenerator.is_available in Havail.
    apply andb_true_iff in Havail as [_ Hsome].
    apply bool_decide_eq_true in Hsome as [call Hcall].
    exists call. split; [exact Hcall|]. rewrite Hcall. split.
    + intros generated rest img -> Hpp. rewrite Hpp. split; [reflexivity|].
      rewrite post_process_same in Hpp.
      destruct (post_process_outcome R generated style) as (_ & Hret & _).
      destruct (Hret img Hpp) as (-> & _).
      split; [apply boosted_panel_size|].
      unfold boosted_panel, resized_panel.
      repeat split; intros Hs Hc;
        destruct (decide (size generated <> (512, 512)));
        destruct (decide (style = py "comic")); done.
    + intros [-> | [[e ->] | (generated & rest & e & -> & ->)]]; reflexivity.
  - intros generated. rewrite post_process_same.
    destruct (post_process_outcome R generated style) as (Hok & Hret & _).
    split.
    + intros [img Hpp]. by destruct (Hret img Hpp) as (_ & H1 & H2).
    + intros H. eexists. apply Hok. exact H.
  - destruct (if LocalImageGenerator.is_available self
              then LocalImageGenerator.pipeline self else None) as [call|];
      [|exists ph; split; [reflexivity|]; by right].
    destruct (call enhanced width height 20 7.5%Q 1) as [[|generated rest]|e];
      try (exists ph; split; [reflexivity|]; by right).
    destruct (LocalImageGenerator._post_process_image generated style)
      as [img|e] eqn:Hpp;
      [|exists ph; split; [reflexivity|]; by right].
    exists img. split; [reflexivity|]. left.
    rewrite post_process_same in Hpp.
    exact (post_process_size R generated style img Hpp).
Qed.

Lemma local_generate_image_result_witness :
  LocalImageGenerator.generate_image (R := example_runtime) (L := c_int_limits)
    {| LocalImageGenerator.LOCAL_DIFFUSION_AVAILABLE := true;
       LocalImageGenerator.pipeline :=
         Some (fun _ w h _ _ _ => Ret [Raster (w, h) [7%N]; Raster (w, h) [8%N]]) |}
    (py "A cat") (py "comic") 256 256
  = Ret (Some (Contrast (Resized (Raster (256, 256) [7%N]) (512, 512) LANCZOS) 1.2%Q))
  /\ exists placeholder,
      LocalImageGenerator._create_placeholder_image (R := example_runtime)
        (L := c_int_limits) (py "A cat") 256 256 = Ret placeholder
      /\ size placeholder = (256, 256)
      /\ LocalImageGenerator.generate_image (R := example_runtime)
           (L := c_int_limits)
           {| LocalImageGenerator.LOCAL_DIFFUSION_AVAILABLE := true;
              LocalImageGenerator.pipeline :=
                Some (fun _ w h _ _ _ => Ret [Raster (w, h) []]) |}
           (py "A cat") (py "comic") 256 256
         = Ret (Some placeholder).
Proof.
  split.
  - destruct (local_generate_image_result example_runtime c_int_limits
                {| LocalImageGenerator.LOCAL_DIFFUSION_AVAILABLE := true;
                   LocalImageGenerator.pipeline :=
                     Some (fun _ w h _ _ _ =>
                             Ret [Raster (w, h) [7%N]; Raster (w, h) [8%N]]) |}
                (py "A cat") (py "comic") 256 256)
      as (enhanced & placeholder & _ & _ & _ & _ & Havail & _);
      [lia|lia|reflexivity|].
    destruct (Havail eq_refl) as (call & Hcall & Hfirst & _).
    injection Hcall as <-.
    apply (Hfirst (Raster (256, 256) [7%N]) [Raster (256, 256) [8%N]]
             (Contrast (Resized (Raster (256, 256) [7%N]) (512, 512) LANCZOS)
                1.2%Q)); reflexivity.
  - destruct (local_generate_image_result example_runtime c_int_limits
                {| LocalImageGenerator.LOCAL_DIFFUSION_AVAILABLE := true;
                   LocalImageGenerator.pipeline :=
                     Some (fun _ w h _ _ _ => Ret [Raster (w, h) []]) |}
                (py "A cat") (py "comic") 256 256)
      as (enhanced & placeholder & _ & Hph & Hsize & _ & Havail & _);
      [lia|lia|reflexivity|].
    exists placeholder. split; [exact Hph|]. split; [exact Hsize|].
    destruct (Havail eq_refl) as (call & Hcall & _ & Hother).
    injection Hcall as <-.
    apply Hother. right. right.
    exists (Raster (256, 256) []), [], OSError. split; reflexivity.
Defined.

(* ===================================================================== *)
(** * The configuration of the remote generator                          *)
(* ===================================================================== *)

Lemma str_or_spec (a b : option pystr) :
  (forall x, a = Some x -> x <> [] -> ImageGenerator.str_or a b = Some x)
  /\ (a = None \/ a = Some [] -> ImageGenerator.str_or a b = b).
Proof.
  split.
  - intros x -> Hx. by destruct x.
  - by intros [-> | ->].
Qed.

(** [ImageGenerator(api_url, api_key)]: a non-empty argument wins over the
    environment variable, and an argument left out or empty (what the page
    passes for a blank field) falls back to the variable. The headers are
    [Content-Type] and, exactly when a non-empty key was resolved,
    [Authorization] with ["Bearer "] before the key; there is no other
    header. A generator that resolved no URL never asks the service:
    [_call_image_api] returns [None] whatever the service would do. *)
Theorem image_generator_configuration (R : Runtime)
    (getenv : pystr -> option pystr) (api_url api_key : option pystr) :
  let self := ImageGenerator.__init__ getenv api_url api_key in
  let env_url := getenv (py "STABLE_DIFFUSION_API_URL") in
  let env_key := getenv (py "HUGGING_FACE_API_KEY") in
  let headers := ImageGenerator.default_headers self in
  (forall url, api_url = Some url -> url <> [] ->
               ImageGenerator.api_url self = Some url)
  /\ (api_url = None \/ api_url = Some [] -> ImageGenerator.api_url self = env_url)
  /\ headers !! py "Content-Type" = Some (py "application/json")
  /\ (forall key, api_key = Some key -> key <> [] ->
                  headers !! py "Authorization" = Some (py "Bearer " ++ key))
  /\ (api_key = None \/ api_key = Some [] ->
      headers !! py "Authorization"
      = match env_key with
        | Some (c :: key) => Some (py "Bearer " ++ c :: key)
        | _ => None
        end)
  /\ (forall name, is_Some (headers !! name) ->
                   name = py "Content-Type" \/ name = py "Authorization")
  /\ (ImageGenerator.api_url self = None \/ ImageGenerator.api_url self = Some [] ->
      forall post prompt width height,
        ImageGenerator._call_image_api self post prompt width height = Ret None).
Proof.
  intros self env_url env_key headers.
  destruct (str_or_spec api_url env_url) as [Hurl1 Hurl2].
  destruct (str_or_spec api_key env_key) as [Hkey1 Hkey2].
  assert (Hne : py "Authorization" <> py "Content-Type") by (vm_compute; discriminate).
  split; [exact Hurl1|]. split; [exact Hurl2|].
  subst headers self. unfold ImageGenerator.__init__.
  cbn [ImageGenerator.api_url ImageGenerator.default_headers].
  fold env_url env_key.
  split.
  { destruct (ImageGenerator.str_or api_key env_key) as [[|c key]|];
      cbn [truthy];
      rewrite ?lookup_insert_ne by done; apply lookup_singleton_eq. }
  split.
  { intros key Hk Hnonempty. rewrite (Hkey1 key Hk Hnonempty).
    destruct key; [done|]. cbn [truthy]. apply lookup_insert_eq. }
  split.
  { intros Hk. rewrite (Hkey2 Hk).
    destruct env_key as [[|c key]|]; cbn [truthy].
    - by rewrite lookup_singleton_ne.
    - apply lookup_insert_eq.
    - by rewrite lookup_singleton_ne. }
  split.
  { intros name [v Hv].
    destruct (decide (name = py "Authorization")) as [|Hna]; [by right|left].
    destruct (decide (name = py "Content-Type")) as [|Hnc]; [done|exfalso].
    destruct (ImageGenerator.str_or api_key env_key) as [[|c key]|];
      cbn [truthy] in Hv;
      rewrite ?lookup_insert_ne in Hv by done;
      by rewrite lookup_singleton_ne in Hv. }
  intros Hnone post prompt width height.
  unfold ImageGenerator._call_image_api.
  cbn [ImageGenerator.api_url].
  by destruct Hnone as [-> | ->].
Qed.
